(** * The Airtable proxy of prioai-admin: admission pipeline

    Two Cloudflare Pages Functions are embedded here:

    - [QueryVariant] is [functions/api/airtable.js], where the resource
      arrives in the [path] query parameter;
    - [PathVariant] is the second proxy of the repository, where the
      resource arrives in the URL path after [/api/airtable/].

    JavaScript strings are sequences of UTF-16 code units, modelled as
    [list Z].  Integers ([Date.now()], counters, status codes) are [Z].
    The rate-limit [Map] is a [gmap] from client key to record; the object
    stored in the map is shared with the local variable [record], so
    [record.count++] is an update of the map.  The clock, the secret
    configuration and [fetch] are inputs of the handlers. *)

From Stdlib Require Import ZArith List String Ascii Bool Lia.
From Stdlib Require Import Numbers.DecimalString.
From stdpp Require Import base option gmap.

Local Open Scope Z_scope.

(** ** The parts of the JavaScript platform the handlers use *)

Module JS.

(** A string literal of the source (ASCII) as code units. *)
Definition str (s : string) : list Z :=
  List.map (fun a => Z.of_N (N_of_ascii a)) (list_ascii_of_string s).
Arguments str s%_string.

(** [===] on strings. *)
Fixpoint str_eqb (a b : list Z) : bool :=
  match a, b with
  | [], [] => true
  | x :: a', y :: b' => (x =? y) && str_eqb a' b'
  | _, _ => false
  end.

(** [Array.prototype.includes] on an array of strings. *)
Definition includes (arr : list (list Z)) (x : list Z) : bool :=
  existsb (str_eqb x) arr.

(** [s.startsWith(p)] *)
Fixpoint startsWith (s p : list Z) : bool :=
  match p, s with
  | [], _ => true
  | c :: p', d :: s' => (c =? d) && startsWith s' p'
  | _ :: _, [] => false
  end.

(** [s.replace(pat, rep)] for a string pattern: the first occurrence only.
    The source passes the empty replacement, so the [$] patterns of the
    replacement text play no role. *)
Fixpoint replace (pat rep s : list Z) : list Z :=
  if startsWith s pat then rep ++ skipn (List.length pat) s
  else match s with
       | [] => []
       | c :: s' => c :: replace pat rep s'
       end.

(** [s.split(sep)] for a separator of one code unit; the result is never
    empty: [''.split('/')] is [['']]. *)
Fixpoint split (sep : Z) (s : list Z) : list (list Z) :=
  match s with
  | [] => [[]]
  | c :: s' =>
      if c =? sep then [] :: split sep s'
      else match split sep s' with
           | h :: t => (c :: h) :: t
           | [] => [[c]]
           end
  end.

(** Truthiness of a string, and of a string-or-null/undefined. *)
Definition truthy (s : list Z) : bool :=
  match s with [] => false | _ => true end.

Definition truthy_opt (o : option (list Z)) : bool :=
  match o with Some s => truthy s | None => false end.

(** [a || b] on string-or-null values. *)
Definition or_else (a b : option (list Z)) : option (list Z) :=
  if truthy_opt a then a else b.

(** [arr.filter(Boolean)] on an array of strings. *)
Definition filter_Boolean (arr : list (list Z)) : list (list Z) :=
  List.filter truthy arr.

(** White space and line terminators, as [String.prototype.trim] strips
    them. *)
Definition is_line_terminator (c : Z) : bool :=
  (c =? 10) || (c =? 13) || (c =? 8232) || (c =? 8233).

Definition is_white_space (c : Z) : bool :=
  (c =? 9) || (c =? 11) || (c =? 12) || (c =? 32) || (c =? 160)
  || (c =? 5760) || ((8192 <=? c) && (c <=? 8202)) || (c =? 8239)
  || (c =? 8287) || (c =? 12288) || (c =? 65279) || is_line_terminator c.

Fixpoint trimStart (s : list Z) : list Z :=
  match s with
  | c :: s' => if is_white_space c then trimStart s' else s
  | [] => []
  end.

Definition trim (s : list Z) : list Z :=
  rev (trimStart (rev (trimStart s))).

(** [n.toString()] for an integer [n]. *)
Definition Number_toString (n : Z) : list Z :=
  str (NilZero.string_of_int (Z.to_int n)).

(** [Math.ceil(x / d)] for integers [x] and [d > 0]. *)
Definition ceil_div (x d : Z) : Z := - ((- x) / d).

(** *** Exceptions *)

Inductive exn :=
| URIError                       (* decodeURIComponent, encodeURIComponent *)
| RangeError                     (* new Response: status outside 200..599 *)
| TypeError                      (* new Response: body with a null-body status *)
| SyntaxError (message : list Z) (* JSON.parse *)
| FetchError (message : list Z). (* fetch, or the read of a body, rejects *)

(** The completion of a call that may throw. *)
Inductive completion (A : Type) :=
| Normal (a : A)
| Throw (e : exn).
Arguments Normal {A} a.
Arguments Throw {A} e.

Definition bind {A B : Type} (c : completion A) (k : A -> completion B)
  : completion B :=
  match c with
  | Normal a => k a
  | Throw e => Throw e
  end.

(** [try { c } catch (error) { h error }] *)
Definition try_catch {A : Type} (c : completion A) (h : exn -> completion A)
  : completion A :=
  match c with
  | Normal a => Normal a
  | Throw e => h e
  end.

(** *** UTF-8 and UTF-16 *)

Definition hex_value (c : Z) : option Z :=
  if (48 <=? c) && (c <=? 57) then Some (c - 48)
  else if (65 <=? c) && (c <=? 70) then Some (c - 55)
  else if (97 <=? c) && (c <=? 102) then Some (c - 87)
  else None.

(** [ParseHexOctet]: two hexadecimal digits as a byte. *)
Definition hex_octet (h l : Z) : option Z :=
  match hex_value h, hex_value l with
  | Some a, Some b => Some (16 * a + b)
  | _, _ => None
  end.

Definition hex_digit (v : Z) : Z :=
  if v <? 10 then 48 + v else 55 + v.

(** [%XX] with upper-case digits. *)
Definition percent_byte (b : Z) : list Z :=
  [37; hex_digit (b / 16); hex_digit (b mod 16)].

(** [UTF16EncodeCodePoint] *)
Definition UTF16EncodeCodePoint (cp : Z) : list Z :=
  if cp <=? 65535 then [cp]
  else [(cp - 65536) / 1024 + 55296; (cp - 65536) mod 1024 + 56320].

Definition utf8_encode (cp : Z) : list Z :=
  if cp <? 128 then [cp]
  else if cp <? 2048 then [192 + cp / 64; 128 + cp mod 64]
  else if cp <? 65536 then
    [224 + cp / 4096; 128 + (cp / 64) mod 64; 128 + cp mod 64]
  else [240 + cp / 262144; 128 + (cp / 4096) mod 64;
        128 + (cp / 64) mod 64; 128 + cp mod 64].

Definition is_continuation (b : Z) : bool := (128 <=? b) && (b <=? 191).

(** The code point of a sequence of octets, when the sequence is a valid
    UTF-8 encoding of one code point (shortest form, no surrogate, at most
    U+10FFFF). *)
Definition utf8_code_point (octets : list Z) : option Z :=
  match octets with
  | [b0] => if b0 <? 128 then Some b0 else None
  | [b0; b1] =>
      let v := (b0 - 192) * 64 + (b1 - 128) in
      if (192 <=? b0) && (b0 <=? 223) && is_continuation b1 && (128 <=? v)
      then Some v else None
  | [b0; b1; b2] =>
      let v := (b0 - 224) * 4096 + (b1 - 128) * 64 + (b2 - 128) in
      if (224 <=? b0) && (b0 <=? 239) && is_continuation b1
         && is_continuation b2 && (2048 <=? v)
         && negb ((55296 <=? v) && (v <=? 57343))
      then Some v else None
  | [b0; b1; b2; b3] =>
      let v := (b0 - 240) * 262144 + (b1 - 128) * 4096
               + (b2 - 128) * 64 + (b3 - 128) in
      if (240 <=? b0) && (b0 <=? 247) && is_continuation b1
         && is_continuation b2 && is_continuation b3
         && (65536 <=? v) && (v <=? 1114111)
      then Some v else None
  | _ => None
  end.

(** The number of leading 1 bits of a byte (5 stands for 5 or more). *)
Definition leading_ones (b : Z) : nat :=
  if b <? 128 then 0%nat
  else if b <? 192 then 1%nat
  else if b <? 224 then 2%nat
  else if b <? 240 then 3%nat
  else if b <? 248 then 4%nat
  else 5%nat.

(** *** [decodeURIComponent]

    The [Decode] operation of ECMAScript with an empty set of preserved
    escapes.  [None] is the [URIError] it throws. *)

(** The [n] escapes [%XX] that continue a multi-byte sequence. *)
Fixpoint continuation_octets (n : nat) (s : list Z)
  : option (list Z * list Z) :=
  match n with
  | O => Some ([], s)
  | S n' =>
      match s with
      | p :: h :: l :: s' =>
          if p =? 37 then
            match hex_octet h l with
            | Some b =>
                match continuation_octets n' s' with
                | Some (bs, s'') => Some (b :: bs, s'')
                | None => None
                end
            | None => None
            end
          else None
      | _ => None
      end
  end.

Fixpoint Decode (fuel : nat) (s : list Z) : option (list Z) :=
  match fuel with
  | O => None
  | S fuel' =>
      match s with
      | [] => Some []
      | c :: rest =>
          if c =? 37 then
            match rest with
            | h :: l :: rest' =>
                match hex_octet h l with
                | None => None
                | Some b =>
                    match leading_ones b with
                    | O => option_map (cons b) (Decode fuel' rest')
                    | S O => None
                    | S (S (S (S (S _)))) => None
                    | S n' =>
                        match continuation_octets n' rest' with
                        | None => None
                        | Some (bs, rest'') =>
                            match utf8_code_point (b :: bs) with
                            | None => None
                            | Some v =>
                                option_map (app (UTF16EncodeCodePoint v))
                                           (Decode fuel' rest'')
                            end
                        end
                    end
                end
            | _ => None
            end
          else option_map (cons c) (Decode fuel' rest)
      end
  end.

Definition decodeURIComponent (s : list Z) : completion (list Z) :=
  match Decode (S (List.length s)) s with
  | Some r => Normal r
  | None => Throw URIError
  end.

(** *** [encodeURIComponent] *)

Definition is_alnum (c : Z) : bool :=
  ((48 <=? c) && (c <=? 57)) || ((65 <=? c) && (c <=? 90))
  || ((97 <=? c) && (c <=? 122)).

(** Alphanumerics and [- _ . ! ~ * ' ( )]. *)
Definition uri_unescaped (c : Z) : bool :=
  is_alnum c || (c =? 45) || (c =? 95) || (c =? 46) || (c =? 33)
  || (c =? 126) || (c =? 42) || (c =? 39) || (c =? 40) || (c =? 41).

Definition is_lead_surrogate (c : Z) : bool := (55296 <=? c) && (c <=? 56319).
Definition is_trail_surrogate (c : Z) : bool := (56320 <=? c) && (c <=? 57343).

Definition surrogate_pair (hi lo : Z) : Z :=
  (hi - 55296) * 1024 + (lo - 56320) + 65536.

Definition percent_encode_code_point (cp : Z) : list Z :=
  List.concat (List.map percent_byte (utf8_encode cp)).

Fixpoint Encode (s : list Z) : option (list Z) :=
  match s with
  | [] => Some []
  | c :: rest =>
      if uri_unescaped c then option_map (cons c) (Encode rest)
      else if is_trail_surrogate c then None
      else if is_lead_surrogate c then
        match rest with
        | d :: rest' =>
            if is_trail_surrogate d
            then option_map (app (percent_encode_code_point (surrogate_pair c d)))
                            (Encode rest')
            else None
        | [] => None
        end
      else option_map (app (percent_encode_code_point c)) (Encode rest)
  end.

Definition encodeURIComponent (s : list Z) : completion (list Z) :=
  match Encode s with
  | Some r => Normal r
  | None => Throw URIError
  end.

(** *** URL and URLSearchParams

    [new URL(input)] is used by the query-parameter proxy on an absolute
    string that begins with [https://api.airtable.com/v0/], written in the
    source, and the proxy fetches [url.toString()].  The model is the URL
    parser of the URL Standard on an input [https://<host>...] whose host
    is a lower-case ASCII domain without credentials and port, which the
    parser keeps as written: the path, the query and the fragment are
    parsed as the parser's path, query and fragment states do.  The URL
    object holds what [toString()] serializes: the origin, the serialized
    path ([pathname]), the query as the list of parameters that
    [url.searchParams] shows, and the fragment. *)

(** A string as scalar values: a lone surrogate becomes U+FFFD. *)
Fixpoint scalar_values (s : list Z) : list Z :=
  match s with
  | [] => []
  | c :: rest =>
      if is_lead_surrogate c then
        match rest with
        | d :: rest' =>
            if is_trail_surrogate d
            then surrogate_pair c d :: scalar_values rest'
            else 65533 :: scalar_values rest
        | [] => [65533]
        end
      else if is_trail_surrogate c then 65533 :: scalar_values rest
      else c :: scalar_values rest
  end.

Definition is_c0_or_space (c : Z) : bool := c <=? 32.

Fixpoint drop_while (f : Z -> bool) (l : list Z) : list Z :=
  match l with
  | c :: l' => if f c then drop_while f l' else l
  | [] => []
  end.

(** Leading and trailing C0 controls and spaces are stripped, then every
    tab and newline is removed. *)
Definition url_clean (cps : list Z) : list Z :=
  List.filter (fun c => negb ((c =? 9) || (c =? 10) || (c =? 13)))
    (rev (drop_while is_c0_or_space (rev (drop_while is_c0_or_space cps)))).

Fixpoint until_hash (cps : list Z) : list Z :=
  match cps with
  | [] => []
  | c :: r => if c =? 35 then [] else c :: until_hash r
  end.

(** The query: what follows the first [?], when no [#] comes before it,
    up to the next [#]. *)
Fixpoint url_query (cps : list Z) : option (list Z) :=
  match cps with
  | [] => None
  | c :: r =>
      if c =? 35 then None
      else if c =? 63 then Some (until_hash r)
      else url_query r
  end.

(** A code unit other than [?]. *)
Definition not_question_mark (c : Z) : Prop := c <> 63.

(** The special-query percent-encode set. *)
Definition in_special_query_set (c : Z) : bool :=
  (c <=? 31) || (126 <? c) || (c =? 32) || (c =? 34) || (c =? 35)
  || (c =? 60) || (c =? 62) || (c =? 39).

Definition query_bytes (cps : list Z) : list Z :=
  List.concat
    (List.map (fun c => if in_special_query_set c
                        then percent_encode_code_point c else [c]) cps).

(** Percent-decoding of bytes: an escape that is not two hexadecimal
    digits is left as it is. *)
Fixpoint percent_decode (s : list Z) : list Z :=
  match s with
  | [] => []
  | c :: rest =>
      if c =? 37 then
        match rest with
        | h :: l :: rest' =>
            match hex_octet h l with
            | Some b => b :: percent_decode rest'
            | None => c :: percent_decode rest
            end
        | _ => c :: percent_decode rest
        end
      else c :: percent_decode rest
  end.

(** The first byte of a UTF-8 sequence: a code point, or the state
    (code point so far, bytes needed, lower and upper boundary). *)
Definition utf8_start (b : Z) : Z + (Z * nat * Z * Z) :=
  if b <? 128 then inl b
  else if (194 <=? b) && (b <=? 223) then inr (b - 192, 1%nat, 128, 191)
  else if (224 <=? b) && (b <=? 239) then
    inr (b - 224, 2%nat, if b =? 224 then 160 else 128,
         if b =? 237 then 159 else 191)
  else if (240 <=? b) && (b <=? 244) then
    inr (b - 240, 3%nat, if b =? 240 then 144 else 128,
         if b =? 244 then 143 else 191)
  else inl 65533.

(** UTF-8 decoding with replacement of ill-formed sequences by U+FFFD. *)
Fixpoint utf8_decode (st : option (Z * nat * Z * Z)) (bytes : list Z)
  : list Z :=
  match bytes with
  | [] => match st with None => [] | Some _ => [65533] end
  | b :: rest =>
      let start :=
        match utf8_start b with
        | inl cp => cp :: utf8_decode None rest
        | inr s => utf8_decode (Some s) rest
        end in
      match st with
      | None => start
      | Some (cp, need, lo, hi) =>
          if (lo <=? b) && (b <=? hi) then
            let cp' := cp * 64 + (b - 128) in
            match need with
            | S (S n) => utf8_decode (Some (cp', S n, 128, 191)) rest
            | _ => cp' :: utf8_decode None rest
            end
          else 65533 :: start
      end
  end.

Definition utf16_of_scalars (cps : list Z) : list Z :=
  List.concat (List.map UTF16EncodeCodePoint cps).

Definition urlencoded_decode (bytes : list Z) : list Z :=
  utf16_of_scalars
    (utf8_decode None
       (percent_decode (List.map (fun b => if b =? 43 then 32 else b) bytes))).

(** A sequence at its first [=]. *)
Fixpoint split_first (sep : Z) (s : list Z) : list Z * list Z :=
  match s with
  | [] => ([], [])
  | c :: r =>
      if c =? sep then ([], r)
      else let '(a, b) := split_first sep r in (c :: a, b)
  end.

(** The [application/x-www-form-urlencoded] parser. *)
Definition urlencoded_parse (query : list Z) : list (list Z * list Z) :=
  List.map (fun seq => let '(n, v) := split_first 61 seq in
                       (urlencoded_decode n, urlencoded_decode v))
           (List.filter truthy (split 38 query)).

(** The path percent-encode set and the fragment percent-encode set. *)
Definition in_path_set (c : Z) : bool :=
  (c <=? 31) || (126 <? c) || (c =? 32) || (c =? 34) || (c =? 35)
  || (c =? 60) || (c =? 62) || (c =? 63) || (c =? 94) || (c =? 96)
  || (c =? 123) || (c =? 125).

Definition in_fragment_set (c : Z) : bool :=
  (c <=? 31) || (126 <? c) || (c =? 32) || (c =? 34) || (c =? 60)
  || (c =? 62) || (c =? 96).

Definition ascii_lower (c : Z) : Z :=
  if (65 <=? c) && (c <=? 90) then c + 32 else c.

(** A single-dot and a double-dot path segment, [%2e] standing for a dot
    in either case of the [e]. *)
Definition is_single_dot (segment : list Z) : bool :=
  includes [str "."; str "%2e"] (List.map ascii_lower segment).

Definition is_double_dot (segment : list Z) : bool :=
  includes [str ".."; str ".%2e"; str "%2e."; str "%2e%2e"]
           (List.map ascii_lower segment).

(** A code point of a path segment, percent-encoded when it is in the
    path percent-encode set. *)
Definition path_encode (c : Z) : list Z :=
  if in_path_set c then percent_encode_code_point c else [c].

(** The path state at the end of a segment: [slash] tells that the
    segment ends at a [/] or a [\], not at the end of the path.  A
    double-dot segment removes the last segment of the path, a single-dot
    segment adds nothing; either leaves an empty segment at the end of
    the path. *)
Definition end_segment (slash : bool) (path : list (list Z))
    (buffer : list Z) : list (list Z) :=
  if is_double_dot buffer then
    if slash then removelast path else removelast path ++ [[]]
  else if is_single_dot buffer then
    if slash then path else path ++ [[]]
  else path ++ [buffer].

(** The path state: the path ends at the first [?] or [#]; [/] and [\]
    end a segment; any other code point goes to the buffer, percent-encoded
    when it is in the path percent-encode set. *)
Fixpoint path_state (path : list (list Z)) (buffer : list Z)
    (cps : list Z) : list (list Z) :=
  match cps with
  | [] => end_segment false path buffer
  | c :: rest =>
      if (c =? 63) || (c =? 35) then end_segment false path buffer
      else if (c =? 47) || (c =? 92) then
        path_state (end_segment true path buffer) [] rest
      else path_state path (buffer ++ path_encode c) rest
  end.

(** The path start state: one [/] or [\] before the path is skipped. *)
Definition path_start_state (cps : list Z) : list (list Z) :=
  path_state [] []
    (match cps with
     | c :: rest => if (c =? 47) || (c =? 92) then rest else cps
     | [] => []
     end).

(** The URL path serializer. *)
Definition serialize_path (path : list (list Z)) : list Z :=
  List.concat (List.map (cons 47) path).

(** The host of an input [https://<host>...] and what follows it: the
    host ends at the first [/], [\], [?] or [#]. *)
Fixpoint host_state (cps : list Z) : list Z * list Z :=
  match cps with
  | [] => ([], [])
  | c :: rest =>
      if (c =? 47) || (c =? 92) || (c =? 63) || (c =? 35) then ([], cps)
      else (c :: fst (host_state rest), snd (host_state rest))
  end.

(** The fragment: what follows the first [#]. *)
Fixpoint url_fragment (cps : list Z) : option (list Z) :=
  match cps with
  | [] => None
  | c :: rest => if c =? 35 then Some rest else url_fragment rest
  end.

Definition fragment_bytes (cps : list Z) : list Z :=
  List.concat
    (List.map (fun c => if in_fragment_set c
                        then percent_encode_code_point c else [c]) cps).

Record URL := {
  origin : list Z;                          (* https://<host> *)
  pathname : list Z;
  searchParams : list (list Z * list Z);
  fragment : option (list Z)                (* url.hash without its # *)
}.

Definition new_URL (input : list Z) : URL :=
  let cps := url_clean (scalar_values input) in
  {| origin := firstn 8 cps ++ fst (host_state (skipn 8 cps));
     pathname :=
       serialize_path (path_start_state (snd (host_state (skipn 8 cps))));
     searchParams :=
       match url_query cps with
       | Some q => urlencoded_parse (query_bytes q)
       | None => []
       end;
     fragment := option_map fragment_bytes (url_fragment cps) |}.

(** A code unit that the path state copies as it is: it is not in the
    path percent-encode set (which holds [?] and [#]) and is not a [\]. *)
Definition kept_in_path (c : Z) : bool :=
  negb (in_path_set c) && negb (c =? 92).

Definition is_dot_segment (segment : list Z) : bool :=
  is_single_dot segment || is_double_dot segment.

(** [params.get(name)] *)
Definition searchParams_get (name : list Z) (l : list (list Z * list Z))
  : option (list Z) :=
  option_map snd (List.find (fun p => str_eqb (fst p) name) l).

(** [params.set(name, value)]: the first pair of that name takes the
    value and the later ones are removed; without one the pair is
    appended. *)
Fixpoint searchParams_set (name value : list Z) (l : list (list Z * list Z))
  : list (list Z * list Z) :=
  match l with
  | [] => [(name, value)]
  | (k, v) :: r =>
      if str_eqb k name
      then (k, value) :: List.filter (fun p => negb (str_eqb (fst p) name)) r
      else (k, v) :: searchParams_set name value r
  end.

Definition URL_set (name value : list Z) (u : URL) : URL :=
  {| origin := origin u;
     pathname := pathname u;
     searchParams := searchParams_set name value (searchParams u);
     fragment := fragment u |}.

(** *** Objects used as header maps *)

Definition object := list (list Z * list Z).

Fixpoint obj_set (k v : list Z) (o : object) : object :=
  match o with
  | [] => [(k, v)]
  | (k', v') :: r =>
      if str_eqb k' k then (k', v) :: r else (k', v') :: obj_set k v r
  end.

Definition obj_get (k : list Z) (o : object) : option (list Z) :=
  option_map snd (List.find (fun p => str_eqb (fst p) k) o).

(** An object literal: the properties and spreads in the order written,
    a later one replacing the value of an earlier one. *)
Definition object_literal (props : list (list Z * list Z)) : object :=
  fold_left (fun o p => obj_set (fst p) (snd p) o) props [].

(** The header map [h] carries every header of [cors], with its value. *)
Definition carries (h cors : object) : Prop :=
  forall k v, obj_get k cors = Some v -> obj_get k h = Some v.

(** *** Values given to [JSON.stringify], and bodies

    [VParsed text] is the value [JSON.parse] returns for [text];
    [VMessage e] is [e.message]; a property whose value is [VUndefined]
    is left out by [JSON.stringify]. *)

#[local] Unset Elimination Schemes.
Inductive jsval :=
| VUndefined
| VString (s : list Z)
| VNumber (n : Z)
| VObject (fields : list (list Z * jsval))
| VParsed (text : list Z)
| VMessage (e : exn).
#[local] Set Elimination Schemes.

Definition VString_or_undefined (o : option (list Z)) : jsval :=
  match o with Some s => VString s | None => VUndefined end.

Inductive Body :=
| Null
| Text (s : list Z)
| JSON_stringify (v : jsval).

Record Response := {
  status : Z;
  headers : object;
  body : Body
}.

Definition is_null_body_status (s : Z) : bool :=
  (s =? 101) || (s =? 103) || (s =? 204) || (s =? 205) || (s =? 304).

(** [new Response(body, { status, headers })] *)
Definition new_Response (b : Body) (st : Z) (h : object)
  : completion Response :=
  if negb ((200 <=? st) && (st <=? 599)) then Throw RangeError
  else if is_null_body_status st
          && match b with Null => false | _ => true end
  then Throw TypeError
  else Normal {| status := st; headers := h; body := b |}.

(** *** The inbound request, the configuration and the upstream *)

Record Request := {
  method : list Z;
  header_Origin : option (list Z);            (* headers.get('Origin') *)
  header_CF_Connecting_IP : option (list Z);  (* headers.get('CF-Connecting-IP') *)
  header_X_Forwarded_For : option (list Z);   (* headers.get('X-Forwarded-For') *)
  url_pathname : list Z;                      (* new URL(request.url).pathname *)
  url_search : list Z;                        (* ... .search *)
  url_searchParams : list (list Z * list Z);  (* ... .searchParams *)
  request_text : completion (list Z)          (* await request.text() *)
}.

Record Context := {
  request : Request;
  env_AIRTABLE_TOKEN : option (list Z)
}.

(** What [fetch] resolves to: the status and the read of the body. *)
Record UpstreamResponse := {
  upstream_status : Z;
  upstream_text : completion (list Z)
}.

(** The upstream call fails in transport: [fetch] rejects, or the read of
    the body of its response does. *)
Definition transport_failure (result : completion UpstreamResponse) (e : exn)
  : Prop :=
  result = Throw e
  \/ exists r, result = Normal r /\ upstream_text r = Throw e.

(** A call of [fetch(url, { method, headers, body })]. *)
Record FetchCall (U : Type) := {
  fetch_url : U;
  fetch_method : list Z;
  fetch_headers : object;
  fetch_body : option Body
}.
Arguments fetch_url {U} _.
Arguments fetch_method {U} _.
Arguments fetch_headers {U} _.
Arguments fetch_body {U} _.

End JS.

Import JS.

(** ** [functions/api/airtable.js]: the resource in the [path] parameter *)

Module QueryVariant.

Definition ALLOWED_ORIGINS : list (list Z) :=
  [ str "https://prioai.ca";
    str "https://www.prioai.ca";
    str "https://dashboard.prioai.ca";
    str "http://localhost:3000";
    str "http://localhost:8788";
    str "http://127.0.0.1:3000";
    str "http://127.0.0.1:8788" ].

Definition ALLOWED_BASE : list Z := str "applOjDjhH0RqLtBH".

Definition ALLOWED_TABLES : list (list Z) :=
  [ str "Admin%20Settings";
    str "Admin Settings";
    str "Team%20Members";
    str "Team Members";
    str "tblMptC862PyL7Znw";
    str "tblvB5OpG0b5mVix3";
    str "tblLpN4wceakfNFpq" ].

Definition RATE_LIMIT : Z := 1000.
Definition RATE_WINDOW : Z := 60 * 1000.

Record RateRecord := {
  windowStart : Z;
  count : Z
}.

(** [checkRateLimit(ip)] (lines 31-46) on the map [rateLimitMap], with
    [now] the value of [Date.now()]; the map after the call and the
    result. *)
Definition checkRateLimit (now : Z) (ip : list Z)
    (rateLimitMap : gmap (list Z) RateRecord)
  : gmap (list Z) RateRecord * bool :=
  let reset :=
    (<[ip := {| windowStart := now; count := 1 |}]> rateLimitMap, true) in
  match rateLimitMap !! ip with
  | None => reset
  | Some record =>
      if now - windowStart record >? RATE_WINDOW then reset
      else if count record >=? RATE_LIMIT then (rateLimitMap, false)
      else (<[ip := {| windowStart := windowStart record;
                       count := count record + 1 |}]> rateLimitMap, true)
  end.

(** The calls of [checkRateLimit] one client makes at the given times,
    in order: the map afterwards and the results. *)
Fixpoint requests (ip : list Z) (times : list Z)
    (rateLimitMap : gmap (list Z) RateRecord)
  : gmap (list Z) RateRecord * list bool :=
  match times with
  | [] => (rateLimitMap, [])
  | t :: times' =>
      let '(m1, r) := checkRateLimit t ip rateLimitMap in
      let '(m2, rs) := requests ip times' m1 in
      (m2, r :: rs)
  end.

(** [getCorsHeaders(origin)] (lines 48-56) *)
Definition getCorsHeaders (origin : list Z) : object :=
  let allowedOrigin :=
    if includes ALLOWED_ORIGINS origin then origin
    else hd [] ALLOWED_ORIGINS in
  object_literal
    [ (str "Access-Control-Allow-Origin", allowedOrigin);
      (str "Access-Control-Allow-Methods", str "GET, POST, PATCH, DELETE, OPTIONS");
      (str "Access-Control-Allow-Headers", str "Content-Type");
      (str "Access-Control-Max-Age", str "86400") ].

Record Validation := {
  valid : bool;
  error : option (list Z)
}.

Definition invalid (message : list Z) : Validation :=
  {| valid := false; error := Some message |}.

(** [validatePath(path)] (lines 58-81); [None] is the [null] that
    [searchParams.get('path')] returns without the parameter. *)
Definition validatePath (path : option (list Z)) : completion Validation :=
  match path with
  | None => Normal (invalid (str "Missing path parameter"))
  | Some path =>
      if negb (truthy path) then
        Normal (invalid (str "Missing path parameter"))
      else if negb (startsWith path ALLOWED_BASE) then
        Normal (invalid (str "Invalid base ID"))
      else
        let pathParts :=
          split 47 (replace (ALLOWED_BASE ++ str "/") [] path) in
        let table := hd [] pathParts in
        if negb (truthy table) then
          Normal (invalid (str "Missing table name"))
        else
          bind (decodeURIComponent table) (fun decodedTable =>
            if negb (includes ALLOWED_TABLES table)
               && negb (includes ALLOWED_TABLES decodedTable)
            then Normal (invalid (str "Table not allowed"))
            else Normal {| valid := true; error := None |})
  end.

(** The clock and the upstream, as one request sees them. *)
Record Platform := {
  Date_now : Z;
  fetch : FetchCall URL -> completion UpstreamResponse
}.

(** One run of the handler: the map afterwards, the calls of [fetch] it
    made, and the response it returns or the exception it lets escape. *)
Record Run := {
  store_after : gmap (list Z) RateRecord;
  fetched : list (FetchCall URL);
  outcome : completion Response
}.

(** [{ ...corsHeaders, 'Content-Type': 'application/json' }] *)
Definition json_headers (corsHeaders : object) : object :=
  object_literal (corsHeaders ++ [(str "Content-Type", str "application/json")]).

(** [JSON.stringify({ error: message })] *)
Definition error_body (message : jsval) : Body :=
  JSON_stringify (VObject [(str "error", message)]).

(** [allowedParams] (line 138) *)
Definition allowedParams : list (list Z) :=
  [ str "pageSize"; str "offset"; str "sort[0][field]";
    str "sort[0][direction]"; str "filterByFormula"; str "view" ].

(** The test of the loop that forwards query parameters (line 140). *)
Definition forwarded (key : list Z) : bool :=
  negb (str_eqb key (str "path"))
  && (includes allowedParams key || startsWith key (str "sort[")).

(** The loop that forwards the allowed query parameters (lines 137-143). *)
Definition forward_params (inbound : list (list Z * list Z)) (airtableUrl : URL)
  : URL :=
  fold_left
    (fun u p =>
       let '(key, value) := p in
       if forwarded key then URL_set key value u else u)
    inbound airtableUrl.

(** [request.headers.get('Origin') || ''] *)
Definition origin_of (request : Request) : list Z :=
  match or_else (header_Origin request) (Some []) with
  | Some o => o
  | None => []
  end.

(** The client key (lines 103-105). *)
Definition clientIP_of (request : Request) : list Z :=
  match
    or_else (header_CF_Connecting_IP request)
      (or_else
         (option_map (fun h => hd [] (split 44 h))
                     (header_X_Forwarded_For request))
         (Some (str "unknown")))
  with
  | Some ip => ip
  | None => str "unknown"
  end.

(** [onRequest(context)] (lines 83-183), on the map [rateLimitMap]. *)
Definition onRequest (context : Context) (platform : Platform)
    (rateLimitMap : gmap (list Z) RateRecord) : Run :=
  let request := request context in
  let origin := origin_of request in
  let corsHeaders := getCorsHeaders origin in
  if str_eqb (method request) (str "OPTIONS") then
    {| store_after := rateLimitMap; fetched := [];
       outcome := new_Response Null 204 corsHeaders |}
  else if negb (str_eqb (method request) (str "GET"))
          && negb (includes ALLOWED_ORIGINS origin) then
    {| store_after := rateLimitMap; fetched := [];
       outcome := new_Response (error_body (VString (str "Origin not allowed")))
                               403 (json_headers corsHeaders) |}
  else
    let clientIP := clientIP_of request in
    let '(rateLimitMap, allowed) :=
      checkRateLimit (Date_now platform) clientIP rateLimitMap in
    if negb allowed then
      {| store_after := rateLimitMap; fetched := [];
         outcome :=
           new_Response
             (error_body
                (VString (str "Rate limit exceeded. Max 1000 requests per minute.")))
             429
             (object_literal
                (corsHeaders ++ [(str "Content-Type", str "application/json");
                                 (str "Retry-After", str "60")])) |}
    else
      let airtableToken := env_AIRTABLE_TOKEN context in
      if negb (truthy_opt airtableToken) then
        {| store_after := rateLimitMap; fetched := [];
           outcome := new_Response
                        (error_body (VString (str "Server configuration error")))
                        500 (json_headers corsHeaders) |}
      else
        let path := searchParams_get (str "path") (url_searchParams request) in
        match validatePath path with
        | Throw e =>
            {| store_after := rateLimitMap; fetched := []; outcome := Throw e |}
        | Normal validation =>
            if negb (valid validation) then
              {| store_after := rateLimitMap; fetched := [];
                 outcome := new_Response
                              (error_body (VString_or_undefined (error validation)))
                              400 (json_headers corsHeaders) |}
            else
              let airtableUrl :=
                forward_params (url_searchParams request)
                  (new_URL (str "https://api.airtable.com/v0/"
                            ++ match path with
                               | Some p => p
                               | None => str "null"
                               end)) in
              let body :=
                if includes [str "POST"; str "PATCH"; str "PUT"] (method request)
                then match request_text request with
                     | Normal b => if truthy b then Some (Text b) else None
                     | Throw _ => None
                     end
                else None in
              let call :=
                {| fetch_url := airtableUrl;
                   fetch_method := method request;
                   fetch_headers :=
                     object_literal
                       [ (str "Authorization",
                          str "Bearer " ++ match airtableToken with
                                           | Some t => t
                                           | None => str "undefined"
                                           end);
                         (str "Content-Type", str "application/json") ];
                   fetch_body := body |} in
              {| store_after := rateLimitMap; fetched := [call];
                 outcome :=
                   try_catch
                     (bind (fetch platform call) (fun response =>
                      bind (upstream_text response) (fun data =>
                      new_Response (Text data) (upstream_status response)
                                   (json_headers corsHeaders))))
                     (fun _ =>
                        new_Response
                          (error_body (VString (str "Failed to fetch from Airtable")))
                          502 (json_headers corsHeaders)) |}
        end.

(** The origin gate lets a request pass: it is a [GET], or its origin is
    on the list. *)
Definition origin_passes (r : Request) : Prop :=
  method r = str "GET" \/ In (origin_of r) ALLOWED_ORIGINS.

End QueryVariant.

(** ** The second proxy: the resource in the URL path *)

Module PathVariant.

Record ALLOWED_PATHS_t := {
  bases : list (list Z);
  tables : list (list Z)
}.

Definition ALLOWED_PATHS : ALLOWED_PATHS_t :=
  {| bases := [ str "appXXXXXXXXXXXXXX" ];
     tables := [ str "Clients"; str "Calls"; str "Leads"; str "Costs";
                 str "Revenue"; str "Settings" ] |}.

Definition ALLOWED_ORIGINS : list (list Z) :=
  [ str "https://prioai.ca";
    str "https://dashboard.prioai.ca";
    str "https://www.prioai.ca";
    str "http://localhost:3000";
    str "http://localhost:8788";
    str "http://127.0.0.1:3000";
    str "http://127.0.0.1:8788" ].

Definition RATE_LIMIT : Z := 1000.
Definition RATE_WINDOW : Z := 60000.

Record RateRecord := {
  count : Z;
  timestamp : Z
}.

(** The object [checkRateLimit] returns; [resetAt] is present only in a
    rejection. *)
Record RateLimit := {
  allowed : bool;
  remaining : Z;
  resetAt : option Z
}.

(** [getRateLimitKey(request)] (lines 26-30) *)
Definition getRateLimitKey (request : Request) : list Z :=
  match
    or_else (header_CF_Connecting_IP request)
      (or_else
         (option_map (fun h => trim (hd [] (split 44 h)))
                     (header_X_Forwarded_For request))
         (Some (str "unknown")))
  with
  | Some ip => ip
  | None => str "unknown"
  end.

(** [checkRateLimit(ip)] (lines 32-47) on the map [rateLimitStore], with
    [now] the value of [Date.now()]. *)
Definition checkRateLimit (now : Z) (ip : list Z)
    (rateLimitStore : gmap (list Z) RateRecord)
  : gmap (list Z) RateRecord * RateLimit :=
  let reset :=
    (<[ip := {| count := 1; timestamp := now |}]> rateLimitStore,
     {| allowed := true; remaining := RATE_LIMIT - 1; resetAt := None |}) in
  match rateLimitStore !! ip with
  | None => reset
  | Some record =>
      if now - timestamp record >? RATE_WINDOW then reset
      else if count record >=? RATE_LIMIT then
        (rateLimitStore,
         {| allowed := false; remaining := 0;
            resetAt := Some (timestamp record + RATE_WINDOW) |})
      else
        (<[ip := {| count := count record + 1; timestamp := timestamp record |}]>
           rateLimitStore,
         {| allowed := true; remaining := RATE_LIMIT - (count record + 1);
            resetAt := None |})
  end.

(** The calls of [checkRateLimit] one client makes at the given times,
    in order: the map afterwards and the results. *)
Fixpoint requests (ip : list Z) (times : list Z)
    (rateLimitStore : gmap (list Z) RateRecord)
  : gmap (list Z) RateRecord * list RateLimit :=
  match times with
  | [] => (rateLimitStore, [])
  | t :: times' =>
      let '(m1, r) := checkRateLimit t ip rateLimitStore in
      let '(m2, rs) := requests ip times' m1 in
      (m2, r :: rs)
  end.

(** [getCorsHeaders(request)] (lines 49-63) *)
Definition getCorsHeaders (request : Request) : object :=
  let origin := header_Origin request in
  let headers :=
    object_literal
      [ (str "Access-Control-Allow-Methods", str "GET, POST, PATCH, DELETE, OPTIONS");
        (str "Access-Control-Allow-Headers",
         str "Content-Type, Authorization, X-Requested-With");
        (str "Access-Control-Max-Age", str "86400") ] in
  match origin with
  | Some o =>
      if truthy o && includes ALLOWED_ORIGINS o then
        obj_set (str "Access-Control-Allow-Credentials") (str "true")
          (obj_set (str "Access-Control-Allow-Origin") o headers)
      else headers
  | None => headers
  end.

Record Validation := {
  valid : bool;
  error : option (list Z);
  baseId : option (list Z);
  tableName : option (list Z);
  recordId : option (list Z)
}.

Definition invalid (message : list Z) : Validation :=
  {| valid := false; error := Some message;
     baseId := None; tableName := None; recordId := None |}.

(** [validatePath(path)] (lines 65-84) *)
Definition validatePath (path : list Z) : Validation :=
  let parts := filter_Boolean (split 47 path) in
  if (List.length parts <? 2)%nat || (3 <? List.length parts)%nat then
    invalid (str "Invalid path format")
  else
    let baseId := nth 0 parts [] in
    let tableName := nth 1 parts [] in
    if negb (includes (bases ALLOWED_PATHS) baseId) then
      invalid (str "Base not allowed")
    else if negb (includes (tables ALLOWED_PATHS) tableName) then
      invalid (str "Table not allowed")
    else
      {| valid := true; error := None;
         baseId := Some baseId; tableName := Some tableName;
         recordId := nth_error parts 2 |}.

(** [pathname.match(/^\/api\/airtable\/(.+)$/)]: the capture, which is
    not empty and holds no line terminator. *)
Definition pathMatch (pathname : list Z) : option (list Z) :=
  if startsWith pathname (str "/api/airtable/") then
    let rest := skipn 14 pathname in
    if truthy rest && forallb (fun c => negb (is_line_terminator c)) rest
    then Some rest else None
  else None.

(** The clock and the upstream, as one request sees them: [Date.now()]
    is read in [checkRateLimit] and once more when a 429 is built. *)
Record Platform := {
  Date_now : Z;
  Date_now_429 : Z;
  fetch : FetchCall (list Z) -> completion UpstreamResponse
}.

Record Run := {
  store_after : gmap (list Z) RateRecord;
  fetched : list (FetchCall (list Z));
  outcome : completion Response
}.

(** The error responses of the handler:
    [new Response(JSON.stringify({ ...fields }), { status, headers:
    { 'Content-Type': 'application/json', ...getCorsHeaders(request) } })]. *)
Definition error_response (request : Request) (st : Z)
    (fields : list (list Z * jsval)) : completion Response :=
  new_Response (JSON_stringify (VObject fields)) st
    (object_literal ((str "Content-Type", str "application/json")
                     :: getCorsHeaders request)).

(** A string-or-undefined value inside a template literal. *)
Definition from_option (o : option (list Z)) : list Z :=
  match o with Some s => s | None => str "undefined" end.

Section Handler.

(** [JSON.parse]: the message of the [SyntaxError] it throws on a text
    that is not JSON, [None] on a text that is. *)
Variable JSON_parse_error : list Z -> option (list Z).

Definition JSON_parse (text : list Z) : completion jsval :=
  match JSON_parse_error text with
  | Some message => Throw (SyntaxError message)
  | None => Normal (VParsed text)
  end.

(** [await r.json()] for a request or a response whose body reads as
    [text]. *)
Definition json (text : completion (list Z)) : completion jsval :=
  bind text JSON_parse.

(** [onRequest(context)] (lines 86-221), on the map [rateLimitStore]. *)
Definition onRequest (context : Context) (platform : Platform)
    (rateLimitStore : gmap (list Z) RateRecord) : Run :=
  let request := request context in
  if str_eqb (method request) (str "OPTIONS") then
    {| store_after := rateLimitStore; fetched := [];
       outcome := new_Response Null 204 (getCorsHeaders request) |}
  else
    let airtableToken := env_AIRTABLE_TOKEN context in
    if negb (truthy_opt airtableToken) then
      {| store_after := rateLimitStore; fetched := [];
         outcome :=
           error_response request 500
             [(str "error", VString (str "Server configuration error"))] |}
    else
      let clientIP := getRateLimitKey request in
      let '(rateLimitStore, rateLimit) :=
        checkRateLimit (Date_now platform) clientIP rateLimitStore in
      if negb (allowed rateLimit) then
        (* a rejection always carries [resetAt] *)
        let resetAt := match resetAt rateLimit with Some t => t | None => 0 end in
        {| store_after := rateLimitStore; fetched := [];
           outcome :=
             new_Response
               (JSON_stringify
                  (VObject [ (str "error", VString (str "Rate limit exceeded"));
                             (str "resetAt", VNumber resetAt) ]))
               429
               (object_literal
                  ([ (str "Content-Type", str "application/json");
                     (str "X-RateLimit-Limit", Number_toString RATE_LIMIT);
                     (str "X-RateLimit-Remaining", str "0");
                     (str "X-RateLimit-Reset", Number_toString resetAt);
                     (str "Retry-After",
                      Number_toString
                        (ceil_div (resetAt - Date_now_429 platform) 1000)) ]
                   ++ getCorsHeaders request)) |}
      else
        match pathMatch (url_pathname request) with
        | None =>
            {| store_after := rateLimitStore; fetched := [];
               outcome := error_response request 400
                            [(str "error", VString (str "Invalid endpoint"))] |}
        | Some airtablePath =>
            let validation := validatePath airtablePath in
            if negb (valid validation) then
              {| store_after := rateLimitStore; fetched := [];
                 outcome :=
                   error_response request 403
                     [(str "error", VString_or_undefined (error validation))] |}
            else
              match encodeURIComponent (from_option (tableName validation)) with
              | Throw e =>
                  {| store_after := rateLimitStore; fetched := [];
                     outcome := Throw e |}
              | Normal encodedTable =>
                  let airtableUrl :=
                    str "https://api.airtable.com/v0/"
                    ++ from_option (baseId validation) ++ str "/" ++ encodedTable in
                  let airtableUrl :=
                    if truthy_opt (recordId validation)
                    then airtableUrl ++ str "/" ++ from_option (recordId validation)
                    else airtableUrl in
                  let airtableUrl :=
                    if truthy (url_search request)
                    then airtableUrl ++ url_search request
                    else airtableUrl in
                  let airtableHeaders :=
                    object_literal
                      [ (str "Authorization",
                         str "Bearer " ++ from_option airtableToken);
                        (str "Content-Type", str "application/json") ] in
                  let with_body (b : option Body) :=
                    let call :=
                      {| fetch_url := airtableUrl;
                         fetch_method := method request;
                         fetch_headers := airtableHeaders;
                         fetch_body := b |} in
                    {| store_after := rateLimitStore; fetched := [call];
                       outcome :=
                         try_catch
                           (bind (fetch platform call) (fun airtableResponse =>
                            bind (json (upstream_text airtableResponse)) (fun data =>
                            new_Response (JSON_stringify data)
                              (upstream_status airtableResponse)
                              (object_literal
                                 ([ (str "Content-Type", str "application/json");
                                    (str "X-RateLimit-Limit",
                                     Number_toString RATE_LIMIT);
                                    (str "X-RateLimit-Remaining",
                                     Number_toString (remaining rateLimit)) ]
                                  ++ getCorsHeaders request)))))
                           (fun error =>
                              error_response request 502
                                [ (str "error",
                                   VString (str "Failed to fetch from Airtable"));
                                  (str "details", VMessage error) ]) |} in
                  if includes [str "POST"; str "PATCH"; str "PUT"] (method request)
                  then
                    match json (request_text request) with
                    | Normal body => with_body (Some (JSON_stringify body))
                    | Throw _ =>
                        {| store_after := rateLimitStore; fetched := [];
                           outcome :=
                             error_response request 400
                               [(str "error", VString (str "Invalid JSON body"))] |}
                    end
                  else with_body None
              end
        end.

End Handler.

End PathVariant.

(** ** Sequences of limiter calls *)

Module Traffic.

(** The calls of [checkRateLimit] that clients make one after the other,
    each a time and a client key: the map they leave. *)
Definition path_calls (calls : list (Z * list Z))
    (m : gmap (list Z) PathVariant.RateRecord)
  : gmap (list Z) PathVariant.RateRecord :=
  fold_left (fun m c => fst (PathVariant.checkRateLimit (fst c) (snd c) m)) calls m.

Definition query_calls (calls : list (Z * list Z))
    (m : gmap (list Z) QueryVariant.RateRecord)
  : gmap (list Z) QueryVariant.RateRecord :=
  fold_left (fun m c => fst (QueryVariant.checkRateLimit (fst c) (snd c) m)) calls m.

(** Every record counts at least one request and at most the limit. *)
Definition path_counts_in_range (m : gmap (list Z) PathVariant.RateRecord) : Prop :=
  map_Forall (fun _ r => 1 <= PathVariant.count r <= PathVariant.RATE_LIMIT) m.

Definition query_counts_in_range (m : gmap (list Z) QueryVariant.RateRecord) : Prop :=
  map_Forall (fun _ r => 1 <= QueryVariant.count r <= QueryVariant.RATE_LIMIT) m.

(** The decisions for the requests that follow the one that opened a
    window, when the record counts [c] before them: the [k]-th is allowed
    while the count is below the limit. *)
Definition decisions (c : Z) (n : nat) : list bool :=
  List.map (fun k => c + Z.of_nat k <? 1000) (seq 0 n).

End Traffic.

(** ** Sample inputs, for the concrete instances below *)

Module Samples.

Definition ip : list Z := str "198.51.100.4".

(** A request from [ip] that names an allowed resource in both forms. *)
Definition a_request (m : list Z) (origin : option (list Z))
    (text : completion (list Z)) : Request :=
  {| method := m;
     header_Origin := origin;
     header_CF_Connecting_IP := Some ip;
     header_X_Forwarded_For := None;
     url_pathname := str "/api/airtable/appXXXXXXXXXXXXXX/Clients";
     url_search := str "?path=applOjDjhH0RqLtBH/tblMptC862PyL7Znw&pageSize=5&evil=1";
     url_searchParams :=
       [ (str "path", str "applOjDjhH0RqLtBH/tblMptC862PyL7Znw");
         (str "pageSize", str "5");
         (str "evil", str "1") ];
     request_text := text |}.

Definition get_request : Request := a_request (str "GET") None (Normal []).

Definition options_request : Request :=
  a_request (str "OPTIONS") (Some (str "https://evil.example")) (Normal []).

(** A request of the query-parameter proxy for a path with segments after
    the table. *)
Definition deep_path : list Z :=
  str "applOjDjhH0RqLtBH/Team Members/rec1/comments/../../../../meta/bases".

Definition deep_request : Request :=
  {| method := str "GET";
     header_Origin := None;
     header_CF_Connecting_IP := Some ip;
     header_X_Forwarded_For := None;
     url_pathname := str "/api/airtable";
     url_search := [];
     url_searchParams := [ (str "path", deep_path) ];
     request_text := Normal [] |}.

(** A request of the query-parameter proxy for a path with plain segments
    after the table. *)
Definition long_path : list Z :=
  str "applOjDjhH0RqLtBH/tblMptC862PyL7Znw/rec1/comments/com5".

Definition long_request : Request :=
  {| method := str "GET";
     header_Origin := None;
     header_CF_Connecting_IP := Some ip;
     header_X_Forwarded_For := None;
     url_pathname := str "/api/airtable";
     url_search := [];
     url_searchParams := [ (str "path", long_path) ];
     request_text := Normal [] |}.

(** A request whose path leaves the allowed base through dot segments. *)
Definition escape_path : list Z :=
  str "applOjDjhH0RqLtBH/Team%20Members/../../appOTHERBASE000000/Secrets".

Definition escape_request : Request :=
  {| method := str "GET";
     header_Origin := None;
     header_CF_Connecting_IP := Some ip;
     header_X_Forwarded_For := None;
     url_pathname := str "/api/airtable";
     url_search := [];
     url_searchParams := [ (str "path", escape_path) ];
     request_text := Normal [] |}.

(** A request whose [path] parameter holds a [?]. *)
Definition smuggling_request : Request :=
  {| method := str "GET";
     header_Origin := None;
     header_CF_Connecting_IP := Some ip;
     header_X_Forwarded_For := None;
     url_pathname := str "/api/airtable";
     url_search := str "?path=applOjDjhH0RqLtBH/Team%20Members/rec1%3Fevil%3D1";
     url_searchParams :=
       [ (str "path", str "applOjDjhH0RqLtBH/Team Members/rec1?evil=1") ];
     request_text := Normal [] |}.

(** A request whose [path] parameter names a table with a malformed
    escape. *)
Definition malformed_request : Request :=
  {| method := str "GET";
     header_Origin := None;
     header_CF_Connecting_IP := Some ip;
     header_X_Forwarded_For := None;
     url_pathname := str "/api/airtable";
     url_search := str "?path=applOjDjhH0RqLtBH/%25";
     url_searchParams := [ (str "path", str "applOjDjhH0RqLtBH/%") ];
     request_text := Normal [] |}.

Definition with_token (r : Request) : Context :=
  {| request := r; env_AIRTABLE_TOKEN := Some (str "patSECRET") |}.

(** The request [r] with another body. *)
Definition with_text (r : Request) (text : completion (list Z)) : Request :=
  {| method := method r;
     header_Origin := header_Origin r;
     header_CF_Connecting_IP := header_CF_Connecting_IP r;
     header_X_Forwarded_For := header_X_Forwarded_For r;
     url_pathname := url_pathname r;
     url_search := url_search r;
     url_searchParams := url_searchParams r;
     request_text := text |}.

(** The request [r] sent to another pathname. *)
Definition with_pathname (r : Request) (pathname : list Z) : Request :=
  {| method := method r;
     header_Origin := header_Origin r;
     header_CF_Connecting_IP := header_CF_Connecting_IP r;
     header_X_Forwarded_For := header_X_Forwarded_For r;
     url_pathname := pathname;
     url_search := url_search r;
     url_searchParams := url_searchParams r;
     request_text := request_text r |}.

(** A [POST] from an allowed origin with the given body. *)
Definition post_request (text : completion (list Z)) : Request :=
  a_request (str "POST") (Some (str "https://dashboard.prioai.ca")) text.

Definition without_token (r : Request) : Context :=
  {| request := r; env_AIRTABLE_TOKEN := None |}.

Definition now : Z := 1700000000000.

(** An upstream that cannot be reached. *)
Definition path_upstream_down : PathVariant.Platform :=
  {| PathVariant.Date_now := now;
     PathVariant.Date_now_429 := now + 1;
     PathVariant.fetch := fun _ => Throw (FetchError (str "connection refused")) |}.

Definition query_upstream_down : QueryVariant.Platform :=
  {| QueryVariant.Date_now := now;
     QueryVariant.fetch := fun _ => Throw (FetchError (str "connection refused")) |}.

(** An upstream that answers with the given status and body text. *)
Definition path_upstream (st : Z) (text : list Z) : PathVariant.Platform :=
  {| PathVariant.Date_now := now;
     PathVariant.Date_now_429 := now + 1;
     PathVariant.fetch :=
       fun _ => Normal {| upstream_status := st; upstream_text := Normal text |} |}.

Definition query_upstream (st : Z) (text : list Z) : QueryVariant.Platform :=
  {| QueryVariant.Date_now := now;
     QueryVariant.fetch :=
       fun _ => Normal {| upstream_status := st; upstream_text := Normal text |} |}.

(** The upstream calls the two proxies make for [get_request]. *)
Definition path_call : FetchCall (list Z) :=
  {| fetch_url :=
       str "https://api.airtable.com/v0/appXXXXXXXXXXXXXX/Clients?path=applOjDjhH0RqLtBH/tblMptC862PyL7Znw&pageSize=5&evil=1";
     fetch_method := str "GET";
     fetch_headers :=
       [ (str "Authorization", str "Bearer patSECRET");
         (str "Content-Type", str "application/json") ];
     fetch_body := None |}.

Definition query_call : FetchCall URL :=
  {| fetch_url :=
       {| origin := str "https://api.airtable.com";
          pathname := str "/v0/applOjDjhH0RqLtBH/tblMptC862PyL7Znw";
          searchParams := [ (str "pageSize", str "5") ];
          fragment := None |};
     fetch_method := str "GET";
     fetch_headers :=
       [ (str "Authorization", str "Bearer patSECRET");
         (str "Content-Type", str "application/json") ];
     fetch_body := None |}.

(** The upstream call the query-parameter proxy makes for
    [post_request (Normal text)]. *)
Definition query_post_call (text : list Z) : FetchCall URL :=
  {| fetch_url :=
       {| origin := str "https://api.airtable.com";
          pathname := str "/v0/applOjDjhH0RqLtBH/tblMptC862PyL7Znw";
          searchParams := [ (str "pageSize", str "5") ];
          fragment := None |};
     fetch_method := str "POST";
     fetch_headers :=
       [ (str "Authorization", str "Bearer patSECRET");
         (str "Content-Type", str "application/json") ];
     fetch_body := Some (Text text) |}.

(** A request that repeats a parameter, and the upstream call the
    query-parameter proxy makes for it. *)
Definition repeated_request : Request :=
  {| method := str "GET";
     header_Origin := None;
     header_CF_Connecting_IP := Some ip;
     header_X_Forwarded_For := None;
     url_pathname := str "/api/airtable";
     url_search :=
       str "?path=applOjDjhH0RqLtBH/tblMptC862PyL7Znw&pageSize=5&offset=itr1&pageSize=50";
     url_searchParams :=
       [ (str "path", str "applOjDjhH0RqLtBH/tblMptC862PyL7Znw");
         (str "pageSize", str "5");
         (str "offset", str "itr1");
         (str "pageSize", str "50") ];
     request_text := Normal [] |}.

Definition repeated_call : FetchCall URL :=
  {| fetch_url :=
       {| origin := str "https://api.airtable.com";
          pathname := str "/v0/applOjDjhH0RqLtBH/tblMptC862PyL7Znw";
          searchParams := [ (str "pageSize", str "50"); (str "offset", str "itr1") ];
          fragment := None |};
     fetch_method := str "GET";
     fetch_headers :=
       [ (str "Authorization", str "Bearer patSECRET");
         (str "Content-Type", str "application/json") ];
     fetch_body := None |}.

(** A [JSON.parse] that accepts the texts [{}] and [[]] only. *)
Definition only_empty_json (text : list Z) : option (list Z) :=
  if str_eqb text (str "{}") || str_eqb text (str "[]") then None
  else Some (str "Unexpected token").

End Samples.

(** * Properties *)

(** ** Strings *)

Lemma str_eqb_eq (a b : list Z) : str_eqb a b = true <-> a = b.
Proof.
  revert b; induction a as [|x a IH]; intros [|y b]; simpl; try easy.
  rewrite andb_true_iff, Z.eqb_eq, IH. split.
  - intros [-> ->]; reflexivity.
  - intros [= -> ->]; auto.
Qed.

Lemma str_eqb_refl (a : list Z) : str_eqb a a = true.
Proof. apply str_eqb_eq; reflexivity. Qed.

Lemma str_eqb_neq (a b : list Z) : str_eqb a b = false <-> a <> b.
Proof.
  rewrite <- str_eqb_eq. destruct (str_eqb a b); split; congruence.
Qed.

Lemma includes_In (arr : list (list Z)) (x : list Z) :
  includes arr x = true <-> In x arr.
Proof.
  unfold includes. rewrite existsb_exists. split.
  - intros (y & Hy & E). apply str_eqb_eq in E. subst; assumption.
  - intros H. exists x. split; [assumption | apply str_eqb_refl].
Qed.

(** ** The rate limiter *)

Section RateLimiter.

Import PathVariant.

Lemma checkRateLimit_reset (now : Z) (ip : list Z) (m : gmap (list Z) RateRecord) :
  (m !! ip = None \/ exists r, m !! ip = Some r /\ now - timestamp r > RATE_WINDOW) ->
  checkRateLimit now ip m =
    (<[ip := {| count := 1; timestamp := now |}]> m,
     {| allowed := true; remaining := RATE_LIMIT - 1; resetAt := None |}).
Proof.
  unfold checkRateLimit. intros [-> | (r & -> & H)]; [reflexivity|].
  destruct (Z.gtb_spec (now - timestamp r) RATE_WINDOW); [reflexivity | lia].
Qed.

Lemma checkRateLimit_reject (now : Z) (ip : list Z) (m : gmap (list Z) RateRecord) r :
  m !! ip = Some r -> now - timestamp r <= RATE_WINDOW -> count r >= RATE_LIMIT ->
  checkRateLimit now ip m =
    (m, {| allowed := false; remaining := 0;
           resetAt := Some (timestamp r + RATE_WINDOW) |}).
Proof.
  unfold checkRateLimit. intros -> Hw Hc.
  destruct (Z.gtb_spec (now - timestamp r) RATE_WINDOW); [lia|].
  destruct (Z.geb_spec (count r) RATE_LIMIT); [reflexivity | lia].
Qed.

Lemma checkRateLimit_count (now : Z) (ip : list Z) (m : gmap (list Z) RateRecord) r :
  m !! ip = Some r -> now - timestamp r <= RATE_WINDOW -> count r < RATE_LIMIT ->
  checkRateLimit now ip m =
    (<[ip := {| count := count r + 1; timestamp := timestamp r |}]> m,
     {| allowed := true; remaining := RATE_LIMIT - (count r + 1);
        resetAt := None |}).
Proof.
  unfold checkRateLimit. intros -> Hw Hc.
  destruct (Z.gtb_spec (now - timestamp r) RATE_WINDOW); [lia|].
  destruct (Z.geb_spec (count r) RATE_LIMIT); [lia | reflexivity].
Qed.

End RateLimiter.

Section RateLimiterQuery.

Import QueryVariant.

Lemma checkRateLimit_Q_reset (now : Z) (ip : list Z) (m : gmap (list Z) RateRecord) :
  (m !! ip = None \/ exists r, m !! ip = Some r /\ now - windowStart r > RATE_WINDOW) ->
  checkRateLimit now ip m =
    (<[ip := {| windowStart := now; count := 1 |}]> m, true).
Proof.
  unfold checkRateLimit. intros [-> | (r & -> & H)]; [reflexivity|].
  destruct (Z.gtb_spec (now - windowStart r) RATE_WINDOW); [reflexivity | lia].
Qed.

Lemma checkRateLimit_Q_reject (now : Z) (ip : list Z) (m : gmap (list Z) RateRecord) r :
  m !! ip = Some r -> now - windowStart r <= RATE_WINDOW -> count r >= RATE_LIMIT ->
  checkRateLimit now ip m = (m, false).
Proof.
  unfold checkRateLimit. intros -> Hw Hc.
  destruct (Z.gtb_spec (now - windowStart r) RATE_WINDOW); [lia|].
  destruct (Z.geb_spec (count r) RATE_LIMIT); [reflexivity | lia].
Qed.

Lemma checkRateLimit_Q_count (now : Z) (ip : list Z) (m : gmap (list Z) RateRecord) r :
  m !! ip = Some r -> now - windowStart r <= RATE_WINDOW -> count r < RATE_LIMIT ->
  checkRateLimit now ip m =
    (<[ip := {| windowStart := windowStart r; count := count r + 1 |}]> m, true).
Proof.
  unfold checkRateLimit. intros -> Hw Hc.
  destruct (Z.gtb_spec (now - windowStart r) RATE_WINDOW); [lia|].
  destruct (Z.geb_spec (count r) RATE_LIMIT); [lia | reflexivity].
Qed.

End RateLimiterQuery.

(** C3.  Both limiters are the fixed-window counter.  For a client without
    a record, or whose window started more than [RATE_WINDOW] ms ago (by
    1 ms or more), the window is reset to start now with count 1 and the
    request is allowed, whatever the count was.  Otherwise a count at or
    above the limit rejects and leaves the map as it is, and a count below
    it is incremented and the request allowed; the path-segment limiter
    reports [remaining = RATE_LIMIT - count] for the incremented count
    (the query-parameter limiter returns the decision alone). *)
Theorem C3_fixed_window_counter :
  forall (now : Z) (ip : list Z)
         (mp : gmap (list Z) PathVariant.RateRecord)
         (mq : gmap (list Z) QueryVariant.RateRecord),
    ((mp !! ip = None \/
      exists r, mp !! ip = Some r /\
                now - PathVariant.timestamp r >= PathVariant.RATE_WINDOW + 1) ->
     PathVariant.checkRateLimit now ip mp =
       (<[ip := {| PathVariant.count := 1; PathVariant.timestamp := now |}]> mp,
        {| PathVariant.allowed := true;
           PathVariant.remaining := PathVariant.RATE_LIMIT - 1;
           PathVariant.resetAt := None |}))
    /\ (forall r, mp !! ip = Some r ->
          now - PathVariant.timestamp r <= PathVariant.RATE_WINDOW ->
          PathVariant.count r >= PathVariant.RATE_LIMIT ->
          PathVariant.checkRateLimit now ip mp =
            (mp, {| PathVariant.allowed := false; PathVariant.remaining := 0;
                    PathVariant.resetAt :=
                      Some (PathVariant.timestamp r + PathVariant.RATE_WINDOW) |}))
    /\ (forall r, mp !! ip = Some r ->
          now - PathVariant.timestamp r <= PathVariant.RATE_WINDOW ->
          PathVariant.count r < PathVariant.RATE_LIMIT ->
          exists r',
            PathVariant.count r' = PathVariant.count r + 1 /\
            PathVariant.timestamp r' = PathVariant.timestamp r /\
            PathVariant.checkRateLimit now ip mp =
              (<[ip := r']> mp,
               {| PathVariant.allowed := true;
                  PathVariant.remaining :=
                    PathVariant.RATE_LIMIT - PathVariant.count r';
                  PathVariant.resetAt := None |}))
    /\ ((mq !! ip = None \/
         exists r, mq !! ip = Some r /\
                   now - QueryVariant.windowStart r >= QueryVariant.RATE_WINDOW + 1) ->
        QueryVariant.checkRateLimit now ip mq =
          (<[ip := {| QueryVariant.windowStart := now; QueryVariant.count := 1 |}]> mq,
           true))
    /\ (forall r, mq !! ip = Some r ->
          now - QueryVariant.windowStart r <= QueryVariant.RATE_WINDOW ->
          QueryVariant.count r >= QueryVariant.RATE_LIMIT ->
          QueryVariant.checkRateLimit now ip mq = (mq, false))
    /\ (forall r, mq !! ip = Some r ->
          now - QueryVariant.windowStart r <= QueryVariant.RATE_WINDOW ->
          QueryVariant.count r < QueryVariant.RATE_LIMIT ->
          QueryVariant.checkRateLimit now ip mq =
            (<[ip := {| QueryVariant.windowStart := QueryVariant.windowStart r;
                        QueryVariant.count := QueryVariant.count r + 1 |}]> mq,
             true)).
Proof.
  intros now ip mp mq. repeat split.
  - intros H. apply checkRateLimit_reset.
    destruct H as [H | (r & H & Hw)]; [left; exact H | right; exists r; split; [exact H | lia]].
  - intros r H Hw Hc. apply checkRateLimit_reject; assumption.
  - intros r H Hw Hc.
    exists {| PathVariant.count := PathVariant.count r + 1;
              PathVariant.timestamp := PathVariant.timestamp r |}.
    repeat split. apply checkRateLimit_count; assumption.
  - intros H. apply checkRateLimit_Q_reset.
    destruct H as [H | (r & H & Hw)]; [left; exact H | right; exists r; split; [exact H | lia]].
  - intros r H Hw Hc. apply (checkRateLimit_Q_reject now ip mq r); assumption.
  - intros r H Hw Hc. apply checkRateLimit_Q_count; assumption.
Qed.

(** *** Requests inside one window *)

Lemma P_requests_in_window (ip : list Z) (t0 : Z) (ts : list Z) :
  forall (m : gmap (list Z) PathVariant.RateRecord) (c : Z),
    m !! ip = Some {| PathVariant.count := c; PathVariant.timestamp := t0 |} ->
    Forall (fun t => t - t0 <= PathVariant.RATE_WINDOW) ts ->
    c + Z.of_nat (List.length ts) <= PathVariant.RATE_LIMIT ->
    exists m' rs,
      PathVariant.requests ip ts m = (m', rs)
      /\ m' !! ip = Some {| PathVariant.count := c + Z.of_nat (List.length ts);
                            PathVariant.timestamp := t0 |}
      /\ Forall (fun r => PathVariant.allowed r = true) rs.
Proof.
  induction ts as [|t ts IH]; intros m c Hm Hw Hc.
  - exists m, []. simpl. rewrite Z.add_0_r. auto.
  - inversion Hw as [|? ? Ht Hts]; subst.
    cbn [List.length] in Hc. cbn [PathVariant.requests].
    rewrite (checkRateLimit_count t ip m _ Hm) by (simpl; lia).
    cbn [PathVariant.count PathVariant.timestamp].
    destruct (IH (<[ip := {| PathVariant.count := c + 1;
                             PathVariant.timestamp := t0 |}]> m) (c + 1))
      as (m' & rs & E & Hm' & Hrs).
    + apply lookup_insert_eq.
    + exact Hts.
    + lia.
    + rewrite E. eexists _, _. split; [reflexivity|]. split.
      * rewrite Hm'. do 2 f_equal. cbn [List.length]. lia.
      * constructor; [reflexivity | exact Hrs].
Qed.

Lemma Q_requests_in_window (ip : list Z) (t0 : Z) (ts : list Z) :
  forall (m : gmap (list Z) QueryVariant.RateRecord) (c : Z),
    m !! ip = Some {| QueryVariant.windowStart := t0; QueryVariant.count := c |} ->
    Forall (fun t => t - t0 <= QueryVariant.RATE_WINDOW) ts ->
    c + Z.of_nat (List.length ts) <= QueryVariant.RATE_LIMIT ->
    exists m' rs,
      QueryVariant.requests ip ts m = (m', rs)
      /\ m' !! ip = Some {| QueryVariant.windowStart := t0;
                            QueryVariant.count := c + Z.of_nat (List.length ts) |}
      /\ Forall (fun r => r = true) rs.
Proof.
  induction ts as [|t ts IH]; intros m c Hm Hw Hc.
  - exists m, []. simpl. rewrite Z.add_0_r. auto.
  - inversion Hw as [|? ? Ht Hts]; subst.
    cbn [List.length] in Hc. cbn [QueryVariant.requests].
    rewrite (checkRateLimit_Q_count t ip m _ Hm) by (simpl; lia).
    cbn [QueryVariant.count QueryVariant.windowStart].
    destruct (IH (<[ip := {| QueryVariant.windowStart := t0;
                             QueryVariant.count := c + 1 |}]> m) (c + 1))
      as (m' & rs & E & Hm' & Hrs).
    + apply lookup_insert_eq.
    + exact Hts.
    + lia.
    + rewrite E. eexists _, _. split; [reflexivity|]. split.
      * rewrite Hm'. do 2 f_equal. cbn [List.length]. lia.
      * constructor; [reflexivity | exact Hrs].
Qed.

(** A window opened at [t0] and the requests that follow inside it. *)
Lemma P_requests_window (ip : list Z) (t0 : Z) (ts : list Z)
    (m : gmap (list Z) PathVariant.RateRecord) :
  (m !! ip = None \/
   exists r, m !! ip = Some r /\ t0 - PathVariant.timestamp r > PathVariant.RATE_WINDOW) ->
  Forall (fun t => t - t0 <= PathVariant.RATE_WINDOW) ts ->
  Z.of_nat (List.length ts) < PathVariant.RATE_LIMIT ->
  exists m' rs,
    PathVariant.requests ip (t0 :: ts) m = (m', rs)
    /\ m' !! ip = Some {| PathVariant.count := 1 + Z.of_nat (List.length ts);
                          PathVariant.timestamp := t0 |}
    /\ Forall (fun r => PathVariant.allowed r = true) rs.
Proof.
  intros Hopen Hw Hc. cbn [PathVariant.requests].
  rewrite (checkRateLimit_reset t0 ip m Hopen).
  destruct (P_requests_in_window ip t0 ts
              (<[ip := {| PathVariant.count := 1; PathVariant.timestamp := t0 |}]> m) 1)
    as (m' & rs & E & Hm' & Hrs).
  - apply lookup_insert_eq.
  - exact Hw.
  - lia.
  - rewrite E. eexists _, _. split; [reflexivity|]. split; [exact Hm'|].
    constructor; [reflexivity | exact Hrs].
Qed.

Lemma Q_requests_window (ip : list Z) (t0 : Z) (ts : list Z)
    (m : gmap (list Z) QueryVariant.RateRecord) :
  (m !! ip = None \/
   exists r, m !! ip = Some r /\ t0 - QueryVariant.windowStart r > QueryVariant.RATE_WINDOW) ->
  Forall (fun t => t - t0 <= QueryVariant.RATE_WINDOW) ts ->
  Z.of_nat (List.length ts) < QueryVariant.RATE_LIMIT ->
  exists m' rs,
    QueryVariant.requests ip (t0 :: ts) m = (m', rs)
    /\ m' !! ip = Some {| QueryVariant.windowStart := t0;
                          QueryVariant.count := 1 + Z.of_nat (List.length ts) |}
    /\ Forall (fun r => r = true) rs.
Proof.
  intros Hopen Hw Hc. cbn [QueryVariant.requests].
  rewrite (checkRateLimit_Q_reset t0 ip m Hopen).
  destruct (Q_requests_in_window ip t0 ts
              (<[ip := {| QueryVariant.windowStart := t0; QueryVariant.count := 1 |}]> m) 1)
    as (m' & rs & E & Hm' & Hrs).
  - apply lookup_insert_eq.
  - exact Hw.
  - lia.
  - rewrite E. eexists _, _. split; [reflexivity|]. split; [exact Hm'|].
    constructor; [reflexivity | exact Hrs].
Qed.

(** ** The handlers, gate by gate *)

Lemma method_is_not (m lit : list Z) :
  m <> lit -> str_eqb m lit = false.
Proof. apply str_eqb_neq. Qed.

Lemma P_onRequest_preflight (J : list Z -> option (list Z)) (ctx : Context) (pf : PathVariant.Platform)
    (m : gmap (list Z) PathVariant.RateRecord) :
  method (request ctx) = str "OPTIONS" ->
  PathVariant.onRequest J ctx pf m =
    {| PathVariant.store_after := m; PathVariant.fetched := [];
       PathVariant.outcome :=
         Normal {| status := 204;
                   headers := PathVariant.getCorsHeaders (request ctx);
                   body := Null |} |}.
Proof.
  intros H. unfold PathVariant.onRequest. rewrite H. reflexivity.
Qed.

Lemma P_onRequest_no_token (J : list Z -> option (list Z)) (ctx : Context) (pf : PathVariant.Platform)
    (m : gmap (list Z) PathVariant.RateRecord) :
  method (request ctx) <> str "OPTIONS" ->
  truthy_opt (env_AIRTABLE_TOKEN ctx) = false ->
  PathVariant.onRequest J ctx pf m =
    {| PathVariant.store_after := m; PathVariant.fetched := [];
       PathVariant.outcome :=
         Normal {| status := 500;
                   headers :=
                     object_literal
                       ((str "Content-Type", str "application/json")
                        :: PathVariant.getCorsHeaders (request ctx));
                   body :=
                     JSON_stringify
                       (VObject [(str "error",
                                  VString (str "Server configuration error"))]) |} |}.
Proof.
  intros Hm Ht. unfold PathVariant.onRequest.
  rewrite (method_is_not _ _ Hm), Ht. reflexivity.
Qed.

Lemma P_onRequest_throttled (J : list Z -> option (list Z)) (ctx : Context) (pf : PathVariant.Platform)
    (m m' : gmap (list Z) PathVariant.RateRecord) (t : Z) :
  method (request ctx) <> str "OPTIONS" ->
  truthy_opt (env_AIRTABLE_TOKEN ctx) = true ->
  PathVariant.checkRateLimit (PathVariant.Date_now pf)
    (PathVariant.getRateLimitKey (request ctx)) m =
    (m', {| PathVariant.allowed := false; PathVariant.remaining := 0;
            PathVariant.resetAt := Some t |}) ->
  PathVariant.onRequest J ctx pf m =
    {| PathVariant.store_after := m'; PathVariant.fetched := [];
       PathVariant.outcome :=
         Normal {| status := 429;
                   headers :=
                     object_literal
                       ([ (str "Content-Type", str "application/json");
                          (str "X-RateLimit-Limit", str "1000");
                          (str "X-RateLimit-Remaining", str "0");
                          (str "X-RateLimit-Reset", Number_toString t);
                          (str "Retry-After",
                           Number_toString
                             (ceil_div (t - PathVariant.Date_now_429 pf) 1000)) ]
                        ++ PathVariant.getCorsHeaders (request ctx));
                   body :=
                     JSON_stringify
                       (VObject [ (str "error", VString (str "Rate limit exceeded"));
                                  (str "resetAt", VNumber t) ]) |} |}.
Proof.
  intros Hm Ht E. unfold PathVariant.onRequest.
  rewrite (method_is_not _ _ Hm), Ht, E. reflexivity.
Qed.

Lemma Q_onRequest_preflight (ctx : Context) (pf : QueryVariant.Platform)
    (m : gmap (list Z) QueryVariant.RateRecord) :
  method (request ctx) = str "OPTIONS" ->
  QueryVariant.onRequest ctx pf m =
    {| QueryVariant.store_after := m; QueryVariant.fetched := [];
       QueryVariant.outcome :=
         Normal {| status := 204;
                   headers :=
                     QueryVariant.getCorsHeaders (QueryVariant.origin_of (request ctx));
                   body := Null |} |}.
Proof.
  intros H. unfold QueryVariant.onRequest. rewrite H. reflexivity.
Qed.

Lemma Q_origin_gate_open (r : Request) :
  QueryVariant.origin_passes r ->
  negb (str_eqb (method r) (str "GET"))
  && negb (includes QueryVariant.ALLOWED_ORIGINS (QueryVariant.origin_of r)) = false.
Proof.
  intros [H | H].
  - rewrite H. reflexivity.
  - apply includes_In in H. rewrite H. apply andb_false_r.
Qed.

Lemma Q_origin_gate_closed (r : Request) :
  ~ QueryVariant.origin_passes r ->
  negb (str_eqb (method r) (str "GET"))
  && negb (includes QueryVariant.ALLOWED_ORIGINS (QueryVariant.origin_of r)) = true.
Proof.
  intros H. apply andb_true_iff; split; apply negb_true_iff.
  - apply str_eqb_neq. intros E. apply H. left; exact E.
  - destruct (includes _ _) eqn:E; [|reflexivity].
    exfalso. apply H. right. apply includes_In. exact E.
Qed.

Lemma Q_onRequest_origin_refused (ctx : Context) (pf : QueryVariant.Platform)
    (m : gmap (list Z) QueryVariant.RateRecord) :
  method (request ctx) <> str "OPTIONS" ->
  ~ QueryVariant.origin_passes (request ctx) ->
  QueryVariant.onRequest ctx pf m =
    {| QueryVariant.store_after := m; QueryVariant.fetched := [];
       QueryVariant.outcome :=
         Normal {| status := 403;
                   headers :=
                     QueryVariant.json_headers
                       (QueryVariant.getCorsHeaders (QueryVariant.origin_of (request ctx)));
                   body :=
                     QueryVariant.error_body (VString (str "Origin not allowed")) |} |}.
Proof.
  intros Hm Ho. unfold QueryVariant.onRequest.
  rewrite (method_is_not _ _ Hm), (Q_origin_gate_closed _ Ho). reflexivity.
Qed.

Lemma Q_onRequest_throttled (ctx : Context) (pf : QueryVariant.Platform)
    (m m' : gmap (list Z) QueryVariant.RateRecord) :
  method (request ctx) <> str "OPTIONS" ->
  QueryVariant.origin_passes (request ctx) ->
  QueryVariant.checkRateLimit (QueryVariant.Date_now pf)
    (QueryVariant.clientIP_of (request ctx)) m = (m', false) ->
  QueryVariant.onRequest ctx pf m =
    {| QueryVariant.store_after := m'; QueryVariant.fetched := [];
       QueryVariant.outcome :=
         Normal {| status := 429;
                   headers :=
                     object_literal
                       (QueryVariant.getCorsHeaders (QueryVariant.origin_of (request ctx))
                        ++ [ (str "Content-Type", str "application/json");
                             (str "Retry-After", str "60") ]);
                   body :=
                     QueryVariant.error_body
                       (VString
                          (str "Rate limit exceeded. Max 1000 requests per minute.")) |} |}.
Proof.
  intros Hm Ho E. unfold QueryVariant.onRequest.
  rewrite (method_is_not _ _ Hm), (Q_origin_gate_open _ Ho), E. reflexivity.
Qed.

Lemma Q_onRequest_no_token (ctx : Context) (pf : QueryVariant.Platform)
    (m m' : gmap (list Z) QueryVariant.RateRecord) :
  method (request ctx) <> str "OPTIONS" ->
  QueryVariant.origin_passes (request ctx) ->
  QueryVariant.checkRateLimit (QueryVariant.Date_now pf)
    (QueryVariant.clientIP_of (request ctx)) m = (m', true) ->
  truthy_opt (env_AIRTABLE_TOKEN ctx) = false ->
  QueryVariant.onRequest ctx pf m =
    {| QueryVariant.store_after := m'; QueryVariant.fetched := [];
       QueryVariant.outcome :=
         Normal {| status := 500;
                   headers :=
                     QueryVariant.json_headers
                       (QueryVariant.getCorsHeaders (QueryVariant.origin_of (request ctx)));
                   body :=
                     QueryVariant.error_body
                       (VString (str "Server configuration error")) |} |}.
Proof.
  intros Hm Ho E Ht. unfold QueryVariant.onRequest.
  rewrite (method_is_not _ _ Hm), (Q_origin_gate_open _ Ho), E, Ht. reflexivity.
Qed.

(** C4, as stated, fails at the end of a window.  A client opens a window
    at time 0 and makes 1000 requests, all admitted.  Its next request
    arrives at 60000: [60000 - 0 > RATE_WINDOW] is false, so it falls in the
    same window and is rejected, with [resetAt = 60000], which is the
    current time and not later. *)
Lemma C4_resetAt_not_after_now :
  let ip := str "198.51.100.4" in
  let run := PathVariant.requests ip (repeat 0 1000) ∅ in
  forallb PathVariant.allowed (snd run) = true
  /\ 60000 - 0 <= PathVariant.RATE_WINDOW
  /\ snd (PathVariant.checkRateLimit 60000 ip (fst run)) =
       {| PathVariant.allowed := false; PathVariant.remaining := 0;
          PathVariant.resetAt := Some 60000 |}
  /\ ~ (exists resetAt,
          PathVariant.resetAt
            (snd (PathVariant.checkRateLimit 60000 ip (fst run))) = Some resetAt
          /\ resetAt > 60000).
Proof.
  cbv zeta. split; [vm_compute; reflexivity|].
  split; [vm_compute; discriminate|].
  split; [vm_compute; reflexivity|].
  intros (resetAt & E & H). vm_compute in E. injection E as <-. lia.
Qed.

(** C4, amended.  A client's request at [t0] opens a window (no record, or
    a record older than [RATE_WINDOW]); it and the requests that follow at
    times [ts] inside the window ([t - t0 <= RATE_WINDOW]), at most
    [RATE_LIMIT] in all, are admitted by both limiters.  When they are
    exactly [RATE_LIMIT], one more request at a time [t] of the same window
    is rejected and both handlers answer 429; the path-segment limiter
    reports [resetAt = t0 + RATE_WINDOW], which is at or after [t], and
    strictly after it unless [t] is exactly [RATE_WINDOW] ms after [t0]. *)
Theorem C4_window_allows_limit_then_429 :
  forall (ip : list Z) (t0 t : Z) (ts : list Z)
         (mp : gmap (list Z) PathVariant.RateRecord)
         (mq : gmap (list Z) QueryVariant.RateRecord),
    (mp !! ip = None \/
     exists r, mp !! ip = Some r /\
               t0 - PathVariant.timestamp r > PathVariant.RATE_WINDOW) ->
    (mq !! ip = None \/
     exists r, mq !! ip = Some r /\
               t0 - QueryVariant.windowStart r > QueryVariant.RATE_WINDOW) ->
    Forall (fun t' => t' - t0 <= 60000) ts ->
    Z.of_nat (List.length ts) < 1000 ->
    exists mp' rs mq' bs,
      PathVariant.requests ip (t0 :: ts) mp = (mp', rs)
      /\ Forall (fun r => PathVariant.allowed r = true) rs
      /\ QueryVariant.requests ip (t0 :: ts) mq = (mq', bs)
      /\ Forall (fun b => b = true) bs
      /\ (Z.of_nat (List.length (t0 :: ts)) = PathVariant.RATE_LIMIT ->
          t - t0 <= 60000 ->
          PathVariant.checkRateLimit t ip mp' =
            (mp', {| PathVariant.allowed := false; PathVariant.remaining := 0;
                     PathVariant.resetAt := Some (t0 + PathVariant.RATE_WINDOW) |})
          /\ t <= t0 + PathVariant.RATE_WINDOW
          /\ (t < t0 + PathVariant.RATE_WINDOW <-> t - t0 <> PathVariant.RATE_WINDOW)
          /\ QueryVariant.checkRateLimit t ip mq' = (mq', false)
          /\ (forall J ctx pf,
                method (request ctx) <> str "OPTIONS" ->
                truthy_opt (env_AIRTABLE_TOKEN ctx) = true ->
                PathVariant.getRateLimitKey (request ctx) = ip ->
                PathVariant.Date_now pf = t ->
                exists resp,
                  PathVariant.outcome (PathVariant.onRequest J ctx pf mp') = Normal resp
                  /\ status resp = 429
                  /\ body resp =
                       JSON_stringify
                         (VObject [ (str "error", VString (str "Rate limit exceeded"));
                                    (str "resetAt",
                                     VNumber (t0 + PathVariant.RATE_WINDOW)) ]))
          /\ (forall ctx pf,
                method (request ctx) <> str "OPTIONS" ->
                QueryVariant.origin_passes (request ctx) ->
                QueryVariant.clientIP_of (request ctx) = ip ->
                QueryVariant.Date_now pf = t ->
                exists resp,
                  QueryVariant.outcome (QueryVariant.onRequest ctx pf mq') = Normal resp
                  /\ status resp = 429)).
Proof.
  intros ip t0 t ts mp mq Hp Hq Hw Hn.
  destruct (P_requests_window ip t0 ts mp Hp Hw Hn) as (mp' & rs & Ep & Hmp & Hrs).
  destruct (Q_requests_window ip t0 ts mq Hq Hw Hn) as (mq' & bs & Eq & Hmq & Hbs).
  exists mp', rs, mq', bs. repeat (split; [assumption|]).
  intros Hlen Ht. cbn [List.length] in Hlen.
  assert (Erej : PathVariant.checkRateLimit t ip mp' =
            (mp', {| PathVariant.allowed := false; PathVariant.remaining := 0;
                     PathVariant.resetAt := Some (t0 + PathVariant.RATE_WINDOW) |})).
  { rewrite (checkRateLimit_reject t ip mp' _ Hmp); [reflexivity | exact Ht |].
    cbn [PathVariant.count]. lia. }
  assert (Erejq : QueryVariant.checkRateLimit t ip mq' = (mq', false)).
  { apply (checkRateLimit_Q_reject t ip mq' _ Hmq); [exact Ht |].
    cbn [QueryVariant.count]. unfold QueryVariant.RATE_LIMIT.
    unfold PathVariant.RATE_LIMIT in Hlen. lia. }
  split; [exact Erej|].
  split; [unfold PathVariant.RATE_WINDOW; lia|].
  split; [unfold PathVariant.RATE_WINDOW; lia|].
  split; [exact Erejq|]. split.
  - intros J ctx pf Hm Htok Hip Hnow.
    rewrite (P_onRequest_throttled J ctx pf mp' mp' (t0 + PathVariant.RATE_WINDOW) Hm Htok)
      by (rewrite Hip, Hnow; exact Erej).
    eexists. split; [reflexivity|]. split; reflexivity.
  - intros ctx pf Hm Ho Hip Hnow.
    rewrite (Q_onRequest_throttled ctx pf mq' mq' Hm Ho)
      by (rewrite Hip, Hnow; exact Erejq).
    eexists. split; reflexivity.
Qed.

Lemma C4_window_allows_limit_then_429_witness :
  exists mp' rs mq' bs,
    PathVariant.requests (str "198.51.100.4") (0 :: repeat 10 999) ∅ = (mp', rs)
    /\ Forall (fun r => PathVariant.allowed r = true) rs
    /\ QueryVariant.requests (str "198.51.100.4") (0 :: repeat 10 999) ∅ = (mq', bs)
    /\ Forall (fun b => b = true) bs
    /\ (Z.of_nat (List.length (0 :: repeat 10 999)) = PathVariant.RATE_LIMIT ->
        59999 - 0 <= 60000 ->
        PathVariant.checkRateLimit 59999 (str "198.51.100.4") mp' =
          (mp', {| PathVariant.allowed := false; PathVariant.remaining := 0;
                   PathVariant.resetAt := Some (0 + PathVariant.RATE_WINDOW) |})
        /\ 59999 <= 0 + PathVariant.RATE_WINDOW
        /\ (59999 < 0 + PathVariant.RATE_WINDOW <->
            59999 - 0 <> PathVariant.RATE_WINDOW)
        /\ QueryVariant.checkRateLimit 59999 (str "198.51.100.4") mq' = (mq', false)
        /\ (forall J ctx pf,
              method (request ctx) <> str "OPTIONS" ->
              truthy_opt (env_AIRTABLE_TOKEN ctx) = true ->
              PathVariant.getRateLimitKey (request ctx) = str "198.51.100.4" ->
              PathVariant.Date_now pf = 59999 ->
              exists resp,
                PathVariant.outcome (PathVariant.onRequest J ctx pf mp') = Normal resp
                /\ status resp = 429
                /\ body resp =
                     JSON_stringify
                       (VObject [ (str "error", VString (str "Rate limit exceeded"));
                                  (str "resetAt",
                                   VNumber (0 + PathVariant.RATE_WINDOW)) ]))
        /\ (forall ctx pf,
              method (request ctx) <> str "OPTIONS" ->
              QueryVariant.origin_passes (request ctx) ->
              QueryVariant.clientIP_of (request ctx) = str "198.51.100.4" ->
              QueryVariant.Date_now pf = 59999 ->
              exists resp,
                QueryVariant.outcome (QueryVariant.onRequest ctx pf mq') = Normal resp
                /\ status resp = 429)).
Proof.
  apply (C4_window_allows_limit_then_429 (str "198.51.100.4") 0 59999
           (repeat 10 999) ∅ ∅).
  - left. apply lookup_empty.
  - left. apply lookup_empty.
  - apply Forall_forall. intros x Hx. apply list_elem_of_In, repeat_spec in Hx.
    subst x. lia.
  - rewrite List.repeat_length. lia.
Defined.

(** ** The order of the gates *)

(** C2, as stated, fails in the query-parameter proxy.  A [GET] without
    the secret configuration is answered 500, but the limiter has been
    consulted before: the map, empty before the request, holds a record for
    the client afterwards. *)
Lemma C2_query_proxy_counts_before_token_check :
  let run :=
    QueryVariant.onRequest (Samples.without_token Samples.get_request)
      Samples.query_upstream_down ∅ in
  method Samples.get_request <> str "OPTIONS"
  /\ (exists resp, QueryVariant.outcome run = Normal resp /\ status resp = 500)
  /\ QueryVariant.store_after run !! Samples.ip =
       Some {| QueryVariant.windowStart := Samples.now; QueryVariant.count := 1 |}
  /\ QueryVariant.store_after run <> ∅.
Proof.
  cbv zeta. split; [vm_compute; discriminate|].
  split; [eexists; split; vm_compute; reflexivity|].
  assert (L : QueryVariant.store_after
                (QueryVariant.onRequest (Samples.without_token Samples.get_request)
                   Samples.query_upstream_down ∅) !! Samples.ip =
              Some {| QueryVariant.windowStart := Samples.now;
                      QueryVariant.count := 1 |})
    by (vm_compute; reflexivity).
  split; [exact L|].
  intros E. rewrite E, lookup_empty in L. discriminate.
Qed.

(** C2, amended.  For a request that is not a preflight and arrives without
    the secret configuration: the path-segment proxy answers 500 before the
    limiter is consulted, the map unchanged and no upstream call made.  The
    query-parameter proxy checks the configuration third: a request its
    origin gate refuses is answered 403 with the map unchanged; otherwise
    the limiter is consulted first, the map is the one it leaves, and the
    answer is 500 when the limiter admits and 429 when it rejects. *)
Theorem C2_token_check_position :
  forall (J : list Z -> option (list Z)) (ctx : Context)
         (pfp : PathVariant.Platform) (pfq : QueryVariant.Platform)
         (mp : gmap (list Z) PathVariant.RateRecord)
         (mq : gmap (list Z) QueryVariant.RateRecord),
    method (request ctx) <> str "OPTIONS" ->
    truthy_opt (env_AIRTABLE_TOKEN ctx) = false ->
    (PathVariant.store_after (PathVariant.onRequest J ctx pfp mp) = mp
     /\ PathVariant.fetched (PathVariant.onRequest J ctx pfp mp) = []
     /\ exists resp,
          PathVariant.outcome (PathVariant.onRequest J ctx pfp mp) = Normal resp
          /\ status resp = 500
          /\ body resp =
               JSON_stringify
                 (VObject [(str "error", VString (str "Server configuration error"))]))
    /\ (~ QueryVariant.origin_passes (request ctx) ->
        QueryVariant.store_after (QueryVariant.onRequest ctx pfq mq) = mq
        /\ QueryVariant.fetched (QueryVariant.onRequest ctx pfq mq) = []
        /\ exists resp,
             QueryVariant.outcome (QueryVariant.onRequest ctx pfq mq) = Normal resp
             /\ status resp = 403)
    /\ (QueryVariant.origin_passes (request ctx) ->
        let limiter :=
          QueryVariant.checkRateLimit (QueryVariant.Date_now pfq)
            (QueryVariant.clientIP_of (request ctx)) mq in
        QueryVariant.store_after (QueryVariant.onRequest ctx pfq mq) = fst limiter
        /\ QueryVariant.fetched (QueryVariant.onRequest ctx pfq mq) = []
        /\ exists resp,
             QueryVariant.outcome (QueryVariant.onRequest ctx pfq mq) = Normal resp
             /\ status resp = (if snd limiter then 500 else 429)
             /\ (snd limiter = true ->
                 body resp =
                   QueryVariant.error_body
                     (VString (str "Server configuration error")))).
Proof.
  intros J ctx pfp pfq mp mq Hm Ht. split; [|split].
  - rewrite (P_onRequest_no_token J ctx pfp mp Hm Ht). cbn.
    repeat split. eexists. repeat split.
  - intros Ho. rewrite (Q_onRequest_origin_refused ctx pfq mq Hm Ho). cbn.
    repeat split. eexists. repeat split.
  - intros Ho limiter. subst limiter.
    destruct (QueryVariant.checkRateLimit (QueryVariant.Date_now pfq)
                (QueryVariant.clientIP_of (request ctx)) mq) as [m' [|]] eqn:E.
    + rewrite (Q_onRequest_no_token ctx pfq mq m' Hm Ho E Ht). cbn.
      repeat split. eexists. repeat split.
    + rewrite (Q_onRequest_throttled ctx pfq mq m' Hm Ho E). cbn.
      repeat split. eexists. repeat split. intros; discriminate.
Qed.

Lemma C2_token_check_position_witness :
  (PathVariant.store_after
     (PathVariant.onRequest Samples.only_empty_json
        (Samples.without_token Samples.get_request) Samples.path_upstream_down ∅) = ∅
   /\ PathVariant.fetched
        (PathVariant.onRequest Samples.only_empty_json
           (Samples.without_token Samples.get_request) Samples.path_upstream_down ∅) = []
   /\ exists resp,
        PathVariant.outcome
          (PathVariant.onRequest Samples.only_empty_json
             (Samples.without_token Samples.get_request)
             Samples.path_upstream_down ∅) = Normal resp
        /\ status resp = 500
        /\ body resp =
             JSON_stringify
               (VObject [(str "error", VString (str "Server configuration error"))])).
Proof.
  apply (C2_token_check_position Samples.only_empty_json
           (Samples.without_token Samples.get_request)
           Samples.path_upstream_down Samples.query_upstream_down ∅ ∅).
  - vm_compute. discriminate.
  - reflexivity.
Defined.

(** ** Preflight *)

(** The CORS headers of the two proxies, by the [Origin] header of the
    request. *)
Lemma listed_origin_truthy (o : list Z) :
  In o PathVariant.ALLOWED_ORIGINS \/ In o QueryVariant.ALLOWED_ORIGINS ->
  truthy o = true.
Proof.
  intros [H | H];
    cbn [In PathVariant.ALLOWED_ORIGINS QueryVariant.ALLOWED_ORIGINS] in H;
    repeat (destruct H as [<- | H]; [reflexivity|]); destruct H.
Qed.

Lemma P_getCorsHeaders_listed (r : Request) (o : list Z) :
  header_Origin r = Some o ->
  In o PathVariant.ALLOWED_ORIGINS ->
  PathVariant.getCorsHeaders r =
    [ (str "Access-Control-Allow-Methods", str "GET, POST, PATCH, DELETE, OPTIONS");
      (str "Access-Control-Allow-Headers",
       str "Content-Type, Authorization, X-Requested-With");
      (str "Access-Control-Max-Age", str "86400");
      (str "Access-Control-Allow-Origin", o);
      (str "Access-Control-Allow-Credentials", str "true") ].
Proof.
  intros Ho Hin. unfold PathVariant.getCorsHeaders. rewrite Ho.
  rewrite (listed_origin_truthy o (or_introl Hin)).
  apply includes_In in Hin. rewrite Hin. cbn [andb].
  vm_compute. reflexivity.
Qed.

Lemma P_getCorsHeaders_unlisted (r : Request) :
  header_Origin r = None
  \/ (exists o, header_Origin r = Some o /\ ~ In o PathVariant.ALLOWED_ORIGINS) ->
  PathVariant.getCorsHeaders r =
    [ (str "Access-Control-Allow-Methods", str "GET, POST, PATCH, DELETE, OPTIONS");
      (str "Access-Control-Allow-Headers",
       str "Content-Type, Authorization, X-Requested-With");
      (str "Access-Control-Max-Age", str "86400") ].
Proof.
  unfold PathVariant.getCorsHeaders. intros [-> | (o & -> & Hin)].
  - vm_compute. reflexivity.
  - destruct (includes PathVariant.ALLOWED_ORIGINS o) eqn:Ei.
    + apply includes_In in Ei. contradiction.
    + rewrite andb_false_r. vm_compute. reflexivity.
Qed.

Lemma Q_getCorsHeaders_listed (r : Request) (o : list Z) :
  header_Origin r = Some o ->
  In o QueryVariant.ALLOWED_ORIGINS ->
  QueryVariant.origin_of r = o
  /\ QueryVariant.getCorsHeaders (QueryVariant.origin_of r) =
       [ (str "Access-Control-Allow-Origin", o);
         (str "Access-Control-Allow-Methods", str "GET, POST, PATCH, DELETE, OPTIONS");
         (str "Access-Control-Allow-Headers", str "Content-Type");
         (str "Access-Control-Max-Age", str "86400") ].
Proof.
  intros Ho Hin.
  assert (E : QueryVariant.origin_of r = o).
  { unfold QueryVariant.origin_of, or_else. rewrite Ho. cbn [truthy_opt].
    rewrite (listed_origin_truthy o (or_intror Hin)). reflexivity. }
  split; [exact E|]. rewrite E. unfold QueryVariant.getCorsHeaders.
  apply includes_In in Hin. rewrite Hin. vm_compute. reflexivity.
Qed.

Lemma Q_getCorsHeaders_unlisted (r : Request) :
  header_Origin r = None
  \/ (exists o, header_Origin r = Some o /\ ~ In o QueryVariant.ALLOWED_ORIGINS) ->
  ~ In (QueryVariant.origin_of r) QueryVariant.ALLOWED_ORIGINS
  /\ QueryVariant.getCorsHeaders (QueryVariant.origin_of r) =
       [ (str "Access-Control-Allow-Origin", str "https://prioai.ca");
         (str "Access-Control-Allow-Methods", str "GET, POST, PATCH, DELETE, OPTIONS");
         (str "Access-Control-Allow-Headers", str "Content-Type");
         (str "Access-Control-Max-Age", str "86400") ].
Proof.
  intros H.
  assert (Hn : ~ In (QueryVariant.origin_of r) QueryVariant.ALLOWED_ORIGINS).
  { unfold QueryVariant.origin_of, or_else.
    destruct H as [-> | (o & -> & Hin)]; cbn [truthy_opt].
    - intros H. pose proof (listed_origin_truthy _ (or_intror H)). discriminate.
    - destruct (truthy o); [exact Hin|].
      intros H. pose proof (listed_origin_truthy _ (or_intror H)). discriminate. }
  split; [exact Hn|]. unfold QueryVariant.getCorsHeaders.
  destruct (includes QueryVariant.ALLOWED_ORIGINS (QueryVariant.origin_of r)) eqn:Ei.
  - apply includes_In in Ei. contradiction.
  - vm_compute. reflexivity.
Qed.

(** C6.  A preflight ([OPTIONS]) request is answered 204 with no body and
    the CORS header set by both proxies, whatever its origin, its path and
    the rate-limit map; the map is left as it is and no upstream call is
    made: the handler returns before the limiter, the configuration check
    and the path validation.  The header set is the methods, the headers
    and the max-age headers of the proxy, and the allow-origin header: in
    the path-segment proxy the origin of the request with
    [Access-Control-Allow-Credentials: true] when the [Origin] header is
    listed and no such header otherwise; in the query-parameter proxy the
    origin of the request when it is listed and [https://prioai.ca]
    otherwise. *)
Theorem C6_preflight_bypasses_everything :
  forall (J : list Z -> option (list Z)) (ctx : Context)
         (pfp : PathVariant.Platform) (pfq : QueryVariant.Platform)
         (mp : gmap (list Z) PathVariant.RateRecord)
         (mq : gmap (list Z) QueryVariant.RateRecord),
    method (request ctx) = str "OPTIONS" ->
    ((forall o,
         header_Origin (request ctx) = Some o ->
         In o PathVariant.ALLOWED_ORIGINS ->
         PathVariant.onRequest J ctx pfp mp =
           {| PathVariant.store_after := mp; PathVariant.fetched := [];
              PathVariant.outcome :=
                Normal
                  {| status := 204;
                     headers :=
                       [ (str "Access-Control-Allow-Methods",
                          str "GET, POST, PATCH, DELETE, OPTIONS");
                         (str "Access-Control-Allow-Headers",
                          str "Content-Type, Authorization, X-Requested-With");
                         (str "Access-Control-Max-Age", str "86400");
                         (str "Access-Control-Allow-Origin", o);
                         (str "Access-Control-Allow-Credentials", str "true") ];
                     body := Null |} |})
     /\ (header_Origin (request ctx) = None
         \/ (exists o, header_Origin (request ctx) = Some o
                       /\ ~ In o PathVariant.ALLOWED_ORIGINS) ->
         PathVariant.onRequest J ctx pfp mp =
           {| PathVariant.store_after := mp; PathVariant.fetched := [];
              PathVariant.outcome :=
                Normal
                  {| status := 204;
                     headers :=
                       [ (str "Access-Control-Allow-Methods",
                          str "GET, POST, PATCH, DELETE, OPTIONS");
                         (str "Access-Control-Allow-Headers",
                          str "Content-Type, Authorization, X-Requested-With");
                         (str "Access-Control-Max-Age", str "86400") ];
                     body := Null |} |}))
    /\ ((forall o,
           header_Origin (request ctx) = Some o ->
           In o QueryVariant.ALLOWED_ORIGINS ->
           QueryVariant.onRequest ctx pfq mq =
             {| QueryVariant.store_after := mq; QueryVariant.fetched := [];
                QueryVariant.outcome :=
                  Normal
                    {| status := 204;
                       headers :=
                         [ (str "Access-Control-Allow-Origin", o);
                           (str "Access-Control-Allow-Methods",
                            str "GET, POST, PATCH, DELETE, OPTIONS");
                           (str "Access-Control-Allow-Headers", str "Content-Type");
                           (str "Access-Control-Max-Age", str "86400") ];
                       body := Null |} |})
        /\ (header_Origin (request ctx) = None
            \/ (exists o, header_Origin (request ctx) = Some o
                          /\ ~ In o QueryVariant.ALLOWED_ORIGINS) ->
            QueryVariant.onRequest ctx pfq mq =
              {| QueryVariant.store_after := mq; QueryVariant.fetched := [];
                 QueryVariant.outcome :=
                   Normal
                     {| status := 204;
                        headers :=
                          [ (str "Access-Control-Allow-Origin",
                             str "https://prioai.ca");
                            (str "Access-Control-Allow-Methods",
                             str "GET, POST, PATCH, DELETE, OPTIONS");
                            (str "Access-Control-Allow-Headers", str "Content-Type");
                            (str "Access-Control-Max-Age", str "86400") ];
                        body := Null |} |})).
Proof.
  intros J ctx pfp pfq mp mq H. split; split.
  - intros o Ho Hin. rewrite (P_onRequest_preflight J ctx pfp mp H).
    rewrite (P_getCorsHeaders_listed _ o Ho Hin). reflexivity.
  - intros Ho. rewrite (P_onRequest_preflight J ctx pfp mp H).
    rewrite (P_getCorsHeaders_unlisted _ Ho). reflexivity.
  - intros o Ho Hin. rewrite (Q_onRequest_preflight ctx pfq mq H).
    destruct (Q_getCorsHeaders_listed _ o Ho Hin) as [_ ->]. reflexivity.
  - intros Ho. rewrite (Q_onRequest_preflight ctx pfq mq H).
    destruct (Q_getCorsHeaders_unlisted _ Ho) as [_ ->]. reflexivity.
Qed.

Lemma C6_preflight_bypasses_everything_witness :
  PathVariant.onRequest Samples.only_empty_json
    (Samples.without_token Samples.options_request) Samples.path_upstream_down ∅ =
    {| PathVariant.store_after := ∅; PathVariant.fetched := [];
       PathVariant.outcome :=
         Normal {| status := 204;
                   headers :=
                     [ (str "Access-Control-Allow-Methods",
                        str "GET, POST, PATCH, DELETE, OPTIONS");
                       (str "Access-Control-Allow-Headers",
                        str "Content-Type, Authorization, X-Requested-With");
                       (str "Access-Control-Max-Age", str "86400") ];
                   body := Null |} |}
  /\ QueryVariant.onRequest (Samples.without_token Samples.options_request)
       Samples.query_upstream_down ∅ =
       {| QueryVariant.store_after := ∅; QueryVariant.fetched := [];
          QueryVariant.outcome :=
            Normal {| status := 204;
                      headers :=
                        [ (str "Access-Control-Allow-Origin",
                           str "https://prioai.ca");
                          (str "Access-Control-Allow-Methods",
                           str "GET, POST, PATCH, DELETE, OPTIONS");
                          (str "Access-Control-Allow-Headers", str "Content-Type");
                          (str "Access-Control-Max-Age", str "86400") ];
                      body := Null |} |}.
Proof.
  destruct (C6_preflight_bypasses_everything Samples.only_empty_json
              (Samples.without_token Samples.options_request)
              Samples.path_upstream_down Samples.query_upstream_down ∅ ∅)
    as [[_ HP] [_ HQ]].
  - reflexivity.
  - assert (Hn : forall l : list (list Z),
               (l = PathVariant.ALLOWED_ORIGINS \/ l = QueryVariant.ALLOWED_ORIGINS) ->
               exists o, header_Origin
                           (request (Samples.without_token Samples.options_request))
                         = Some o /\ ~ In o l).
    { intros l Hl. eexists. split; [reflexivity|].
      destruct Hl as [-> | ->]; vm_compute; intros H;
        repeat (destruct H as [H | H]; [discriminate H|]); destruct H. }
    split.
    + apply HP. right. apply Hn. left. reflexivity.
    + apply HQ. right. apply Hn. right. reflexivity.
Defined.

Lemma P_onRequest_upstream (J : list Z -> option (list Z)) (ctx : Context)
    (pf : PathVariant.Platform) (m : gmap (list Z) PathVariant.RateRecord)
    (call : FetchCall (list Z)) :
  In call (PathVariant.fetched (PathVariant.onRequest J ctx pf m)) ->
  let limiter :=
    PathVariant.checkRateLimit (PathVariant.Date_now pf)
      (PathVariant.getRateLimitKey (request ctx)) m in
  PathVariant.fetched (PathVariant.onRequest J ctx pf m) = [call]
  /\ method (request ctx) <> str "OPTIONS"
  /\ truthy_opt (env_AIRTABLE_TOKEN ctx) = true
  /\ PathVariant.allowed (snd limiter) = true
  /\ PathVariant.store_after (PathVariant.onRequest J ctx pf m) = fst limiter
  /\ PathVariant.outcome (PathVariant.onRequest J ctx pf m) =
       try_catch
         (bind (PathVariant.fetch pf call) (fun airtableResponse =>
          bind (PathVariant.json J (upstream_text airtableResponse)) (fun data =>
          new_Response (JSON_stringify data) (upstream_status airtableResponse)
            (object_literal
               ([ (str "Content-Type", str "application/json");
                  (str "X-RateLimit-Limit", Number_toString PathVariant.RATE_LIMIT);
                  (str "X-RateLimit-Remaining",
                   Number_toString (PathVariant.remaining (snd limiter))) ]
                ++ PathVariant.getCorsHeaders (request ctx))))))
         (fun error =>
            PathVariant.error_response (request ctx) 502
              [ (str "error", VString (str "Failed to fetch from Airtable"));
                (str "details", VMessage error) ]).
Proof.
  cbv zeta. unfold PathVariant.onRequest.
  destruct (str_eqb (method (request ctx)) (str "OPTIONS")) eqn:Em; [intros []|].
  apply str_eqb_neq in Em.
  destruct (truthy_opt (env_AIRTABLE_TOKEN ctx)) eqn:Et; [|intros []].
  destruct (PathVariant.checkRateLimit _ _ m) as [m' rl] eqn:El.
  cbn [negb fst snd].
  destruct (PathVariant.allowed rl) eqn:Ea; [|intros []].
  cbn [negb].
  repeat case_match; cbn [PathVariant.fetched PathVariant.store_after PathVariant.outcome In];
    try (intros []; fail);
    (intros [<- | []]; repeat split; assumption).
Qed.

Lemma Q_origin_gate_passed (r : Request) :
  negb (str_eqb (method r) (str "GET"))
  && negb (includes QueryVariant.ALLOWED_ORIGINS (QueryVariant.origin_of r)) = false ->
  QueryVariant.origin_passes r.
Proof.
  intros H. apply andb_false_iff in H. destruct H as [H | H];
    apply negb_false_iff in H.
  - left. apply str_eqb_eq. exact H.
  - right. apply includes_In. exact H.
Qed.

Lemma Q_onRequest_upstream (ctx : Context) (pf : QueryVariant.Platform)
    (m : gmap (list Z) QueryVariant.RateRecord) (call : FetchCall URL) :
  In call (QueryVariant.fetched (QueryVariant.onRequest ctx pf m)) ->
  let limiter :=
    QueryVariant.checkRateLimit (QueryVariant.Date_now pf)
      (QueryVariant.clientIP_of (request ctx)) m in
  let corsHeaders := QueryVariant.getCorsHeaders (QueryVariant.origin_of (request ctx)) in
  QueryVariant.fetched (QueryVariant.onRequest ctx pf m) = [call]
  /\ method (request ctx) <> str "OPTIONS"
  /\ QueryVariant.origin_passes (request ctx)
  /\ truthy_opt (env_AIRTABLE_TOKEN ctx) = true
  /\ snd limiter = true
  /\ QueryVariant.store_after (QueryVariant.onRequest ctx pf m) = fst limiter
  /\ (exists path,
        searchParams_get (str "path") (url_searchParams (request ctx)) = Some path
        /\ QueryVariant.validatePath (Some path) =
             Normal {| QueryVariant.valid := true; QueryVariant.error := None |}
        /\ fetch_url call =
             QueryVariant.forward_params (url_searchParams (request ctx))
               (new_URL (str "https://api.airtable.com/v0/" ++ path)))
  /\ QueryVariant.outcome (QueryVariant.onRequest ctx pf m) =
       try_catch
         (bind (QueryVariant.fetch pf call) (fun response =>
          bind (upstream_text response) (fun data =>
          new_Response (Text data) (upstream_status response)
            (QueryVariant.json_headers corsHeaders))))
         (fun _ =>
            new_Response
              (QueryVariant.error_body (VString (str "Failed to fetch from Airtable")))
              502 (QueryVariant.json_headers corsHeaders)).
Proof.
  cbv zeta. unfold QueryVariant.onRequest.
  destruct (str_eqb (method (request ctx)) (str "OPTIONS")) eqn:Em; [intros []|].
  apply str_eqb_neq in Em.
  destruct (negb (str_eqb (method (request ctx)) (str "GET")) && _) eqn:Eo;
    [intros []|].
  apply Q_origin_gate_passed in Eo.
  destruct (QueryVariant.checkRateLimit _ _ m) as [m' ok] eqn:El.
  cbn [negb fst snd].
  destruct ok; [|intros []]. cbn [negb].
  destruct (truthy_opt (env_AIRTABLE_TOKEN ctx)) eqn:Et; [|intros []].
  cbn [negb].
  destruct (searchParams_get (str "path") (url_searchParams (request ctx)))
    as [path|] eqn:Ep; [|intros []].
  destruct (QueryVariant.validatePath (Some path)) as [[[|] err]|e] eqn:Ev;
    cbn [QueryVariant.valid negb QueryVariant.fetched In]; try (intros []; fail).
  intros [<- | []].
  assert (err = None) as ->.
  { unfold QueryVariant.validatePath, bind, QueryVariant.invalid in Ev.
    repeat case_match; congruence. }
  repeat split; try assumption. exists path. repeat split. exact Ev.
Qed.

Lemma P_checkRateLimit_allowed (now : Z) (ip : list Z)
    (m : gmap (list Z) PathVariant.RateRecord) :
  PathVariant.allowed (snd (PathVariant.checkRateLimit now ip m)) = true ->
  exists r',
    fst (PathVariant.checkRateLimit now ip m) !! ip = Some r'
    /\ PathVariant.count r' =
         1 + match m !! ip with
             | Some r => if now - PathVariant.timestamp r >? PathVariant.RATE_WINDOW
                         then 0 else PathVariant.count r
             | None => 0
             end.
Proof.
  unfold PathVariant.checkRateLimit.
  destruct (m !! ip) as [r|] eqn:E.
  - destruct (now - PathVariant.timestamp r >? PathVariant.RATE_WINDOW).
    + intros _. eexists. cbn [fst]. rewrite lookup_insert_eq. split; reflexivity.
    + destruct (PathVariant.count r >=? PathVariant.RATE_LIMIT);
        cbn [snd fst PathVariant.allowed]; [discriminate|].
      intros _. eexists. rewrite lookup_insert_eq. split; [reflexivity|].
      cbn [PathVariant.count]. lia.
  - intros _. eexists. cbn [fst]. rewrite lookup_insert_eq. split; reflexivity.
Qed.

Lemma Q_checkRateLimit_allowed (now : Z) (ip : list Z)
    (m : gmap (list Z) QueryVariant.RateRecord) :
  snd (QueryVariant.checkRateLimit now ip m) = true ->
  exists r',
    fst (QueryVariant.checkRateLimit now ip m) !! ip = Some r'
    /\ QueryVariant.count r' =
         1 + match m !! ip with
             | Some r => if now - QueryVariant.windowStart r >? QueryVariant.RATE_WINDOW
                         then 0 else QueryVariant.count r
             | None => 0
             end.
Proof.
  unfold QueryVariant.checkRateLimit.
  destruct (m !! ip) as [r|] eqn:E.
  - destruct (now - QueryVariant.windowStart r >? QueryVariant.RATE_WINDOW).
    + intros _. eexists. cbn [fst]. rewrite lookup_insert_eq. split; reflexivity.
    + destruct (QueryVariant.count r >=? QueryVariant.RATE_LIMIT);
        cbn [snd fst]; [discriminate|].
      intros _. eexists. rewrite lookup_insert_eq. split; [reflexivity|].
      cbn [QueryVariant.count]. lia.
  - intros _. eexists. cbn [fst]. rewrite lookup_insert_eq. split; reflexivity.
Qed.

(** ** The upstream call *)

(** C8.  When a handler has called the upstream and the call fails in
    transport, that call is the only one it makes (there is no retry) and
    the handler returns a response, of status 502, whose body is
    the error object it builds itself: [{ error: 'Failed to fetch from
    Airtable' }], with the message of the failure as [details] in the
    path-segment proxy.  The exception does not escape.  The limiter has
    admitted the request before the call, so the map holds the client's
    record with the count incremented: one more than the count of the
    window in progress, or 1 in a new window. *)
Theorem C8_transport_failure_is_502 :
  forall (J : list Z -> option (list Z)) (ctx : Context)
         (pfp : PathVariant.Platform) (pfq : QueryVariant.Platform)
         (mp : gmap (list Z) PathVariant.RateRecord)
         (mq : gmap (list Z) QueryVariant.RateRecord),
    (forall call e,
        In call (PathVariant.fetched (PathVariant.onRequest J ctx pfp mp)) ->
        transport_failure (PathVariant.fetch pfp call) e ->
        PathVariant.fetched (PathVariant.onRequest J ctx pfp mp) = [call]
        /\ PathVariant.outcome (PathVariant.onRequest J ctx pfp mp) =
          Normal {| status := 502;
                    headers :=
                      object_literal
                        ((str "Content-Type", str "application/json")
                         :: PathVariant.getCorsHeaders (request ctx));
                    body :=
                      JSON_stringify
                        (VObject
                           [ (str "error",
                              VString (str "Failed to fetch from Airtable"));
                             (str "details", VMessage e) ]) |}
        /\ exists r',
             PathVariant.store_after (PathVariant.onRequest J ctx pfp mp)
               !! PathVariant.getRateLimitKey (request ctx) = Some r'
             /\ PathVariant.count r' =
                  1 + match mp !! PathVariant.getRateLimitKey (request ctx) with
                      | Some r =>
                          if PathVariant.Date_now pfp - PathVariant.timestamp r
                             >? PathVariant.RATE_WINDOW
                          then 0 else PathVariant.count r
                      | None => 0
                      end)
    /\ (forall call e,
          In call (QueryVariant.fetched (QueryVariant.onRequest ctx pfq mq)) ->
          transport_failure (QueryVariant.fetch pfq call) e ->
          QueryVariant.fetched (QueryVariant.onRequest ctx pfq mq) = [call]
          /\ QueryVariant.outcome (QueryVariant.onRequest ctx pfq mq) =
            Normal {| status := 502;
                      headers :=
                        object_literal
                          (QueryVariant.getCorsHeaders
                             (QueryVariant.origin_of (request ctx))
                           ++ [(str "Content-Type", str "application/json")]);
                      body :=
                        JSON_stringify
                          (VObject
                             [ (str "error",
                                VString (str "Failed to fetch from Airtable")) ]) |}
          /\ exists r',
               QueryVariant.store_after (QueryVariant.onRequest ctx pfq mq)
                 !! QueryVariant.clientIP_of (request ctx) = Some r'
               /\ QueryVariant.count r' =
                    1 + match mq !! QueryVariant.clientIP_of (request ctx) with
                        | Some r =>
                            if QueryVariant.Date_now pfq - QueryVariant.windowStart r
                               >? QueryVariant.RATE_WINDOW
                            then 0 else QueryVariant.count r
                        | None => 0
                        end).
Proof.
  intros J ctx pfp pfq mp mq. split.
  - intros call e Hin Hfail.
    destruct (P_onRequest_upstream J ctx pfp mp call Hin)
      as (Hone & _ & _ & Ha & Hs & Ho).
    split; [exact Hone|]. rewrite Ho, Hs. split.
    + destruct Hfail as [-> | (r & -> & Hr)]; cbn [bind try_catch].
      * reflexivity.
      * unfold PathVariant.json. rewrite Hr. reflexivity.
    + apply P_checkRateLimit_allowed. exact Ha.
  - intros call e Hin Hfail.
    destruct (Q_onRequest_upstream ctx pfq mq call Hin)
      as (Hone & _ & _ & _ & Ha & Hs & _ & Ho).
    split; [exact Hone|]. rewrite Ho, Hs. split.
    + destruct Hfail as [-> | (r & -> & Hr)]; cbn [bind try_catch].
      * reflexivity.
      * rewrite Hr. reflexivity.
    + apply Q_checkRateLimit_allowed. exact Ha.
Qed.

(** C10.  In the path-segment proxy the body of the upstream response is
    parsed as JSON before it is relayed.  When the upstream answers, with
    any status, a body that is not JSON, the handler returns the 502
    [Failed to fetch from Airtable] error, with the message of the syntax
    error as [details], and neither the status nor the body of the
    upstream. *)
Theorem C10_non_JSON_upstream_body_is_502 :
  forall (J : list Z -> option (list Z)) (ctx : Context)
         (pf : PathVariant.Platform)
         (m : gmap (list Z) PathVariant.RateRecord)
         (call : FetchCall (list Z)) (r : UpstreamResponse)
         (text message : list Z),
    In call (PathVariant.fetched (PathVariant.onRequest J ctx pf m)) ->
    PathVariant.fetch pf call = Normal r ->
    upstream_text r = Normal text ->
    J text = Some message ->
    PathVariant.outcome (PathVariant.onRequest J ctx pf m) =
      Normal {| status := 502;
                headers :=
                  object_literal
                    ((str "Content-Type", str "application/json")
                     :: PathVariant.getCorsHeaders (request ctx));
                body :=
                  JSON_stringify
                    (VObject
                       [ (str "error", VString (str "Failed to fetch from Airtable"));
                         (str "details", VMessage (SyntaxError message)) ]) |}.
Proof.
  intros J ctx pf m call r text message Hin Hf Ht HJ.
  destruct (P_onRequest_upstream J ctx pf m call Hin) as (_ & _ & _ & _ & _ & Ho).
  rewrite Ho, Hf. cbn [bind]. unfold PathVariant.json, PathVariant.JSON_parse.
  rewrite Ht. cbn [bind]. rewrite HJ. reflexivity.
Qed.

Lemma C10_non_JSON_upstream_body_is_502_witness :
  PathVariant.outcome
    (PathVariant.onRequest Samples.only_empty_json
       (Samples.with_token Samples.get_request)
       (Samples.path_upstream 200 (str "<html>Bad gateway</html>")) ∅) =
    Normal {| status := 502;
              headers :=
                object_literal
                  ((str "Content-Type", str "application/json")
                   :: PathVariant.getCorsHeaders Samples.get_request);
              body :=
                JSON_stringify
                  (VObject
                     [ (str "error", VString (str "Failed to fetch from Airtable"));
                       (str "details",
                        VMessage (SyntaxError (str "Unexpected token"))) ]) |}.
Proof.
  apply (C10_non_JSON_upstream_body_is_502 Samples.only_empty_json
           (Samples.with_token Samples.get_request)
           (Samples.path_upstream 200 (str "<html>Bad gateway</html>")) ∅
           Samples.path_call
           {| upstream_status := 200;
              upstream_text := Normal (str "<html>Bad gateway</html>") |}
           (str "<html>Bad gateway</html>") (str "Unexpected token")).
  - left. vm_compute. reflexivity.
  - reflexivity.
  - reflexivity.
  - vm_compute. reflexivity.
Defined.

Lemma C8_transport_failure_is_502_witness :
  (PathVariant.fetched
     (PathVariant.onRequest Samples.only_empty_json
        (Samples.with_token Samples.get_request)
        Samples.path_upstream_down ∅) = [Samples.path_call]
   /\ PathVariant.outcome
        (PathVariant.onRequest Samples.only_empty_json
           (Samples.with_token Samples.get_request)
           Samples.path_upstream_down ∅) =
        Normal {| status := 502;
                  headers :=
                    [ (str "Content-Type", str "application/json");
                      (str "Access-Control-Allow-Methods",
                       str "GET, POST, PATCH, DELETE, OPTIONS");
                      (str "Access-Control-Allow-Headers",
                       str "Content-Type, Authorization, X-Requested-With");
                      (str "Access-Control-Max-Age", str "86400") ];
                  body :=
                    JSON_stringify
                      (VObject
                         [ (str "error",
                            VString (str "Failed to fetch from Airtable"));
                           (str "details",
                            VMessage (FetchError (str "connection refused"))) ]) |}
   /\ PathVariant.store_after
        (PathVariant.onRequest Samples.only_empty_json
           (Samples.with_token Samples.get_request)
           Samples.path_upstream_down ∅) !! Samples.ip =
        Some {| PathVariant.count := 1; PathVariant.timestamp := Samples.now |})
  /\ (QueryVariant.fetched
        (QueryVariant.onRequest (Samples.with_token Samples.get_request)
           Samples.query_upstream_down ∅) = [Samples.query_call]
      /\ QueryVariant.outcome
           (QueryVariant.onRequest (Samples.with_token Samples.get_request)
              Samples.query_upstream_down ∅) =
           Normal {| status := 502;
                     headers :=
                       [ (str "Access-Control-Allow-Origin", str "https://prioai.ca");
                         (str "Access-Control-Allow-Methods",
                          str "GET, POST, PATCH, DELETE, OPTIONS");
                         (str "Access-Control-Allow-Headers", str "Content-Type");
                         (str "Access-Control-Max-Age", str "86400");
                         (str "Content-Type", str "application/json") ];
                     body :=
                       JSON_stringify
                         (VObject
                            [ (str "error",
                               VString (str "Failed to fetch from Airtable")) ]) |}
      /\ QueryVariant.store_after
           (QueryVariant.onRequest (Samples.with_token Samples.get_request)
              Samples.query_upstream_down ∅) !! Samples.ip =
           Some {| QueryVariant.windowStart := Samples.now;
                   QueryVariant.count := 1 |}).
Proof.
  destruct (C8_transport_failure_is_502 Samples.only_empty_json
              (Samples.with_token Samples.get_request)
              Samples.path_upstream_down Samples.query_upstream_down ∅ ∅)
    as [HP HQ].
  split.
  - destruct (HP Samples.path_call (FetchError (str "connection refused")))
      as (Hf & Ho & r' & Hs & Hc).
    + left. vm_compute. reflexivity.
    + left. reflexivity.
    + split; [exact Hf|]. split; [rewrite Ho; vm_compute; reflexivity|].
      vm_compute. reflexivity.
  - destruct (HQ Samples.query_call (FetchError (str "connection refused")))
      as (Hf & Ho & r' & Hs & Hc).
    + left. vm_compute. reflexivity.
    + left. reflexivity.
    + split; [exact Hf|]. split; [rewrite Ho; vm_compute; reflexivity|].
      vm_compute. reflexivity.
Defined.

(** ** Response headers *)




Lemma obj_get_Some_In (k v : list Z) (o : object) :
  obj_get k o = Some v -> In k (List.map fst o).
Proof.
  unfold obj_get. induction o as [|[k' v'] o IH]; cbn [List.find List.map fst In].
  - discriminate.
  - destruct (str_eqb k' k) eqn:E.
    + intros _. left. apply str_eqb_eq. exact E.
    + intros H. right. apply IH. exact H.
Qed.

Ltac carries_by_cases :=
  let k := fresh "k" in
  let v := fresh "v" in
  let H := fresh "H" in
  let Hin := fresh "Hin" in
  intros k v H;
  pose proof (obj_get_Some_In _ _ _ H) as Hin;
  vm_compute in Hin;
  repeat (destruct Hin as [<- | Hin]; [vm_compute in H |- *; exact H |]);
  destruct Hin.




Lemma Q_json_headers_carries (origin : list Z) :
  carries (QueryVariant.json_headers (QueryVariant.getCorsHeaders origin))
          (QueryVariant.getCorsHeaders origin).
Proof. carries_by_cases. Qed.

Lemma Q_429_carries (origin : list Z) :
  carries (object_literal
             (QueryVariant.getCorsHeaders origin
              ++ [ (str "Content-Type", str "application/json");
                   (str "Retry-After", str "60") ]))
          (QueryVariant.getCorsHeaders origin).
Proof. carries_by_cases. Qed.

Lemma carries_refl (o : object) : carries o o.
Proof. intros k v H. exact H. Qed.

Lemma new_Response_Normal (b : Body) (st : Z) (h : object) (resp : Response) :
  new_Response b st h = Normal resp ->
  resp = {| status := st; headers := h; body := b |}.
Proof.
  unfold new_Response. repeat case_match; congruence.
Qed.


(** The responses of the query-parameter proxy, by their rate-limit
    headers. *)
Lemma Q_response_shapes (ctx : Context) (pf : QueryVariant.Platform)
    (m : gmap (list Z) QueryVariant.RateRecord) (resp : Response) :
  QueryVariant.outcome (QueryVariant.onRequest ctx pf m) = Normal resp ->
  carries (headers resp)
          (QueryVariant.getCorsHeaders (QueryVariant.origin_of (request ctx)))
  /\ obj_get (str "X-RateLimit-Limit") (headers resp) = None
  /\ obj_get (str "X-RateLimit-Remaining") (headers resp) = None
  /\ obj_get (str "X-RateLimit-Reset") (headers resp) = None
  /\ ((snd (QueryVariant.checkRateLimit (QueryVariant.Date_now pf)
              (QueryVariant.clientIP_of (request ctx)) m) = false
       /\ status resp = 429
       /\ obj_get (str "Retry-After") (headers resp) = Some (str "60"))
      \/ obj_get (str "Retry-After") (headers resp) = None).
Proof.
  set (cors := QueryVariant.getCorsHeaders (QueryVariant.origin_of (request ctx))).
  assert (Hjson : forall b st,
             new_Response b st (QueryVariant.json_headers cors) = Normal resp ->
             carries (headers resp) cors
             /\ obj_get (str "X-RateLimit-Limit") (headers resp) = None
             /\ obj_get (str "X-RateLimit-Remaining") (headers resp) = None
             /\ obj_get (str "X-RateLimit-Reset") (headers resp) = None
             /\ obj_get (str "Retry-After") (headers resp) = None).
  { intros b st E. apply new_Response_Normal in E. subst resp. cbn [headers].
    split; [apply Q_json_headers_carries|].
    repeat split; vm_compute; reflexivity. }
  unfold QueryVariant.onRequest. fold cors.
  destruct (str_eqb (method (request ctx)) (str "OPTIONS")).
  { cbn [QueryVariant.outcome]. intros E. apply new_Response_Normal in E.
    subst resp. cbn [headers]. split; [apply carries_refl|].
    repeat split; try right; vm_compute; reflexivity. }
  destruct (negb (str_eqb (method (request ctx)) (str "GET")) && _).
  { cbn [QueryVariant.outcome]. intros E. apply Hjson in E. tauto. }
  destruct (QueryVariant.checkRateLimit _ _ m) as [m' [|]] eqn:El; cbn [negb snd].
  2:{ cbn [QueryVariant.outcome]. intros E. apply new_Response_Normal in E.
      subst resp. cbn [headers status]. split; [apply Q_429_carries|].
      repeat split; try (left; repeat split); vm_compute; reflexivity. }
  assert (Hrelay : forall call,
             try_catch
               (bind (QueryVariant.fetch pf call) (fun response =>
                bind (upstream_text response) (fun data =>
                new_Response (Text data) (upstream_status response)
                  (QueryVariant.json_headers cors))))
               (fun _ =>
                  new_Response
                    (QueryVariant.error_body
                       (VString (str "Failed to fetch from Airtable")))
                    502 (QueryVariant.json_headers cors)) = Normal resp ->
             carries (headers resp) cors
             /\ obj_get (str "X-RateLimit-Limit") (headers resp) = None
             /\ obj_get (str "X-RateLimit-Remaining") (headers resp) = None
             /\ obj_get (str "X-RateLimit-Reset") (headers resp) = None
             /\ obj_get (str "Retry-After") (headers resp) = None).
  { intros call E.
    destruct (QueryVariant.fetch pf call) as [r|e]; cbn [bind try_catch] in E.
    2:{ apply Hjson in E. exact E. }
    destruct (upstream_text r) as [text|e]; cbn [bind try_catch] in E.
    2:{ apply Hjson in E. exact E. }
    destruct (new_Response (Text text) _ _) as [resp'|e] eqn:En; cbn [try_catch] in E.
    2:{ apply Hjson in E. exact E. }
    injection E as ->. apply Hjson in En. exact En. }
  repeat case_match; cbn [QueryVariant.outcome]; intros E;
    try discriminate;
    first [ apply Hrelay in E; tauto | apply Hjson in E; tauto ].
Qed.


(** ** Path validation in the query-parameter proxy *)

Lemma Q_validatePath_extra_segments (T rest : list Z) :
  In T QueryVariant.ALLOWED_TABLES ->
  QueryVariant.validatePath
    (Some (QueryVariant.ALLOWED_BASE ++ str "/" ++ T ++ str "/" ++ rest)) =
    Normal {| QueryVariant.valid := true; QueryVariant.error := None |}.
Proof.
  intros H. cbn [In QueryVariant.ALLOWED_TABLES] in H.
  repeat (destruct H as [<- | H]; [vm_compute; reflexivity|]).
  destruct H.
Qed.

Lemma forward_params_url (inbound : list (list Z * list Z)) (u : URL) :
  origin (QueryVariant.forward_params inbound u) = origin u
  /\ pathname (QueryVariant.forward_params inbound u) = pathname u
  /\ fragment (QueryVariant.forward_params inbound u) = fragment u.
Proof.
  unfold QueryVariant.forward_params. revert u.
  induction inbound as [|[k v] l IH]; intros u; cbn [fold_left].
  - repeat split.
  - destruct (IH (if QueryVariant.forwarded k then URL_set k v u else u))
      as (-> & -> & ->).
    destruct (QueryVariant.forwarded k); repeat split.
Qed.

Lemma Q_onRequest_forwards (ctx : Context) (pf : QueryVariant.Platform)
    (m m' : gmap (list Z) QueryVariant.RateRecord) (path : list Z) :
  method (request ctx) <> str "OPTIONS" ->
  QueryVariant.origin_passes (request ctx) ->
  QueryVariant.checkRateLimit (QueryVariant.Date_now pf)
    (QueryVariant.clientIP_of (request ctx)) m = (m', true) ->
  truthy_opt (env_AIRTABLE_TOKEN ctx) = true ->
  searchParams_get (str "path") (url_searchParams (request ctx)) = Some path ->
  QueryVariant.validatePath (Some path) =
    Normal {| QueryVariant.valid := true; QueryVariant.error := None |} ->
  exists call,
    QueryVariant.fetched (QueryVariant.onRequest ctx pf m) = [call]
    /\ fetch_url call =
         QueryVariant.forward_params (url_searchParams (request ctx))
           (new_URL (str "https://api.airtable.com/v0/" ++ path))
    /\ fetch_method call = method (request ctx).
Proof.
  intros Hm Ho El Ht Hp Hv. unfold QueryVariant.onRequest.
  rewrite (method_is_not _ _ Hm), (Q_origin_gate_open _ Ho), El, Ht, Hp, Hv.
  cbn [negb QueryVariant.valid QueryVariant.fetched].
  eexists. split; [reflexivity|]. split; reflexivity.
Qed.

(** ** The URL parser on the upstream URL *)

Lemma scalar_values_id (s : list Z) :
  Forall (fun c => c < 55296) s -> scalar_values s = s.
Proof.
  induction 1 as [|c s Hc _ IH]; cbn [scalar_values]; [reflexivity|].
  unfold is_lead_surrogate, is_trail_surrogate.
  destruct (Z.leb_spec 55296 c); [lia|].
  destruct (Z.leb_spec 56320 c); [lia|].
  cbn [andb]. rewrite IH. reflexivity.
Qed.

Lemma drop_while_head (f : Z -> bool) (l r : list Z) (a : Z) :
  Forall (fun c => f c = false) l -> f a = false ->
  drop_while f (l ++ a :: r) = l ++ a :: r.
Proof.
  intros Hl Ha. destruct Hl as [|c l Hc _]; cbn [app drop_while];
    [rewrite Ha | rewrite Hc]; reflexivity.
Qed.

Lemma drop_while_keep (f : Z -> bool) (l r : list Z) (a : Z) :
  f a = false -> exists l', drop_while f (l ++ a :: r) = l' ++ a :: r.
Proof.
  intros Ha. induction l as [|c l IH]; cbn [app drop_while].
  - rewrite Ha. exists []. reflexivity.
  - destruct (f c); [exact IH|]. exists (c :: l). reflexivity.
Qed.

Lemma filter_all (f : Z -> bool) (l : list Z) :
  Forall (fun c => f c = true) l -> List.filter f l = l.
Proof.
  induction 1 as [|c l Hc _ IH]; cbn [List.filter]; [reflexivity|].
  rewrite Hc, IH. reflexivity.
Qed.

(** The cleaning of the input leaves a string as it is when the string
    holds no control character and neither starts nor ends with a space. *)
Lemma url_clean_between (a b : Z) (s t : list Z) :
  32 < a -> 32 < b ->
  Forall (fun c => 32 <= c) s -> Forall (fun c => 32 < c) t ->
  url_clean (a :: s ++ b :: t) = a :: s ++ b :: t.
Proof.
  intros Ha Hb Hs Ht. unfold url_clean.
  assert (E1 : drop_while is_c0_or_space (a :: s ++ b :: t) = a :: s ++ b :: t).
  { cbn [drop_while]. unfold is_c0_or_space.
    destruct (Z.leb_spec a 32); [lia | reflexivity]. }
  rewrite E1.
  assert (E2 : rev (a :: s ++ b :: t) = rev t ++ b :: rev (a :: s)).
  { change (a :: s ++ b :: t) with ((a :: s) ++ b :: t).
    rewrite List.rev_app_distr. cbn [rev]. rewrite <- !app_assoc. reflexivity. }
  rewrite E2, drop_while_head.
  - rewrite <- E2, List.rev_involutive. apply filter_all.
    constructor; [|apply List.Forall_app; split; [|constructor]].
    + destruct (Z.eqb_spec a 9), (Z.eqb_spec a 10), (Z.eqb_spec a 13);
        try lia; reflexivity.
    + revert Hs. apply List.Forall_impl. intros c Hc.
      destruct (Z.eqb_spec c 9), (Z.eqb_spec c 10), (Z.eqb_spec c 13);
        try lia; reflexivity.
    + destruct (Z.eqb_spec b 9), (Z.eqb_spec b 10), (Z.eqb_spec b 13);
        try lia; reflexivity.
    + revert Ht. apply List.Forall_impl. intros c Hc.
      destruct (Z.eqb_spec c 9), (Z.eqb_spec c 10), (Z.eqb_spec c 13);
        try lia; reflexivity.
  - apply List.Forall_rev. revert Ht. apply List.Forall_impl. intros c Hc.
    unfold is_c0_or_space. destruct (Z.leb_spec c 32); [lia | reflexivity].
  - unfold is_c0_or_space. destruct (Z.leb_spec b 32); [lia | reflexivity].
Qed.

Lemma scalar_values_app (p s : list Z) :
  Forall (fun c => c < 55296) p ->
  scalar_values (p ++ s) = p ++ scalar_values s.
Proof.
  induction 1 as [|c p Hc _ IH]; cbn [scalar_values app]; [reflexivity|].
  unfold is_lead_surrogate, is_trail_surrogate.
  destruct (Z.leb_spec 55296 c); [lia|].
  destruct (Z.leb_spec 56320 c); [lia|].
  cbn [andb]. rewrite IH. reflexivity.
Qed.

(** Literal strings as lists of code units. *)
Ltac code_units :=
  repeat match goal with
         | |- context [str ?s] =>
             let v := eval vm_compute in (str s) in change (str s) with v
         end.

(** Whatever follows it, the text written in the source stays at the head
    of the cleaned input. *)
Lemma url_clean_airtable (s : list Z) :
  exists s',
    url_clean (scalar_values (str "https://api.airtable.com/v0/" ++ s))
    = str "https://api.airtable.com/v0/" ++ s'.
Proof.
  rewrite scalar_values_app by (code_units; repeat constructor; lia).
  generalize (scalar_values s). clear s. intros t.
  unfold url_clean.
  assert (E1 : drop_while is_c0_or_space (str "https://api.airtable.com/v0/" ++ t)
               = str "https://api.airtable.com/v0/" ++ t)
    by (code_units; reflexivity).
  rewrite E1, List.rev_app_distr.
  assert (E2 : rev (str "https://api.airtable.com/v0/")
               = 47 :: rev (str "https://api.airtable.com/v0"))
    by (vm_compute; reflexivity).
  rewrite E2.
  destruct (drop_while_keep is_c0_or_space (rev t)
              (rev (str "https://api.airtable.com/v0")) 47 eq_refl) as [l' ->].
  exists (List.filter (fun c => negb ((c =? 9) || (c =? 10) || (c =? 13))) (rev l')).
  rewrite <- E2, List.rev_app_distr, List.rev_involutive, List.filter_app.
  f_equal; vm_compute; reflexivity.
Qed.

Lemma host_state_app (host rest : list Z) :
  Forall (fun c => (c =? 47) || (c =? 92) || (c =? 63) || (c =? 35) = false) host ->
  host_state (host ++ 47 :: rest) = (host, 47 :: rest).
Proof.
  induction 1 as [|c host Hc _ IH]; cbn [app host_state].
  - reflexivity.
  - rewrite Hc, IH. reflexivity.
Qed.

Lemma path_state_slash (path : list (list Z)) (buffer rest : list Z) :
  path_state path buffer (47 :: rest)
  = path_state (end_segment true path buffer) [] rest.
Proof. reflexivity. Qed.

Lemma path_state_segment (segment rest buffer : list Z) (path : list (list Z)) :
  Forall (fun c => (c =? 63) || (c =? 35) = false
                   /\ (c =? 47) || (c =? 92) = false) segment ->
  path_state path buffer (segment ++ rest)
  = path_state path (buffer ++ List.concat (List.map path_encode segment)) rest.
Proof.
  intros H. revert buffer.
  induction H as [|c segment [H1 H2] _ IH]; intros buffer;
    cbn [app List.map List.concat].
  - rewrite app_nil_r. reflexivity.
  - cbn [path_state]. rewrite H1, H2, IH, <- app_assoc. reflexivity.
Qed.

(** After the text of the source the parser is in the path state, with
    [v0] as the only segment of the path. *)
Lemma new_URL_airtable (s s' : list Z) :
  url_clean (scalar_values (str "https://api.airtable.com/v0/" ++ s))
  = str "https://api.airtable.com/v0/" ++ s' ->
  origin (new_URL (str "https://api.airtable.com/v0/" ++ s))
  = str "https://api.airtable.com"
  /\ pathname (new_URL (str "https://api.airtable.com/v0/" ++ s))
     = serialize_path (path_state [str "v0"] [] s').
Proof.
  intros H. unfold new_URL. rewrite H. cbn [origin pathname].
  assert (E : skipn 8 (str "https://api.airtable.com/v0/" ++ s')
              = str "api.airtable.com" ++ 47 :: (str "v0" ++ 47 :: s'))
    by (code_units; reflexivity).
  assert (F : firstn 8 (str "https://api.airtable.com/v0/" ++ s') = str "https://")
    by (code_units; reflexivity).
  rewrite E, F, host_state_app by (code_units; repeat constructor).
  cbn [fst snd]. split; [vm_compute; reflexivity|].
  unfold path_start_state.
  change (if (47 =? 47) || (47 =? 92) then str "v0" ++ 47 :: s'
          else 47 :: str "v0" ++ 47 :: s')
    with (str "v0" ++ 47 :: s').
  rewrite path_state_segment by (code_units; repeat constructor).
  rewrite path_state_slash. f_equal.
Qed.

Lemma new_URL_airtable_origin (s : list Z) :
  origin (new_URL (str "https://api.airtable.com/v0/" ++ s))
  = str "https://api.airtable.com".
Proof.
  destruct (url_clean_airtable s) as [s' H].
  apply (new_URL_airtable s s' H).
Qed.

Lemma kept_in_path_inv (c : Z) :
  kept_in_path c = true ->
  in_path_set c = false /\ (c =? 63) = false /\ (c =? 35) = false
  /\ (c =? 92) = false /\ 32 < c < 127.
Proof.
  unfold kept_in_path. intros H. apply andb_true_iff in H as [H1 H2].
  apply negb_true_iff in H1, H2. split; [exact H1|].
  unfold in_path_set in H1. rewrite !orb_false_iff in H1.
  destruct H1 as (((((((((((A & B) & C) & _) & E) & _) & _) & F) & _) & _) & _) & _).
  repeat split; try assumption; lia.
Qed.

Lemma serialize_path_snoc (path : list (list Z)) (segment : list Z) :
  serialize_path (path ++ [segment]) = serialize_path path ++ 47 :: segment.
Proof.
  unfold serialize_path. rewrite List.map_app, List.concat_app.
  cbn [List.map List.concat]. rewrite app_nil_r. reflexivity.
Qed.

Lemma end_segment_plain (slash : bool) (path : list (list Z)) (buffer : list Z) :
  is_dot_segment buffer = false -> end_segment slash path buffer = path ++ [buffer].
Proof.
  unfold is_dot_segment, end_segment. intros H.
  apply orb_false_iff in H as [-> ->]. reflexivity.
Qed.

Lemma split_cons (sep : Z) (s : list Z) :
  split sep s = hd [] (split sep s) :: tl (split sep s).
Proof.
  destruct s as [|c s]; cbn [split]; [reflexivity|].
  destruct (c =? sep); [reflexivity|]. destruct (split sep s); reflexivity.
Qed.

(** A path of kept characters without a dot segment goes through the path
    state as it is written. *)
Lemma path_state_verbatim (s : list Z) :
  forall (path : list (list Z)) (buffer : list Z),
    forallb kept_in_path s = true ->
    Forall (fun segment => is_dot_segment segment = false)
           ((buffer ++ hd [] (split 47 s)) :: tl (split 47 s)) ->
    serialize_path (path_state path buffer s)
    = serialize_path path ++ 47 :: buffer ++ s.
Proof.
  induction s as [|c s IH]; intros path buffer Hk Hd.
  - cbn [path_state split hd tl] in *. rewrite app_nil_r in *.
    rewrite end_segment_plain by (inversion Hd; assumption).
    apply serialize_path_snoc.
  - cbn [forallb] in Hk. apply andb_true_iff in Hk as [Hc Hk].
    destruct (kept_in_path_inv c Hc) as (Hp & H63 & H35 & H92 & _).
    cbn [path_state]. unfold path_encode. rewrite H63, H35, H92, Hp. cbn [orb].
    cbn [split] in Hd. destruct (Z.eqb_spec c 47) as [->|Hne].
    + cbn [hd tl] in Hd. rewrite app_nil_r in Hd.
      cbn [orb]. rewrite end_segment_plain by (inversion Hd; assumption).
      rewrite IH.
      * rewrite serialize_path_snoc, <- app_assoc. reflexivity.
      * exact Hk.
      * cbn [app]. rewrite <- split_cons. inversion Hd; assumption.
    + cbn [orb]. rewrite IH.
      * rewrite <- app_assoc. reflexivity.
      * exact Hk.
      * rewrite (split_cons 47 s) in Hd. cbn [hd tl] in Hd.
        rewrite <- app_assoc. exact Hd.
Qed.

Lemma path_state_kept (segment rest buffer : list Z) (path : list (list Z)) :
  Forall (fun c => kept_in_path c = true /\ c <> 47) segment ->
  path_state path buffer (segment ++ rest)
  = path_state path (buffer ++ segment) rest.
Proof.
  intros H. revert buffer.
  induction H as [|c segment [Hc Hne] _ IH]; intros buffer; cbn [app].
  - rewrite app_nil_r. reflexivity.
  - destruct (kept_in_path_inv c Hc) as (Hp & H63 & H35 & H92 & _).
    cbn [path_state]. unfold path_encode. rewrite H63, H35, H92, Hp.
    destruct (Z.eqb_spec c 47); [contradiction|]. cbn [orb].
    rewrite IH, <- app_assoc. reflexivity.
Qed.

(** A segment that is no dot segment is added to the path at its [/]; a
    double-dot segment takes the last segment away. *)
Lemma path_state_push (segment rest : list Z) (path : list (list Z)) :
  Forall (fun c => (c =? 63) || (c =? 35) = false
                   /\ (c =? 47) || (c =? 92) = false) segment ->
  is_dot_segment (List.concat (List.map path_encode segment)) = false ->
  path_state path [] (segment ++ 47 :: rest)
  = path_state (path ++ [List.concat (List.map path_encode segment)]) [] rest.
Proof.
  intros Hs Hd. rewrite path_state_segment by exact Hs.
  rewrite path_state_slash. cbn [app].
  rewrite end_segment_plain by exact Hd. reflexivity.
Qed.

Lemma path_state_pop (last rest : list Z) (path : list (list Z)) :
  path_state (path ++ [last]) [] (46 :: 46 :: 47 :: rest)
  = path_state path [] rest.
Proof.
  change (46 :: 46 :: 47 :: rest) with ([46; 46] ++ 47 :: rest).
  rewrite path_state_segment by (repeat constructor).
  rewrite path_state_slash. f_equal.
  change (end_segment true (path ++ [last])
            ([] ++ List.concat (List.map path_encode [46; 46])))
    with (removelast (path ++ [last])).
  apply List.removelast_last.
Qed.

(** Two double-dot segments after the table take the table and the base
    back out of the path. *)
Lemma path_state_escape (T0 rest : list Z) :
  In T0 QueryVariant.ALLOWED_TABLES ->
  path_state [str "v0"] []
    (QueryVariant.ALLOWED_BASE ++ str "/" ++ T0 ++ str "/../../" ++ rest)
  = path_state [str "v0"] [] rest.
Proof.
  intros H.
  assert (E : QueryVariant.ALLOWED_BASE ++ str "/" ++ T0 ++ str "/../../" ++ rest
              = QueryVariant.ALLOWED_BASE
                ++ 47 :: (T0 ++ 47 :: 46 :: 46 :: 47 :: 46 :: 46 :: 47 :: rest))
    by (code_units; reflexivity).
  rewrite E. clear E.
  assert (HT : Forall (fun c => (c =? 63) || (c =? 35) = false
                                /\ (c =? 47) || (c =? 92) = false) T0
               /\ is_dot_segment (List.concat (List.map path_encode T0)) = false).
  { cbn [In QueryVariant.ALLOWED_TABLES] in H.
    repeat (destruct H as [<- | H];
            [split; [code_units; repeat constructor | vm_compute; reflexivity]|]).
    destruct H. }
  destruct HT as [HT1 HT2].
  rewrite (path_state_push QueryVariant.ALLOWED_BASE)
    by first [ vm_compute; reflexivity
             | unfold QueryVariant.ALLOWED_BASE; code_units; repeat constructor ].
  rewrite (path_state_push T0) by assumption.
  rewrite path_state_pop.
  apply (path_state_pop _ rest [str "v0"]).
Qed.

Lemma Q_tables_printable (T0 : list Z) :
  In T0 QueryVariant.ALLOWED_TABLES -> Forall (fun c => 32 <= c < 127) T0.
Proof.
  intros H. cbn [In QueryVariant.ALLOWED_TABLES] in H.
  repeat (destruct H as [<- | H]; [code_units; repeat constructor; lia|]).
  destruct H.
Qed.

(** C9, as stated, fails.  The path
    [applOjDjhH0RqLtBH/Team Members/rec1/comments/../../../../meta/bases] is
    valid, and the handler calls the upstream for it; but the URL it
    fetches does not hold the path as received: the URL parser resolves the
    dot segments, and the call goes to [/v0/meta/bases], outside the
    allowed base. *)
Lemma C9_dot_segments_are_resolved :
  QueryVariant.validatePath (Some Samples.deep_path) =
    Normal {| QueryVariant.valid := true; QueryVariant.error := None |}
  /\ exists call,
       QueryVariant.fetched
         (QueryVariant.onRequest (Samples.with_token Samples.deep_request)
            Samples.query_upstream_down ∅) = [call]
       /\ origin (fetch_url call) = str "https://api.airtable.com"
       /\ pathname (fetch_url call) = str "/v0/meta/bases"
       /\ pathname (fetch_url call) <> str "/v0/" ++ Samples.deep_path.
Proof.
  split; [vm_compute; reflexivity|].
  eexists. split; [vm_compute; reflexivity|].
  split; [vm_compute; reflexivity|].
  split; [vm_compute; reflexivity|].
  vm_compute. discriminate.
Qed.

(** C9, amended.  In the query-parameter proxy the validation puts no bound
    on the number of segments: a path made of the allowed base, an allowed
    table and any further text [rest], whatever segments it holds, is
    valid.  Once the request has passed the origin gate, the limiter and
    the configuration check, the handler makes one upstream call, to the
    origin [https://api.airtable.com], for the URL the URL parser reads in
    [https://api.airtable.com/v0/] followed by the path.  When the path
    holds only characters that the parser keeps in a path and none of its
    segments is a dot segment, the path of that URL is [/v0/] followed by
    the whole path as received, the segments after the table included. *)
Theorem C9_extra_segments_are_forwarded :
  forall (T rest : list Z) (ctx : Context) (pf : QueryVariant.Platform)
         (m m' : gmap (list Z) QueryVariant.RateRecord),
    In T QueryVariant.ALLOWED_TABLES ->
    let path := QueryVariant.ALLOWED_BASE ++ str "/" ++ T ++ str "/" ++ rest in
    QueryVariant.validatePath (Some path) =
      Normal {| QueryVariant.valid := true; QueryVariant.error := None |}
    /\ (searchParams_get (str "path") (url_searchParams (request ctx)) = Some path ->
        method (request ctx) <> str "OPTIONS" ->
        QueryVariant.origin_passes (request ctx) ->
        QueryVariant.checkRateLimit (QueryVariant.Date_now pf)
          (QueryVariant.clientIP_of (request ctx)) m = (m', true) ->
        truthy_opt (env_AIRTABLE_TOKEN ctx) = true ->
        exists call,
          QueryVariant.fetched (QueryVariant.onRequest ctx pf m) = [call]
          /\ origin (fetch_url call) = str "https://api.airtable.com"
          /\ (forallb kept_in_path path = true ->
              Forall (fun segment => is_dot_segment segment = false)
                     (split 47 path) ->
              pathname (fetch_url call) = str "/v0/" ++ path)).
Proof.
  intros T rest ctx pf m m' HT path.
  pose proof (Q_validatePath_extra_segments T rest HT) as Hv.
  split; [exact Hv|].
  intros Hp Hm Ho El Ht.
  destruct (Q_onRequest_forwards ctx pf m m' path Hm Ho El Ht Hp Hv)
    as (call & Hf & Hu & _).
  exists call. split; [exact Hf|].
  destruct (forward_params_url (url_searchParams (request ctx))
              (new_URL (str "https://api.airtable.com/v0/" ++ path)))
    as (Eo & Ep & _).
  rewrite Hu, Eo, Ep. split; [apply new_URL_airtable_origin|].
  intros Hk Hd.
  assert (Hc : Forall (fun c => 32 < c < 127) path).
  { apply List.Forall_forall. intros c Hin.
    rewrite List.forallb_forall in Hk.
    destruct (kept_in_path_inv c (Hk c Hin)) as (_ & _ & _ & _ & H). exact H. }
  destruct (new_URL_airtable path path) as [_ ->].
  - rewrite scalar_values_id.
    + assert (E : str "https://api.airtable.com/v0/" ++ path
                  = 104 :: str "ttps://api.airtable.com/v0" ++ 47 :: path)
        by (code_units; reflexivity).
      rewrite E. apply url_clean_between; try lia.
      * code_units. repeat constructor; lia.
      * revert Hc. apply List.Forall_impl. intros c Hc. lia.
    + apply List.Forall_app. split; [code_units; repeat constructor; lia|].
      revert Hc. apply List.Forall_impl. intros c Hc. lia.
  - rewrite path_state_verbatim.
    + code_units. reflexivity.
    + exact Hk.
    + cbn [app]. rewrite <- split_cons. exact Hd.
Qed.

Lemma C9_extra_segments_are_forwarded_witness :
  QueryVariant.validatePath (Some Samples.long_path) =
    Normal {| QueryVariant.valid := true; QueryVariant.error := None |}
  /\ exists call,
       QueryVariant.fetched
         (QueryVariant.onRequest (Samples.with_token Samples.long_request)
            Samples.query_upstream_down ∅) = [call]
       /\ origin (fetch_url call) = str "https://api.airtable.com"
       /\ pathname (fetch_url call) =
            str "/v0/applOjDjhH0RqLtBH/tblMptC862PyL7Znw/rec1/comments/com5".
Proof.
  destruct (C9_extra_segments_are_forwarded
              (str "tblMptC862PyL7Znw") (str "rec1/comments/com5")
              (Samples.with_token Samples.long_request)
              Samples.query_upstream_down ∅
              (<[Samples.ip := {| QueryVariant.windowStart := Samples.now;
                                  QueryVariant.count := 1 |}]> ∅))
    as [Hv Hh].
  - cbn. tauto.
  - split; [exact Hv|].
    destruct Hh as (call & Hf & Ho & Hp).
    + reflexivity.
    + vm_compute. discriminate.
    + left. reflexivity.
    + reflexivity.
    + reflexivity.
    + exists call. split; [exact Hf|]. split; [exact Ho|].
      apply Hp.
      * vm_compute. reflexivity.
      * vm_compute. repeat constructor.
Defined.

(** ** Forwarding of query parameters *)

Lemma searchParams_set_names (k v name : list Z) (l : list (list Z * list Z)) :
  In name (List.map fst (searchParams_set k v l))
  <-> In name (List.map fst l) \/ name = k.
Proof.
  induction l as [|[k' v'] l IH]; cbn [searchParams_set List.map fst In].
  - intuition.
  - destruct (str_eqb k' k) eqn:E.
    + apply str_eqb_eq in E. subst k'. cbn [List.map fst In].
      rewrite in_map_iff. split.
      * intros [H | ((a & b) & H1 & H2)]; [auto|].
        apply List.filter_In in H2. destruct H2 as [H2 _].
        cbn [fst] in H1. subst a. left. right.
        apply in_map_iff. exists (name, b). auto.
      * intros [[H | H] | H]; auto.
        destruct (str_eqb name k) eqn:E.
        -- apply str_eqb_eq in E. auto.
        -- right. apply in_map_iff in H. destruct H as ((a & b) & H1 & H2).
           cbn [fst] in H1. subst a. exists (name, b). split; [reflexivity|].
           apply List.filter_In. split; [exact H2|]. cbn [fst]. rewrite E. reflexivity.
    + cbn [List.map fst In]. rewrite IH. intuition.
Qed.

(** The names the loop leaves in the upstream URL: those the URL had, and
    the inbound names that pass the test. *)
Lemma forward_params_names (inbound : list (list Z * list Z)) (u : URL)
    (name : list Z) :
  In name (List.map fst (searchParams (QueryVariant.forward_params inbound u)))
  <-> In name (List.map fst (searchParams u))
      \/ (In name (List.map fst inbound) /\ QueryVariant.forwarded name = true).
Proof.
  unfold QueryVariant.forward_params. revert u.
  induction inbound as [|[k v] l IH]; intros u; cbn [fold_left List.map fst In].
  - intuition.
  - rewrite IH. destruct (QueryVariant.forwarded k) eqn:E.
    + cbn [URL_set searchParams]. rewrite searchParams_set_names.
      intuition (subst; auto).
    + intuition (subst; auto). congruence.
Qed.

Lemma forwarded_excludes (name : list Z) :
  QueryVariant.forwarded name = true ->
  name <> str "path"
  /\ (In name QueryVariant.allowedParams \/ startsWith name (str "sort[") = true).
Proof.
  unfold QueryVariant.forwarded. intros H.
  apply andb_true_iff in H. destruct H as [H1 H2].
  apply negb_true_iff, str_eqb_neq in H1. split; [exact H1|].
  apply orb_true_iff in H2. destruct H2 as [H2 | H2]; [left | right; exact H2].
  apply includes_In. exact H2.
Qed.

(** *** The query of the URL the handler starts from *)

Lemma scalar_values_no_question_mark (n : nat) :
  forall s, (List.length s <= n)%nat ->
            Forall not_question_mark s ->
            Forall not_question_mark (scalar_values s).
Proof.
  induction n as [|n IH]; intros s Hn Hs.
  - destruct s; [constructor | cbn in Hn; lia].
  - destruct s as [|c rest]; [constructor|].
    inversion Hs as [|? ? Hc Hrest]; subst.
    cbn [List.length] in Hn. cbn [scalar_values].
    assert (IHrest : Forall not_question_mark (scalar_values rest))
      by (apply IH; [lia | exact Hrest]).
    assert (H65533 : not_question_mark 65533) by (unfold not_question_mark; lia).
    destruct (is_lead_surrogate c) eqn:El.
    + destruct rest as [|d rest'].
      * repeat constructor. exact H65533.
      * destruct (is_trail_surrogate d) eqn:Et.
        -- constructor.
           ++ unfold not_question_mark, surrogate_pair.
              unfold is_lead_surrogate in El. unfold is_trail_surrogate in Et. lia.
           ++ inversion Hrest; subst. apply IH; [cbn in Hn; lia | assumption].
        -- constructor; assumption.
    + destruct (is_trail_surrogate c); constructor; assumption.
Qed.

Lemma drop_while_Forall (P : Z -> Prop) (f : Z -> bool) (l : list Z) :
  Forall P l -> Forall P (drop_while f l).
Proof.
  induction 1 as [|c l Hc Hl IH]; cbn [drop_while]; [constructor|].
  destruct (f c); [exact IH | constructor; assumption].
Qed.

Lemma Forall_rev_Z (P : Z -> Prop) (l : list Z) :
  Forall P l -> Forall P (rev l).
Proof.
  intros H. apply List.Forall_forall. intros x Hx.
  apply List.in_rev in Hx. rewrite List.Forall_forall in H. apply H. exact Hx.
Qed.

Lemma Forall_filter_Z (P : Z -> Prop) (f : Z -> bool) (l : list Z) :
  Forall P l -> Forall P (List.filter f l).
Proof.
  intros H. apply List.Forall_forall. intros x Hx.
  apply List.filter_In in Hx. rewrite List.Forall_forall in H. apply H. tauto.
Qed.

Lemma url_query_none (l : list Z) :
  Forall not_question_mark l -> url_query l = None.
Proof.
  induction 1 as [|c l Hc Hl IH]; cbn [url_query]; [reflexivity|].
  destruct (c =? 35); [reflexivity|].
  destruct (Z.eqb_spec c 63); [contradiction | exact IH].
Qed.

(** A path without [?] gives the upstream URL no search parameter of its
    own. *)
Lemma new_URL_no_query (path : list Z) :
  Forall not_question_mark path ->
  searchParams (new_URL (str "https://api.airtable.com/v0/" ++ path)) = [].
Proof.
  intros H. unfold new_URL. cbn [searchParams].
  rewrite url_query_none; [reflexivity|].
  unfold url_clean. apply Forall_filter_Z, Forall_rev_Z, drop_while_Forall,
    Forall_rev_Z, drop_while_Forall.
  apply (scalar_values_no_question_mark _ _ (le_n _)).
  apply Forall_app. split; [|exact H].
  repeat constructor; unfold not_question_mark; discriminate.
Qed.

(** When the path holds no [?], the upstream URL carries exactly the
    inbound names that pass the test of the loop. *)
Lemma Q_forwarded_names_exact (ctx : Context) (pf : QueryVariant.Platform)
    (m : gmap (list Z) QueryVariant.RateRecord) (call : FetchCall URL)
    (name : list Z) :
  In call (QueryVariant.fetched (QueryVariant.onRequest ctx pf m)) ->
  (forall path,
      searchParams_get (str "path") (url_searchParams (request ctx)) = Some path ->
      Forall not_question_mark path) ->
  In name (List.map fst (searchParams (fetch_url call)))
  <-> In name (List.map fst (url_searchParams (request ctx)))
      /\ QueryVariant.forwarded name = true.
Proof.
  intros Hin Hq.
  destruct (Q_onRequest_upstream ctx pf m call Hin)
    as (_ & _ & _ & _ & _ & _ & (path & Hp & _ & Hu) & _).
  rewrite Hu, forward_params_names, (new_URL_no_query path (Hq path Hp)).
  cbn [List.map In]. tauto.
Qed.

(** C7, at the failing input.  The inbound query string is
    [?path=applOjDjhH0RqLtBH/Team%20Members/rec1%3Fevil%3D1]: its only
    parameter is [path], whose value holds a [?].  The path is valid, the
    handler builds the upstream URL from it, and the URL parser reads
    [evil=1] as the query of that URL: the upstream call carries the
    parameter [evil], which the loop would not forward and which no inbound
    parameter is named. *)
Theorem C7_path_value_reaches_upstream_query :
  QueryVariant.validatePath
    (searchParams_get (str "path") (url_searchParams Samples.smuggling_request)) =
    Normal {| QueryVariant.valid := true; QueryVariant.error := None |}
  /\ List.map fst (url_searchParams Samples.smuggling_request) = [ str "path" ]
  /\ QueryVariant.forwarded (str "evil") = false
  /\ exists call,
       QueryVariant.fetched
         (QueryVariant.onRequest (Samples.with_token Samples.smuggling_request)
            (Samples.query_upstream 200 (str "{}")) ∅) = [call]
       /\ searchParams (fetch_url call) = [ (str "evil", str "1") ].
Proof.
  split; [vm_compute; reflexivity|].
  split; [reflexivity|].
  split; [vm_compute; reflexivity|].
  eexists. split; vm_compute; reflexivity.
Qed.

(** ** Path validation *)

Lemma startsWith_app (p s : list Z) :
  startsWith s p = true -> exists q, s = p ++ q.
Proof.
  revert s. induction p as [|c p IH]; intros s H.
  - exists s. reflexivity.
  - destruct s as [|d s]; [discriminate|]. cbn [startsWith] in H.
    apply andb_true_iff in H. destruct H as [H1 H2].
    apply Z.eqb_eq in H1. subst d.
    destruct (IH s H2) as (q & ->). exists q. reflexivity.
Qed.

Lemma replace_skip (pat rep : list Z) (c : Z) (s : list Z) :
  startsWith (c :: s) pat = false ->
  replace pat rep (c :: s) = c :: replace pat rep s.
Proof. intros H. cbn [replace]. rewrite H. reflexivity. Qed.

Lemma split_hd_prefix (a x : list Z) :
  forallb (fun c => negb (c =? 47)) a = true ->
  hd [] (split 47 (a ++ x)) = a ++ hd [] (split 47 x).
Proof.
  induction a as [|c a IH]; cbn [forallb app]; [reflexivity|].
  intros H. apply andb_true_iff in H. destruct H as [Hc Ha].
  apply negb_true_iff in Hc. cbn [split]. rewrite Hc.
  specialize (IH Ha). destruct (split 47 (a ++ x)); cbn [hd] in *.
  - rewrite <- IH. reflexivity.
  - rewrite IH. reflexivity.
Qed.

Lemma Decode_plain_prefix (a y : list Z) :
  forallb (fun c => negb (c =? 37)) a = true ->
  Decode (S (List.length (a ++ y))) (a ++ y) =
  option_map (app a) (Decode (S (List.length y)) y).
Proof.
  induction a as [|c a IH]; cbn [forallb app].
  - intros _. destruct (Decode _ y); reflexivity.
  - intros H. apply andb_true_iff in H. destruct H as [Hc Ha].
    apply negb_true_iff in Hc.
    cbn [List.length]. change (Decode (S (S (List.length (a ++ y)))) (c :: a ++ y))
      with (if c =? 37
            then match a ++ y with
                 | h :: l :: rest' =>
                     match hex_octet h l with
                     | None => None
                     | Some b =>
                         match leading_ones b with
                         | O => option_map (cons b)
                                  (Decode (S (List.length (a ++ y))) rest')
                         | S O => None
                         | S (S (S (S (S _)))) => None
                         | S n' =>
                             match continuation_octets n' rest' with
                             | None => None
                             | Some (bs, rest'') =>
                                 match utf8_code_point (b :: bs) with
                                 | None => None
                                 | Some v =>
                                     option_map (app (UTF16EncodeCodePoint v))
                                       (Decode (S (List.length (a ++ y))) rest'')
                                 end
                             end
                         end
                     end
                 | _ => None
                 end
            else option_map (cons c) (Decode (S (List.length (a ++ y))) (a ++ y))).
    rewrite Hc, (IH Ha). destruct (Decode _ y); reflexivity.
Qed.

Lemma decodeURIComponent_plain_prefix (a y d : list Z) :
  forallb (fun c => negb (c =? 37)) a = true ->
  decodeURIComponent (a ++ y) = Normal d ->
  exists d', d = a ++ d'.
Proof.
  intros Ha. unfold decodeURIComponent. rewrite (Decode_plain_prefix a y Ha).
  destruct (Decode _ y) as [d'|]; cbn [option_map]; [|discriminate].
  intros [= <-]. exists d'. reflexivity.
Qed.

(** No allowed table starts with the allowed base. *)
Lemma Q_base_prefix_not_a_table (y : list Z) :
  includes QueryVariant.ALLOWED_TABLES (QueryVariant.ALLOWED_BASE ++ y) = false.
Proof. vm_compute. reflexivity. Qed.

(** Without the [/] after the base, the text that [replace] leaves still
    starts with the base. *)
Lemma Q_replace_without_slash (q : list Z) :
  startsWith q (str "/") = false ->
  replace (QueryVariant.ALLOWED_BASE ++ str "/") [] (QueryVariant.ALLOWED_BASE ++ q) =
  QueryVariant.ALLOWED_BASE ++ replace (QueryVariant.ALLOWED_BASE ++ str "/") [] q.
Proof.
  intros H.
  set (pat := QueryVariant.ALLOWED_BASE ++ str "/").
  let b := eval vm_compute in QueryVariant.ALLOWED_BASE in
  change QueryVariant.ALLOWED_BASE with b.
  cbn [app].
  rewrite replace_skip by exact H.
  repeat (rewrite replace_skip by reflexivity).
  reflexivity.
Qed.

Lemma startsWith_prefix (p rest : list Z) : startsWith (p ++ rest) p = true.
Proof.
  induction p as [|c p IH]; cbn [app startsWith].
  - destruct rest; reflexivity.
  - rewrite Z.eqb_refl. exact IH.
Qed.

Lemma replace_at_head (pat rep rest : list Z) :
  replace pat rep (pat ++ rest) = rep ++ rest.
Proof.
  assert (E : forall s, replace pat rep s =
                        if startsWith s pat then rep ++ skipn (List.length pat) s
                        else match s with
                             | [] => []
                             | c :: s' => c :: replace pat rep s'
                             end)
    by (intros [|c s]; reflexivity).
  rewrite E, startsWith_prefix. f_equal. clear E.
  induction pat as [|c pat IH]; [reflexivity | exact IH].
Qed.

Lemma Q_replace_with_slash (rest : list Z) :
  replace (QueryVariant.ALLOWED_BASE ++ str "/") []
          (QueryVariant.ALLOWED_BASE ++ str "/" ++ rest) = rest.
Proof. rewrite app_assoc. apply replace_at_head. Qed.

(** A valid path of the query-parameter proxy starts with the allowed base
    and a [/], and the segment that follows is an allowed table, as written
    or once decoded. *)
Lemma Q_validatePath_valid_inv (p : option (list Z)) (v : QueryVariant.Validation) :
  QueryVariant.validatePath p = Normal v ->
  QueryVariant.valid v = true ->
  exists rest,
    p = Some (QueryVariant.ALLOWED_BASE ++ str "/" ++ rest)
    /\ (In (hd [] (split 47 rest)) QueryVariant.ALLOWED_TABLES
        \/ exists d,
             decodeURIComponent (hd [] (split 47 rest)) = Normal d
             /\ In d QueryVariant.ALLOWED_TABLES).
Proof.
  destruct p as [path|]; [|cbn; intros [= <-]; discriminate].
  unfold QueryVariant.validatePath.
  destruct (truthy path); cbn [negb]; [|intros [= <-]; discriminate].
  destruct (startsWith path QueryVariant.ALLOWED_BASE) eqn:Hs; cbn [negb];
    [|intros [= <-]; discriminate].
  apply startsWith_app in Hs. destruct Hs as (q & ->).
  destruct (startsWith q (str "/")) eqn:Hq.
  - apply startsWith_app in Hq. destruct Hq as (rest & ->).
    rewrite Q_replace_with_slash.
    destruct (truthy (hd [] (split 47 rest))); cbn [negb];
      [|intros [= <-]; discriminate].
    unfold bind. destruct (decodeURIComponent _) as [d|e] eqn:Ed; [|discriminate].
    destruct (negb _ && negb _) eqn:Ec; intros [= <-]; [discriminate|].
    intros _. exists rest. split; [reflexivity|].
    apply andb_false_iff in Ec. destruct Ec as [Ec | Ec];
      apply negb_false_iff, includes_In in Ec.
    + left. exact Ec.
    + right. exists d. split; [exact Ed | exact Ec].
  - rewrite (Q_replace_without_slash q Hq).
    rewrite split_hd_prefix by (vm_compute; reflexivity).
    set (y := hd [] (split 47 (replace _ [] q))).
    replace (truthy (QueryVariant.ALLOWED_BASE ++ y)) with true
      by (vm_compute; reflexivity).
    cbn [negb]. unfold bind.
    destruct (decodeURIComponent _) as [d|e] eqn:Ed; [|discriminate].
    apply decodeURIComponent_plain_prefix in Ed; [|vm_compute; reflexivity].
    destruct Ed as (d' & ->). rewrite !Q_base_prefix_not_a_table.
    cbn [negb andb]. intros [= <-]. discriminate.
Qed.

(** The base identifier of a valid path, its first segment, is the allowed
    base itself. *)
Lemma Q_valid_path_base (rest : list Z) :
  hd [] (split 47 (QueryVariant.ALLOWED_BASE ++ str "/" ++ rest)) =
  QueryVariant.ALLOWED_BASE.
Proof.
  rewrite split_hd_prefix by (vm_compute; reflexivity).
  cbn [str List.map list_ascii_of_string app split].
  vm_compute. reflexivity.
Qed.

(** A path the query-parameter proxy returns as invalid comes with one of
    its four messages. *)
Lemma Q_validatePath_invalid_error (p : option (list Z))
    (v : QueryVariant.Validation) :
  QueryVariant.validatePath p = Normal v ->
  QueryVariant.valid v = false ->
  exists message,
    QueryVariant.error v = Some message
    /\ In message [ str "Missing path parameter"; str "Invalid base ID";
                    str "Missing table name"; str "Table not allowed" ].
Proof.
  unfold QueryVariant.validatePath, bind, QueryVariant.invalid.
  repeat case_match; intros [= <-]; cbn [QueryVariant.valid QueryVariant.error];
    try discriminate; intros _; eexists; (split; [reflexivity|]); cbn [In]; tauto.
Qed.

(** The only exception path validation lets escape is the [URIError] of
    [decodeURIComponent]. *)
Lemma Q_validatePath_throws (p : option (list Z)) (e : exn) :
  QueryVariant.validatePath p = Throw e -> e = URIError.
Proof.
  unfold QueryVariant.validatePath, bind, decodeURIComponent.
  repeat case_match; congruence.
Qed.

(** In the path-segment proxy a path is valid exactly when it has two or
    three segments that are not empty, the first an allowed base and the
    second an allowed table. *)
Lemma P_validatePath_valid_iff (path : list Z) :
  let parts := filter_Boolean (split 47 path) in
  PathVariant.valid (PathVariant.validatePath path) = true
  <-> ((List.length parts = 2 \/ List.length parts = 3)%nat
       /\ In (nth 0 parts []) (PathVariant.bases PathVariant.ALLOWED_PATHS)
       /\ In (nth 1 parts []) (PathVariant.tables PathVariant.ALLOWED_PATHS)).
Proof.
  cbv zeta. unfold PathVariant.validatePath.
  set (parts := filter_Boolean (split 47 path)).
  destruct (Nat.ltb_spec (List.length parts) 2) as [Hlo|Hlo];
    destruct (Nat.ltb_spec 3 (List.length parts)) as [Hhi|Hhi]; cbn [orb];
    try (cbn [PathVariant.valid PathVariant.invalid]; split; [discriminate | lia]).
  destruct (includes _ (nth 0 parts [])) eqn:Eb; cbn [negb].
  - destruct (includes _ (nth 1 parts [])) eqn:Et; cbn [negb PathVariant.valid].
    + apply includes_In in Eb, Et. split; [intros _; split; [lia | tauto] | reflexivity].
    + cbn [PathVariant.invalid]. split; [discriminate|].
      intros (_ & _ & H). apply includes_In in H. congruence.
  - cbn [PathVariant.valid PathVariant.invalid]. split; [discriminate|].
    intros (_ & H & _). apply includes_In in H. congruence.
Qed.

Lemma P_validatePath_invalid_error (path : list Z) :
  PathVariant.valid (PathVariant.validatePath path) = false ->
  exists message,
    PathVariant.error (PathVariant.validatePath path) = Some message
    /\ In message [ str "Invalid path format"; str "Base not allowed";
                    str "Table not allowed" ].
Proof.
  unfold PathVariant.validatePath, PathVariant.invalid.
  repeat case_match; cbn [PathVariant.valid PathVariant.error];
    try discriminate; intros _; eexists; (split; [reflexivity|]); cbn [In]; tauto.
Qed.

(** Each table of the query-parameter list is accepted as it is written
    there, the encoded and the decoded form of a name alike. *)
Lemma Q_validatePath_listed_table (T : list Z) :
  In T QueryVariant.ALLOWED_TABLES ->
  QueryVariant.validatePath (Some (QueryVariant.ALLOWED_BASE ++ str "/" ++ T)) =
    Normal {| QueryVariant.valid := true; QueryVariant.error := None |}.
Proof.
  intros H. cbn [In QueryVariant.ALLOWED_TABLES] in H.
  repeat (destruct H as [<- | H]; [vm_compute; reflexivity|]).
  destruct H.
Qed.

(** *** The fuel of [Decode] *)

Lemma continuation_octets_length (n : nat) :
  forall s bs s',
    continuation_octets n s = Some (bs, s') ->
    (List.length s' <= List.length s)%nat.
Proof.
  induction n as [|n IH]; intros s bs s'; cbn [continuation_octets].
  - intros [= _ <-]. lia.
  - destruct s as [|p [|h [|l r]]]; try discriminate.
    destruct (p =? 37); [|discriminate].
    destruct (hex_octet h l); [|discriminate].
    destruct (continuation_octets n r) as [[bs' r']|] eqn:E; [|discriminate].
    intros [= _ <-]. apply IH in E. cbn [List.length]. lia.
Qed.

(** Any fuel above the length of the string gives the same result: the
    [None] of [decodeURIComponent] is never an exhausted fuel. *)
Lemma Decode_fuel (n : nat) :
  forall m s,
    (List.length s < n)%nat -> (List.length s < m)%nat ->
    Decode n s = Decode m s.
Proof.
  induction n as [|n IH]; intros m s Hn Hm; [lia|].
  destruct m as [|m]; [lia|].
  destruct s as [|c rest]; [reflexivity|].
  cbn [List.length] in Hn, Hm. cbn [Decode].
  destruct (c =? 37).
  - destruct rest as [|h [|l rest']]; try reflexivity.
    cbn [List.length] in Hn, Hm.
    destruct (hex_octet h l); [|reflexivity].
    destruct (leading_ones z) as [|[|[|[|[|k]]]]]; try reflexivity.
    + f_equal. apply IH; lia.
    + destruct (continuation_octets 1 rest') as [[bs r]|] eqn:E; [|reflexivity].
      apply continuation_octets_length in E.
      destruct (utf8_code_point _); [|reflexivity]. f_equal. apply IH; lia.
    + destruct (continuation_octets 2 rest') as [[bs r]|] eqn:E; [|reflexivity].
      apply continuation_octets_length in E.
      destruct (utf8_code_point _); [|reflexivity]. f_equal. apply IH; lia.
    + destruct (continuation_octets 3 rest') as [[bs r]|] eqn:E; [|reflexivity].
      apply continuation_octets_length in E.
      destruct (utf8_code_point _); [|reflexivity]. f_equal. apply IH; lia.
  - f_equal. apply IH; lia.
Qed.

(** C1, at the failing input.  The path [applOjDjhH0RqLtBH/%] has the
    allowed base and the table segment [%], which is not on the list as
    written and has no decoded form: [decodeURIComponent] throws on it.
    [validatePath] does not return an invalid result with a message: the
    [URIError] escapes from it, and from the handler, which has no [try]
    around the call. *)
Theorem C1_malformed_escape_is_not_rejected_with_an_error :
  includes QueryVariant.ALLOWED_TABLES (str "%") = false
  /\ decodeURIComponent (str "%") = Throw URIError
  /\ QueryVariant.validatePath (Some (str "applOjDjhH0RqLtBH/%")) = Throw URIError
  /\ QueryVariant.outcome
       (QueryVariant.onRequest (Samples.with_token Samples.malformed_request)
          (Samples.query_upstream 200 (str "{}")) ∅) = Throw URIError.
Proof.
  repeat split; vm_compute; reflexivity.
Qed.

Lemma C3_fixed_window_counter_witness :
  let ip := Samples.ip in
  let mp : gmap (list Z) PathVariant.RateRecord :=
    {[ ip := {| PathVariant.count := 1000; PathVariant.timestamp := 0 |} ]} in
  let mq : gmap (list Z) QueryVariant.RateRecord :=
    {[ ip := {| QueryVariant.windowStart := 0; QueryVariant.count := 7 |} ]} in
  PathVariant.checkRateLimit 60001 ip mp =
    (<[ip := {| PathVariant.count := 1; PathVariant.timestamp := 60001 |}]> mp,
     {| PathVariant.allowed := true;
        PathVariant.remaining := PathVariant.RATE_LIMIT - 1;
        PathVariant.resetAt := None |})
  /\ QueryVariant.checkRateLimit 60000 ip mq =
       (<[ip := {| QueryVariant.windowStart := 0; QueryVariant.count := 7 + 1 |}]> mq,
        true).
Proof.
  cbv zeta.
  destruct (C3_fixed_window_counter 60001 Samples.ip
              {[ Samples.ip := {| PathVariant.count := 1000;
                                  PathVariant.timestamp := 0 |} ]}
              {[ Samples.ip := {| QueryVariant.windowStart := 0;
                                  QueryVariant.count := 7 |} ]})
    as (Hreset & _).
  destruct (C3_fixed_window_counter 60000 Samples.ip
              {[ Samples.ip := {| PathVariant.count := 1000;
                                  PathVariant.timestamp := 0 |} ]}
              {[ Samples.ip := {| QueryVariant.windowStart := 0;
                                  QueryVariant.count := 7 |} ]})
    as (_ & _ & _ & _ & _ & Hcount).
  split.
  - apply Hreset. right. eexists. split; [apply lookup_singleton_eq|].
    unfold PathVariant.RATE_WINDOW. cbn. lia.
  - apply (Hcount {| QueryVariant.windowStart := 0; QueryVariant.count := 7 |}).
    + apply lookup_singleton_eq.
    + unfold QueryVariant.RATE_WINDOW. cbn. lia.
    + unfold QueryVariant.RATE_LIMIT. cbn. lia.
Defined.


(** * Further properties of the two proxies *)

(** ** The limiter over sequences of calls *)

Lemma P_checkRateLimit_frame (now : Z) (ip ip' : list Z)
    (m : gmap (list Z) PathVariant.RateRecord) :
  ip' <> ip ->
  fst (PathVariant.checkRateLimit now ip m) !! ip' = m !! ip'.
Proof.
  intros Hne. unfold PathVariant.checkRateLimit.
  repeat case_match; cbn [fst]; try reflexivity;
    apply lookup_insert_ne; congruence.
Qed.

Lemma Q_checkRateLimit_frame (now : Z) (ip ip' : list Z)
    (m : gmap (list Z) QueryVariant.RateRecord) :
  ip' <> ip ->
  fst (QueryVariant.checkRateLimit now ip m) !! ip' = m !! ip'.
Proof.
  intros Hne. unfold QueryVariant.checkRateLimit.
  repeat case_match; cbn [fst]; try reflexivity;
    apply lookup_insert_ne; congruence.
Qed.

(** The map a handler leaves is the one it found or the one the limiter
    left. *)
Lemma P_store_after_cases (J : list Z -> option (list Z)) (ctx : Context)
    (pf : PathVariant.Platform) (m : gmap (list Z) PathVariant.RateRecord) :
  PathVariant.store_after (PathVariant.onRequest J ctx pf m) = m
  \/ PathVariant.store_after (PathVariant.onRequest J ctx pf m) =
       fst (PathVariant.checkRateLimit (PathVariant.Date_now pf)
              (PathVariant.getRateLimitKey (request ctx)) m).
Proof.
  unfold PathVariant.onRequest.
  destruct (PathVariant.checkRateLimit _ _ m) as [m' rl].
  repeat case_match; cbn [PathVariant.store_after fst]; auto.
Qed.

Lemma Q_store_after_cases (ctx : Context) (pf : QueryVariant.Platform)
    (m : gmap (list Z) QueryVariant.RateRecord) :
  QueryVariant.store_after (QueryVariant.onRequest ctx pf m) = m
  \/ QueryVariant.store_after (QueryVariant.onRequest ctx pf m) =
       fst (QueryVariant.checkRateLimit (QueryVariant.Date_now pf)
              (QueryVariant.clientIP_of (request ctx)) m).
Proof.
  unfold QueryVariant.onRequest.
  destruct (QueryVariant.checkRateLimit _ _ m) as [m' ok].
  repeat case_match; cbn [QueryVariant.store_after fst]; auto.
Qed.

(** X1.  A request changes no record of the rate-limit map other than the
    one of its own client key: in both proxies, whatever the request and
    whatever the handler answers, the record of every other key is the one
    that was there before. *)
Theorem X1_request_leaves_other_clients_alone :
  forall (J : list Z -> option (list Z)) (ctx : Context)
         (pfp : PathVariant.Platform) (pfq : QueryVariant.Platform)
         (mp : gmap (list Z) PathVariant.RateRecord)
         (mq : gmap (list Z) QueryVariant.RateRecord)
         (other : list Z),
    (other <> PathVariant.getRateLimitKey (request ctx) ->
     PathVariant.store_after (PathVariant.onRequest J ctx pfp mp) !! other
     = mp !! other)
    /\ (other <> QueryVariant.clientIP_of (request ctx) ->
        QueryVariant.store_after (QueryVariant.onRequest ctx pfq mq) !! other
        = mq !! other).
Proof.
  intros J ctx pfp pfq mp mq other. split; intros Hne.
  - destruct (P_store_after_cases J ctx pfp mp) as [-> | ->];
      [reflexivity | apply P_checkRateLimit_frame; exact Hne].
  - destruct (Q_store_after_cases ctx pfq mq) as [-> | ->];
      [reflexivity | apply Q_checkRateLimit_frame; exact Hne].
Qed.

Lemma X1_request_leaves_other_clients_alone_witness :
  PathVariant.store_after
    (PathVariant.onRequest Samples.only_empty_json
       (Samples.with_token Samples.get_request) Samples.path_upstream_down
       {[ str "203.0.113.9" := {| PathVariant.count := 5;
                                  PathVariant.timestamp := 0 |} ]})
    !! str "203.0.113.9"
  = ({[ str "203.0.113.9" := {| PathVariant.count := 5;
                                PathVariant.timestamp := 0 |} ]}
       : gmap (list Z) PathVariant.RateRecord) !! str "203.0.113.9".
Proof.
  apply (X1_request_leaves_other_clients_alone Samples.only_empty_json
           (Samples.with_token Samples.get_request)
           Samples.path_upstream_down Samples.query_upstream_down
           {[ str "203.0.113.9" := {| PathVariant.count := 5;
                                      PathVariant.timestamp := 0 |} ]}
           ∅ (str "203.0.113.9")).
  vm_compute. discriminate.
Defined.

Lemma P_counts_in_range_step (now : Z) (ip : list Z)
    (m : gmap (list Z) PathVariant.RateRecord) :
  Traffic.path_counts_in_range m ->
  Traffic.path_counts_in_range (fst (PathVariant.checkRateLimit now ip m)).
Proof.
  unfold Traffic.path_counts_in_range, PathVariant.checkRateLimit. intros H.
  destruct (m !! ip) as [r|] eqn:E; cbn [fst].
  - pose proof (map_Forall_lookup_1 _ _ _ _ H E) as Hr. cbn beta in Hr.
    destruct (now - PathVariant.timestamp r >? PathVariant.RATE_WINDOW); cbn [fst].
    + apply map_Forall_insert_2; [cbn; unfold PathVariant.RATE_LIMIT; lia | exact H].
    + destruct (Z.geb_spec (PathVariant.count r) PathVariant.RATE_LIMIT); cbn [fst].
      * exact H.
      * apply map_Forall_insert_2; [cbn; lia | exact H].
  - apply map_Forall_insert_2; [cbn; unfold PathVariant.RATE_LIMIT; lia | exact H].
Qed.

Lemma Q_counts_in_range_step (now : Z) (ip : list Z)
    (m : gmap (list Z) QueryVariant.RateRecord) :
  Traffic.query_counts_in_range m ->
  Traffic.query_counts_in_range (fst (QueryVariant.checkRateLimit now ip m)).
Proof.
  unfold Traffic.query_counts_in_range, QueryVariant.checkRateLimit. intros H.
  destruct (m !! ip) as [r|] eqn:E; cbn [fst].
  - pose proof (map_Forall_lookup_1 _ _ _ _ H E) as Hr. cbn beta in Hr.
    destruct (now - QueryVariant.windowStart r >? QueryVariant.RATE_WINDOW); cbn [fst].
    + apply map_Forall_insert_2; [cbn; unfold QueryVariant.RATE_LIMIT; lia | exact H].
    + destruct (Z.geb_spec (QueryVariant.count r) QueryVariant.RATE_LIMIT); cbn [fst].
      * exact H.
      * apply map_Forall_insert_2; [cbn; lia | exact H].
  - apply map_Forall_insert_2; [cbn; unfold QueryVariant.RATE_LIMIT; lia | exact H].
Qed.

Lemma P_counts_in_range_calls (calls : list (Z * list Z)) :
  forall m, Traffic.path_counts_in_range m ->
            Traffic.path_counts_in_range (Traffic.path_calls calls m).
Proof.
  unfold Traffic.path_calls.
  induction calls as [|c calls IH]; intros m H; cbn [fold_left]; [exact H|].
  apply IH, P_counts_in_range_step, H.
Qed.

Lemma Q_counts_in_range_calls (calls : list (Z * list Z)) :
  forall m, Traffic.query_counts_in_range m ->
            Traffic.query_counts_in_range (Traffic.query_calls calls m).
Proof.
  unfold Traffic.query_calls.
  induction calls as [|c calls IH]; intros m H; cbn [fold_left]; [exact H|].
  apply IH, Q_counts_in_range_step, H.
Qed.

(** X2.  Whatever calls of the limiter clients have made since the map was
    empty, every record counts between 1 and [RATE_LIMIT] requests: the
    count never passes the limit.  On such a map the result the
    path-segment limiter returns has [remaining] between 0 and
    [RATE_LIMIT - 1], and carries [resetAt] exactly when it rejects, with
    [remaining = 0]. *)
Theorem X2_counts_stay_within_the_limit :
  forall (calls : list (Z * list Z)) (now : Z) (ip : list Z),
    Traffic.path_counts_in_range (Traffic.path_calls calls ∅)
    /\ Traffic.query_counts_in_range (Traffic.query_calls calls ∅)
    /\ (let rl := snd (PathVariant.checkRateLimit now ip
                         (Traffic.path_calls calls ∅)) in
        0 <= PathVariant.remaining rl <= PathVariant.RATE_LIMIT - 1
        /\ (PathVariant.allowed rl = true -> PathVariant.resetAt rl = None)
        /\ (PathVariant.allowed rl = false ->
            PathVariant.remaining rl = 0
            /\ exists t, PathVariant.resetAt rl = Some t)).
Proof.
  intros calls now ip.
  assert (HP : Traffic.path_counts_in_range (Traffic.path_calls calls ∅))
    by (apply P_counts_in_range_calls, map_Forall_empty).
  split; [exact HP|].
  split; [apply Q_counts_in_range_calls, map_Forall_empty|].
  cbv zeta. unfold PathVariant.checkRateLimit.
  destruct (Traffic.path_calls calls ∅ !! ip) as [r|] eqn:E.
  - pose proof (map_Forall_lookup_1 _ _ _ _ HP E) as Hr. cbn beta in Hr.
    destruct (now - PathVariant.timestamp r >? PathVariant.RATE_WINDOW);
      cbn [snd PathVariant.remaining PathVariant.allowed PathVariant.resetAt].
    + unfold PathVariant.RATE_LIMIT.
      repeat split; try lia; try discriminate.
    + destruct (Z.geb_spec (PathVariant.count r) PathVariant.RATE_LIMIT);
        cbn [snd PathVariant.remaining PathVariant.allowed PathVariant.resetAt].
      * unfold PathVariant.RATE_LIMIT.
        repeat split; try lia; try discriminate; try (eexists; reflexivity).
      * repeat split; try lia; try discriminate.
  - cbn [snd PathVariant.remaining PathVariant.allowed PathVariant.resetAt].
    unfold PathVariant.RATE_LIMIT. repeat split; try lia; try discriminate.
Qed.

Lemma X2_counts_stay_within_the_limit_witness :
  let rl := snd (PathVariant.checkRateLimit Samples.now Samples.ip
                   (Traffic.path_calls
                      (repeat (Samples.now, Samples.ip) 1200) ∅)) in
  PathVariant.remaining rl = 0 /\ exists t, PathVariant.resetAt rl = Some t.
Proof.
  apply (X2_counts_stay_within_the_limit
           (repeat (Samples.now, Samples.ip) 1200) Samples.now Samples.ip).
  vm_compute. reflexivity.
Defined.


Lemma decisions_S (c : Z) (n : nat) :
  Traffic.decisions c (S n) = (c <? 1000) :: Traffic.decisions (c + 1) n.
Proof.
  unfold Traffic.decisions. cbn [seq List.map]. f_equal.
  - f_equal. lia.
  - rewrite <- List.seq_shift, List.map_map. apply List.map_ext.
    intros k. f_equal. lia.
Qed.

Lemma decisions_full (c : Z) (n : nat) :
  c >= 1000 -> Traffic.decisions c n = repeat false n.
Proof.
  intros Hc. revert c Hc. induction n as [|n IH]; intros c Hc; [reflexivity|].
  rewrite decisions_S, IH by lia. cbn [repeat]. f_equal.
  apply Z.ltb_ge. lia.
Qed.

Lemma decisions_nth (n : nat) :
  forall (c : Z) (k : nat),
    (k < n)%nat ->
    nth k (Traffic.decisions c n) false = (c + Z.of_nat k <? 1000).
Proof.
  induction n as [|n IH]; intros c k Hk; [lia|].
  rewrite decisions_S. destruct k as [|k]; cbn [nth].
  - f_equal. lia.
  - rewrite IH by lia. f_equal. lia.
Qed.

Lemma P_decisions_in_window (ip : list Z) (t0 : Z) (ts : list Z) :
  forall (m : gmap (list Z) PathVariant.RateRecord) (c : Z),
    m !! ip = Some {| PathVariant.count := c; PathVariant.timestamp := t0 |} ->
    Forall (fun t => t - t0 <= PathVariant.RATE_WINDOW) ts ->
    List.map PathVariant.allowed (snd (PathVariant.requests ip ts m)) =
    Traffic.decisions c (List.length ts).
Proof.
  induction ts as [|t ts IH]; intros m c Hm Hw; [reflexivity|].
  inversion Hw as [|? ? Ht Hts]; subst.
  cbn [List.length PathVariant.requests]. rewrite decisions_S.
  destruct (Z.ltb_spec c 1000) as [Hc|Hc].
  - rewrite (checkRateLimit_count t ip m _ Hm)
      by (cbn; unfold PathVariant.RATE_LIMIT; lia).
    cbn [PathVariant.count PathVariant.timestamp].
    specialize (IH (<[ip := {| PathVariant.count := c + 1;
                               PathVariant.timestamp := t0 |}]> m) (c + 1)
                   (lookup_insert_eq _ _ _) Hts).
    destruct (PathVariant.requests ip ts _) as [m' rs].
    cbn [snd List.map PathVariant.allowed] in *. rewrite IH. reflexivity.
  - rewrite (checkRateLimit_reject t ip m _ Hm)
      by (cbn; unfold PathVariant.RATE_LIMIT; lia).
    specialize (IH m c Hm Hts).
    destruct (PathVariant.requests ip ts m) as [m' rs].
    cbn [snd List.map PathVariant.allowed] in *. rewrite IH.
    rewrite !decisions_full by lia. reflexivity.
Qed.

Lemma Q_decisions_in_window (ip : list Z) (t0 : Z) (ts : list Z) :
  forall (m : gmap (list Z) QueryVariant.RateRecord) (c : Z),
    m !! ip = Some {| QueryVariant.windowStart := t0; QueryVariant.count := c |} ->
    Forall (fun t => t - t0 <= QueryVariant.RATE_WINDOW) ts ->
    snd (QueryVariant.requests ip ts m) = Traffic.decisions c (List.length ts).
Proof.
  induction ts as [|t ts IH]; intros m c Hm Hw; [reflexivity|].
  inversion Hw as [|? ? Ht Hts]; subst.
  cbn [List.length QueryVariant.requests]. rewrite decisions_S.
  destruct (Z.ltb_spec c 1000) as [Hc|Hc].
  - rewrite (checkRateLimit_Q_count t ip m _ Hm)
      by (cbn; unfold QueryVariant.RATE_LIMIT; lia).
    cbn [QueryVariant.count QueryVariant.windowStart].
    specialize (IH (<[ip := {| QueryVariant.windowStart := t0;
                               QueryVariant.count := c + 1 |}]> m) (c + 1)
                   (lookup_insert_eq _ _ _) Hts).
    destruct (QueryVariant.requests ip ts _) as [m' rs].
    cbn [snd] in *. rewrite IH. reflexivity.
  - rewrite (checkRateLimit_Q_reject t ip m _ Hm)
      by (cbn; unfold QueryVariant.RATE_LIMIT; lia).
    specialize (IH m c Hm Hts).
    destruct (QueryVariant.requests ip ts m) as [m' rs].
    cbn [snd] in *. rewrite IH.
    rewrite !decisions_full by lia. reflexivity.
Qed.

(** X3.  Inside one window the limiter allows exactly the first
    [RATE_LIMIT] requests of a client and rejects every later one, however
    many follow.  A client's request at [t0] opens a window (it has no
    record, or one older than [RATE_WINDOW]); of the requests that follow
    at times of that window, the [k]-th (from 0) is allowed if and only if
    [1 + k < 1000].  Both limiters decide alike. *)
Theorem X3_window_allows_exactly_the_limit :
  forall (ip : list Z) (t0 : Z) (ts : list Z)
         (mp : gmap (list Z) PathVariant.RateRecord)
         (mq : gmap (list Z) QueryVariant.RateRecord),
    (mp !! ip = None \/
     exists r, mp !! ip = Some r /\
               t0 - PathVariant.timestamp r > PathVariant.RATE_WINDOW) ->
    (mq !! ip = None \/
     exists r, mq !! ip = Some r /\
               t0 - QueryVariant.windowStart r > QueryVariant.RATE_WINDOW) ->
    Forall (fun t => t - t0 <= 60000) ts ->
    List.map PathVariant.allowed (snd (PathVariant.requests ip (t0 :: ts) mp))
    = true :: Traffic.decisions 1 (List.length ts)
    /\ snd (QueryVariant.requests ip (t0 :: ts) mq)
       = true :: Traffic.decisions 1 (List.length ts)
    /\ forall k, (k < List.length ts)%nat ->
                 nth k (Traffic.decisions 1 (List.length ts)) false = true
                 <-> 1 + Z.of_nat k < 1000.
Proof.
  intros ip t0 ts mp mq Hp Hq Hw. split; [|split].
  - cbn [PathVariant.requests]. rewrite (checkRateLimit_reset t0 ip mp Hp).
    pose proof (P_decisions_in_window ip t0 ts
                  (<[ip := {| PathVariant.count := 1;
                              PathVariant.timestamp := t0 |}]> mp) 1
                  (lookup_insert_eq _ _ _) Hw) as H.
    destruct (PathVariant.requests ip ts _) as [m' rs].
    cbn [snd List.map PathVariant.allowed] in *. rewrite H. reflexivity.
  - cbn [QueryVariant.requests]. rewrite (checkRateLimit_Q_reset t0 ip mq Hq).
    pose proof (Q_decisions_in_window ip t0 ts
                  (<[ip := {| QueryVariant.windowStart := t0;
                              QueryVariant.count := 1 |}]> mq) 1
                  (lookup_insert_eq _ _ _) Hw) as H.
    destruct (QueryVariant.requests ip ts _) as [m' rs].
    cbn [snd] in *. rewrite H. reflexivity.
  - intros k Hk. rewrite decisions_nth by exact Hk. apply Z.ltb_lt.
Qed.

Lemma X3_window_allows_exactly_the_limit_witness :
  List.map PathVariant.allowed
    (snd (PathVariant.requests Samples.ip (0 :: repeat 30000 (3 * 500)) ∅))
  = true :: Traffic.decisions 1 (List.length (repeat 30000 (3 * 500)))
  /\ snd (QueryVariant.requests Samples.ip (0 :: repeat 30000 (3 * 500)) ∅)
     = true :: Traffic.decisions 1 (List.length (repeat 30000 (3 * 500)))
  /\ forall k, (k < List.length (repeat 30000%Z (3 * 500)))%nat ->
               nth k (Traffic.decisions 1 (List.length (repeat 30000 (3 * 500)))) false
               = true
               <-> 1 + Z.of_nat k < 1000.
Proof.
  apply (X3_window_allows_exactly_the_limit Samples.ip 0 (repeat 30000 (3 * 500)) ∅ ∅).
  - left. apply lookup_empty.
  - left. apply lookup_empty.
  - apply Forall_forall. intros x Hx. apply list_elem_of_In, repeat_spec in Hx.
    subst x. lia.
Defined.

Lemma P_requests_app (ip : list Z) (a b : list Z) :
  forall m,
    PathVariant.requests ip (a ++ b) m =
    (fst (PathVariant.requests ip b (fst (PathVariant.requests ip a m))),
     snd (PathVariant.requests ip a m)
     ++ snd (PathVariant.requests ip b (fst (PathVariant.requests ip a m)))).
Proof.
  induction a as [|t a IH]; intros m; cbn [app PathVariant.requests fst snd].
  - destruct (PathVariant.requests ip b m); reflexivity.
  - destruct (PathVariant.checkRateLimit t ip m) as [m1 r].
    rewrite IH. destruct (PathVariant.requests ip a m1) as [m2 rs].
    reflexivity.
Qed.

Lemma Q_requests_app (ip : list Z) (a b : list Z) :
  forall m,
    QueryVariant.requests ip (a ++ b) m =
    (fst (QueryVariant.requests ip b (fst (QueryVariant.requests ip a m))),
     snd (QueryVariant.requests ip a m)
     ++ snd (QueryVariant.requests ip b (fst (QueryVariant.requests ip a m)))).
Proof.
  induction a as [|t a IH]; intros m; cbn [app QueryVariant.requests fst snd].
  - destruct (QueryVariant.requests ip b m); reflexivity.
  - destruct (QueryVariant.checkRateLimit t ip m) as [m1 r].
    rewrite IH. destruct (QueryVariant.requests ip a m1) as [m2 rs].
    reflexivity.
Qed.

(** X4.  The limit holds per window, not per minute.  When a client fills
    a window opened at [t0] with up to [RATE_LIMIT] requests and a request
    at [t1], more than [RATE_WINDOW] ms after [t0], opens the next window,
    up to [RATE_LIMIT] requests of that window are allowed as well: both
    limiters allow all of them, so up to twice the limit can be allowed in
    a span as short as the two window edges are apart. *)
Theorem X4_two_windows_allow_twice_the_limit :
  forall (ip : list Z) (t0 t1 : Z) (ts1 ts2 : list Z)
         (mp : gmap (list Z) PathVariant.RateRecord)
         (mq : gmap (list Z) QueryVariant.RateRecord),
    (mp !! ip = None \/
     exists r, mp !! ip = Some r /\
               t0 - PathVariant.timestamp r > PathVariant.RATE_WINDOW) ->
    (mq !! ip = None \/
     exists r, mq !! ip = Some r /\
               t0 - QueryVariant.windowStart r > QueryVariant.RATE_WINDOW) ->
    Forall (fun t => t - t0 <= 60000) ts1 ->
    Z.of_nat (List.length ts1) < 1000 ->
    t1 - t0 > 60000 ->
    Forall (fun t => t - t1 <= 60000) ts2 ->
    Z.of_nat (List.length ts2) < 1000 ->
    Forall (fun r => PathVariant.allowed r = true)
           (snd (PathVariant.requests ip ((t0 :: ts1) ++ t1 :: ts2) mp))
    /\ Forall (fun b => b = true)
              (snd (QueryVariant.requests ip ((t0 :: ts1) ++ t1 :: ts2) mq)).
Proof.
  intros ip t0 t1 ts1 ts2 mp mq Hp Hq Hw1 Hn1 Ht1 Hw2 Hn2. split.
  - rewrite P_requests_app. cbn [snd].
    destruct (P_requests_window ip t0 ts1 mp Hp Hw1 Hn1) as (m1 & rs1 & E1 & Hm1 & Hrs1).
    rewrite E1. cbn [fst snd].
    destruct (P_requests_window ip t1 ts2 m1) as (m2 & rs2 & E2 & _ & Hrs2).
    + right. eexists. split; [exact Hm1|]. cbn [PathVariant.timestamp].
      unfold PathVariant.RATE_WINDOW. lia.
    + exact Hw2.
    + exact Hn2.
    + rewrite E2. cbn [snd]. apply Forall_app. split; assumption.
  - rewrite Q_requests_app. cbn [snd].
    destruct (Q_requests_window ip t0 ts1 mq Hq Hw1 Hn1) as (m1 & rs1 & E1 & Hm1 & Hrs1).
    rewrite E1. cbn [fst snd].
    destruct (Q_requests_window ip t1 ts2 m1) as (m2 & rs2 & E2 & _ & Hrs2).
    + right. eexists. split; [exact Hm1|]. cbn [QueryVariant.windowStart].
      unfold QueryVariant.RATE_WINDOW. lia.
    + exact Hw2.
    + exact Hn2.
    + rewrite E2. cbn [snd]. apply Forall_app. split; assumption.
Qed.

Lemma X4_two_windows_allow_twice_the_limit_witness :
  Forall (fun r => PathVariant.allowed r = true)
         (snd (PathVariant.requests Samples.ip
                 ((0 :: repeat 60000 999) ++ 60001 :: repeat 60001 999) ∅))
  /\ Forall (fun b => b = true)
            (snd (QueryVariant.requests Samples.ip
                    ((0 :: repeat 60000 999) ++ 60001 :: repeat 60001 999) ∅)).
Proof.
  apply (X4_two_windows_allow_twice_the_limit Samples.ip 0 60001
           (repeat 60000 999) (repeat 60001 999) ∅ ∅).
  - left. apply lookup_empty.
  - left. apply lookup_empty.
  - apply Forall_forall. intros x Hx. apply list_elem_of_In, repeat_spec in Hx.
    subst x. lia.
  - rewrite List.repeat_length. lia.
  - lia.
  - apply Forall_forall. intros x Hx. apply list_elem_of_In, repeat_spec in Hx.
    subst x. lia.
  - rewrite List.repeat_length. lia.
Defined.

(** ** CORS headers *)

(** The CORS headers on the responses of the query-parameter proxy. *)
Lemma Q_response_cors :
  forall (ctx : Context) (pf : QueryVariant.Platform)
         (m : gmap (list Z) QueryVariant.RateRecord) (resp : Response),
    QueryVariant.outcome (QueryVariant.onRequest ctx pf m) = Normal resp ->
    (exists v,
        obj_get (str "Access-Control-Allow-Origin") (headers resp) = Some v
        /\ In v QueryVariant.ALLOWED_ORIGINS
        /\ (In (QueryVariant.origin_of (request ctx)) QueryVariant.ALLOWED_ORIGINS ->
            v = QueryVariant.origin_of (request ctx))
        /\ (~ In (QueryVariant.origin_of (request ctx)) QueryVariant.ALLOWED_ORIGINS ->
            v = str "https://prioai.ca"))
    /\ obj_get (str "Access-Control-Allow-Methods") (headers resp)
       = Some (str "GET, POST, PATCH, DELETE, OPTIONS")
    /\ obj_get (str "Access-Control-Allow-Headers") (headers resp)
       = Some (str "Content-Type")
    /\ obj_get (str "Access-Control-Max-Age") (headers resp) = Some (str "86400").
Proof.
  intros ctx pf m resp E.
  destruct (Q_response_shapes ctx pf m resp E) as (Hc & _).
  set (origin := QueryVariant.origin_of (request ctx)) in *.
  split; [|repeat split; apply Hc; vm_compute; reflexivity].
  destruct (includes QueryVariant.ALLOWED_ORIGINS origin) eqn:Ei.
  - exists origin. split.
    + apply Hc. unfold QueryVariant.getCorsHeaders. rewrite Ei.
      vm_compute. reflexivity.
    + apply includes_In in Ei. split; [exact Ei|]. split; [reflexivity | tauto].
  - exists (str "https://prioai.ca"). split.
    + apply Hc. unfold QueryVariant.getCorsHeaders. rewrite Ei.
      vm_compute. reflexivity.
    + split; [left; reflexivity|]. split; [|reflexivity].
      intros H. apply includes_In in H. congruence.
Qed.

(** X5.  The query-parameter proxy never reflects an origin that is not on
    its list: every response it returns carries
    [Access-Control-Allow-Origin], whose value is the request's origin when
    that is on [ALLOWED_ORIGINS] and [https://prioai.ca] otherwise (also
    without an [Origin] header), together with the three fixed CORS
    headers. *)
Theorem X5_query_proxy_allow_origin_is_listed :
  forall (ctx : Context) (pf : QueryVariant.Platform)
         (m : gmap (list Z) QueryVariant.RateRecord) (resp : Response),
    QueryVariant.outcome (QueryVariant.onRequest ctx pf m) = Normal resp ->
    (exists v,
        obj_get (str "Access-Control-Allow-Origin") (headers resp) = Some v
        /\ In v QueryVariant.ALLOWED_ORIGINS
        /\ (In (QueryVariant.origin_of (request ctx)) QueryVariant.ALLOWED_ORIGINS ->
            v = QueryVariant.origin_of (request ctx))
        /\ (~ In (QueryVariant.origin_of (request ctx)) QueryVariant.ALLOWED_ORIGINS ->
            v = str "https://prioai.ca"))
    /\ obj_get (str "Access-Control-Allow-Methods") (headers resp)
       = Some (str "GET, POST, PATCH, DELETE, OPTIONS")
    /\ obj_get (str "Access-Control-Allow-Headers") (headers resp)
       = Some (str "Content-Type")
    /\ obj_get (str "Access-Control-Max-Age") (headers resp) = Some (str "86400").
Proof.
  intros ctx pf m resp E. exact (Q_response_cors ctx pf m resp E).
Qed.

Lemma X5_query_proxy_allow_origin_is_listed_witness :
  (exists v,
      obj_get (str "Access-Control-Allow-Origin")
        (QueryVariant.getCorsHeaders (str "https://evil.example")) = Some v
      /\ In v QueryVariant.ALLOWED_ORIGINS
      /\ (In (QueryVariant.origin_of Samples.options_request)
             QueryVariant.ALLOWED_ORIGINS ->
          v = QueryVariant.origin_of Samples.options_request)
      /\ (~ In (QueryVariant.origin_of Samples.options_request)
               QueryVariant.ALLOWED_ORIGINS ->
          v = str "https://prioai.ca")).
Proof.
  apply (X5_query_proxy_allow_origin_is_listed
           (Samples.without_token Samples.options_request)
           Samples.query_upstream_down ∅
           {| status := 204;
              headers := QueryVariant.getCorsHeaders (str "https://evil.example");
              body := Null |}).
  vm_compute. reflexivity.
Defined.

(** The header maps of the responses of the path-segment proxy. *)
Lemma P_response_headers_form (J : list Z -> option (list Z)) (ctx : Context)
    (pf : PathVariant.Platform) (m : gmap (list Z) PathVariant.RateRecord)
    (resp : Response) :
  PathVariant.outcome (PathVariant.onRequest J ctx pf m) = Normal resp ->
  let cors := PathVariant.getCorsHeaders (request ctx) in
  headers resp = cors
  \/ headers resp =
       object_literal ((str "Content-Type", str "application/json") :: cors)
  \/ (exists a b,
         headers resp =
           object_literal
             ([ (str "Content-Type", str "application/json");
                (str "X-RateLimit-Limit", a);
                (str "X-RateLimit-Remaining", b) ] ++ cors))
  \/ (exists a b c d,
         headers resp =
           object_literal
             ([ (str "Content-Type", str "application/json");
                (str "X-RateLimit-Limit", a);
                (str "X-RateLimit-Remaining", b);
                (str "X-RateLimit-Reset", c);
                (str "Retry-After", d) ] ++ cors)).
Proof.
  cbv zeta. set (cors := PathVariant.getCorsHeaders (request ctx)).
  assert (Herr : forall st fields,
             PathVariant.error_response (request ctx) st fields = Normal resp ->
             headers resp =
               object_literal ((str "Content-Type", str "application/json") :: cors)).
  { intros st fields E. unfold PathVariant.error_response in E.
    apply new_Response_Normal in E. subst resp. reflexivity. }
  unfold PathVariant.onRequest. fold cors.
  destruct (PathVariant.checkRateLimit _ _ m) as [m' rl].
  assert (Hrelay : forall call,
             try_catch
               (bind (PathVariant.fetch pf call) (fun airtableResponse =>
                bind (PathVariant.json J (upstream_text airtableResponse)) (fun data =>
                new_Response (JSON_stringify data) (upstream_status airtableResponse)
                  (object_literal
                     ([ (str "Content-Type", str "application/json");
                        (str "X-RateLimit-Limit", Number_toString PathVariant.RATE_LIMIT);
                        (str "X-RateLimit-Remaining",
                         Number_toString (PathVariant.remaining rl)) ]
                      ++ cors)))))
               (fun error =>
                  PathVariant.error_response (request ctx) 502
                    [ (str "error", VString (str "Failed to fetch from Airtable"));
                      (str "details", VMessage error) ]) = Normal resp ->
             headers resp =
               object_literal ((str "Content-Type", str "application/json") :: cors)
             \/ exists a b,
                 headers resp =
                   object_literal
                     ([ (str "Content-Type", str "application/json");
                        (str "X-RateLimit-Limit", a);
                        (str "X-RateLimit-Remaining", b) ] ++ cors)).
  { intros call E.
    destruct (PathVariant.fetch pf call) as [r|e]; cbn [bind try_catch] in E;
      [|left; eapply Herr; exact E].
    destruct (PathVariant.json J (upstream_text r)) as [data|e];
      cbn [bind try_catch] in E; [|left; eapply Herr; exact E].
    destruct (new_Response _ _ _) as [resp'|e] eqn:En; cbn [try_catch] in E;
      [|left; eapply Herr; exact E].
    injection E as ->. apply new_Response_Normal in En. subst resp.
    right. eexists _, _. reflexivity. }
  repeat case_match; cbn [PathVariant.outcome]; intros E; try discriminate;
    first [ apply Hrelay in E; tauto
          | apply Herr in E; tauto
          | apply new_Response_Normal in E; subst resp; cbn [headers];
            first [ left; reflexivity
                  | right; right; right; eexists _, _, _, _; reflexivity ] ].
Qed.

(** The CORS headers on the responses of the path-segment proxy. *)
Lemma P_response_cors :
  forall (J : list Z -> option (list Z)) (ctx : Context)
         (pf : PathVariant.Platform)
         (m : gmap (list Z) PathVariant.RateRecord) (resp : Response),
    PathVariant.outcome (PathVariant.onRequest J ctx pf m) = Normal resp ->
    (forall o, header_Origin (request ctx) = Some o ->
               In o PathVariant.ALLOWED_ORIGINS ->
               obj_get (str "Access-Control-Allow-Origin") (headers resp) = Some o
               /\ obj_get (str "Access-Control-Allow-Credentials") (headers resp)
                  = Some (str "true"))
    /\ ((header_Origin (request ctx) = None
         \/ exists o, header_Origin (request ctx) = Some o
                      /\ ~ In o PathVariant.ALLOWED_ORIGINS) ->
        obj_get (str "Access-Control-Allow-Origin") (headers resp) = None
        /\ obj_get (str "Access-Control-Allow-Credentials") (headers resp) = None)
    /\ obj_get (str "Access-Control-Allow-Methods") (headers resp)
       = Some (str "GET, POST, PATCH, DELETE, OPTIONS")
    /\ obj_get (str "Access-Control-Allow-Headers") (headers resp)
       = Some (str "Content-Type, Authorization, X-Requested-With")
    /\ obj_get (str "Access-Control-Max-Age") (headers resp) = Some (str "86400").
Proof.
  intros J ctx pf m resp E.
  pose proof (P_response_headers_form J ctx pf m resp E) as Hf. cbv zeta in Hf.
  assert (Hcases :
            (exists o, header_Origin (request ctx) = Some o
                       /\ In o PathVariant.ALLOWED_ORIGINS
                       /\ truthy o && includes PathVariant.ALLOWED_ORIGINS o = true)
            \/ ((header_Origin (request ctx) = None
                 \/ exists o, header_Origin (request ctx) = Some o
                              /\ ~ In o PathVariant.ALLOWED_ORIGINS
                              /\ truthy o && includes PathVariant.ALLOWED_ORIGINS o
                                 = false))).
  { destruct (header_Origin (request ctx)) as [o|]; [|right; left; reflexivity].
    destruct (includes PathVariant.ALLOWED_ORIGINS o) eqn:Ei.
    - left. exists o. split; [reflexivity|]. split; [apply includes_In; exact Ei|].
      destruct o as [|z o']; [vm_compute in Ei; discriminate|].
      cbn [truthy andb]. exact Ei.
    - right. right. exists o. split; [reflexivity|]. split.
      + intros H. apply includes_In in H. congruence.
      + rewrite Ei. apply andb_false_r. }
  unfold PathVariant.getCorsHeaders in Hf.
  destruct Hcases as [(o & Ho & Hin & Hb) | [Ho | (o & Ho & Hin & Hb)]];
    rewrite Ho in Hf; try rewrite Hb in Hf.
  - split; [|split].
    + intros o' Ho' _. rewrite Ho in Ho'. injection Ho' as <-.
      destruct Hf as [-> | [-> | [(a & b & ->) | (a & b & c & d & ->)]]];
        split; vm_compute; reflexivity.
    + intros [H | (o' & Ho' & H)]; [congruence|].
      rewrite Ho in Ho'. injection Ho' as <-. contradiction.
    + destruct Hf as [-> | [-> | [(a & b & ->) | (a & b & c & d & ->)]]];
        repeat split; vm_compute; reflexivity.
  - split; [|split].
    + intros o' Ho'. congruence.
    + intros _.
      destruct Hf as [-> | [-> | [(a & b & ->) | (a & b & c & d & ->)]]];
        split; vm_compute; reflexivity.
    + destruct Hf as [-> | [-> | [(a & b & ->) | (a & b & c & d & ->)]]];
        repeat split; vm_compute; reflexivity.
  - split; [|split].
    + intros o' Ho' H. rewrite Ho in Ho'. injection Ho' as <-. contradiction.
    + intros _.
      destruct Hf as [-> | [-> | [(a & b & ->) | (a & b & c & d & ->)]]];
        split; vm_compute; reflexivity.
    + destruct Hf as [-> | [-> | [(a & b & ->) | (a & b & c & d & ->)]]];
        repeat split; vm_compute; reflexivity.
Qed.

(** X6.  The path-segment proxy is strict about origins.  Every response
    it returns carries [Access-Control-Allow-Origin], with the request's
    origin as value, and [Access-Control-Allow-Credentials: true] when the
    [Origin] header is on [ALLOWED_ORIGINS]; it carries neither header when
    the [Origin] header is missing or not on the list.  The methods,
    headers and max-age headers are always there. *)
Theorem X6_path_proxy_allow_origin_only_if_listed :
  forall (J : list Z -> option (list Z)) (ctx : Context)
         (pf : PathVariant.Platform)
         (m : gmap (list Z) PathVariant.RateRecord) (resp : Response),
    PathVariant.outcome (PathVariant.onRequest J ctx pf m) = Normal resp ->
    (forall o, header_Origin (request ctx) = Some o ->
               In o PathVariant.ALLOWED_ORIGINS ->
               obj_get (str "Access-Control-Allow-Origin") (headers resp) = Some o
               /\ obj_get (str "Access-Control-Allow-Credentials") (headers resp)
                  = Some (str "true"))
    /\ ((header_Origin (request ctx) = None
         \/ exists o, header_Origin (request ctx) = Some o
                      /\ ~ In o PathVariant.ALLOWED_ORIGINS) ->
        obj_get (str "Access-Control-Allow-Origin") (headers resp) = None
        /\ obj_get (str "Access-Control-Allow-Credentials") (headers resp) = None)
    /\ obj_get (str "Access-Control-Allow-Methods") (headers resp)
       = Some (str "GET, POST, PATCH, DELETE, OPTIONS")
    /\ obj_get (str "Access-Control-Allow-Headers") (headers resp)
       = Some (str "Content-Type, Authorization, X-Requested-With")
    /\ obj_get (str "Access-Control-Max-Age") (headers resp) = Some (str "86400").
Proof.
  intros J ctx pf m resp E. exact (P_response_cors J ctx pf m resp E).
Qed.

Lemma X6_path_proxy_allow_origin_only_if_listed_witness :
  obj_get (str "Access-Control-Allow-Origin")
    (PathVariant.getCorsHeaders Samples.options_request) = None
  /\ obj_get (str "Access-Control-Allow-Credentials")
       (PathVariant.getCorsHeaders Samples.options_request) = None.
Proof.
  apply (X6_path_proxy_allow_origin_only_if_listed Samples.only_empty_json
           (Samples.without_token Samples.options_request)
           Samples.path_upstream_down ∅
           {| status := 204;
              headers := PathVariant.getCorsHeaders Samples.options_request;
              body := Null |}).
  - vm_compute. reflexivity.
  - right. exists (str "https://evil.example"). split; [reflexivity|].
    intros H. apply includes_In in H. vm_compute in H. discriminate.
Defined.

(** ** The client key *)

Lemma trimStart_head (s : list Z) (c : Z) (s' : list Z) :
  trimStart s = c :: s' -> is_white_space c = false.
Proof.
  induction s as [|d s IH]; cbn [trimStart]; [discriminate|].
  destruct (is_white_space d) eqn:E; [exact IH|].
  intros [= <- _]. exact E.
Qed.

Lemma trimStart_suffix (s : list Z) : exists p, s = p ++ trimStart s.
Proof.
  induction s as [|d s IH]; cbn [trimStart]; [exists []; reflexivity|].
  destruct (is_white_space d).
  - destruct IH as (p & Hp). exists (d :: p). cbn [app]. f_equal. exact Hp.
  - exists []. reflexivity.
Qed.

(** What [trim] returns neither starts nor ends with white space. *)
Lemma trim_ends (s : list Z) (c : Z) :
  hd_error (trim s) = Some c \/ hd_error (rev (trim s)) = Some c ->
  is_white_space c = false.
Proof.
  unfold trim. rewrite rev_involutive. intros [H | H].
  - destruct (trimStart_suffix (rev (trimStart s))) as (p & Hp).
    apply (f_equal (@rev Z)) in Hp. rewrite rev_involutive, rev_app_distr in Hp.
    destruct (rev (trimStart (rev (trimStart s)))) as [|d t]; [discriminate|].
    injection H as ->. cbn [app] in Hp. apply (trimStart_head s c _ Hp).
  - destruct (trimStart (rev (trimStart s))) as [|d t] eqn:E; [discriminate|].
    injection H as ->. apply (trimStart_head _ c _ E).
Qed.

Lemma or_chain (cf xff : option (list Z)) :
  let k := match or_else cf (or_else xff (Some (str "unknown"))) with
           | Some ip => ip
           | None => str "unknown"
           end in
  truthy k = true
  /\ (forall ip, cf = Some ip -> ip <> [] -> k = ip)
  /\ (truthy_opt cf = false ->
      k = match xff with
          | Some x => if truthy x then x else str "unknown"
          | None => str "unknown"
          end).
Proof.
  destruct cf as [[|c ip]|]; destruct xff as [[|d x]|];
    cbv zeta; unfold or_else; cbn [truthy_opt truthy];
    (split; [reflexivity|]);
    (split; [intros ip' [= <-] Hne; congruence || reflexivity
            | intros H; reflexivity || discriminate]).
Qed.

(** X7.  The client key of both proxies is never the empty string, and a
    non-empty [CF-Connecting-IP] header decides it alone: the
    [X-Forwarded-For] header cannot override it.  Without it the key is the
    first comma-separated entry of [X-Forwarded-For] when that is not empty
    (trimmed in the path-segment proxy, as written in the query-parameter
    proxy), and [unknown] otherwise; the key the path-segment proxy takes
    from [X-Forwarded-For] neither starts nor ends with white space. *)
Theorem X7_client_key :
  forall (r : Request),
    truthy (PathVariant.getRateLimitKey r) = true
    /\ truthy (QueryVariant.clientIP_of r) = true
    /\ (forall ip, header_CF_Connecting_IP r = Some ip -> ip <> [] ->
                   PathVariant.getRateLimitKey r = ip
                   /\ QueryVariant.clientIP_of r = ip)
    /\ (truthy_opt (header_CF_Connecting_IP r) = false ->
        let first :=
          match header_X_Forwarded_For r with
          | Some h => hd [] (split 44 h)
          | None => []
          end in
        QueryVariant.clientIP_of r = (if truthy first then first else str "unknown")
        /\ PathVariant.getRateLimitKey r =
             (if truthy (trim first) then trim first else str "unknown")
        /\ forall c,
             hd_error (PathVariant.getRateLimitKey r) = Some c
             \/ hd_error (rev (PathVariant.getRateLimitKey r)) = Some c ->
             is_white_space c = false).
Proof.
  intros r.
  pose proof (or_chain (header_CF_Connecting_IP r)
                (option_map (fun h => trim (hd [] (split 44 h)))
                            (header_X_Forwarded_For r))) as (Pt & Pcf & Px).
  pose proof (or_chain (header_CF_Connecting_IP r)
                (option_map (fun h => hd [] (split 44 h))
                            (header_X_Forwarded_For r))) as (Qt & Qcf & Qx).
  fold (PathVariant.getRateLimitKey r) in Pt, Pcf, Px.
  fold (QueryVariant.clientIP_of r) in Qt, Qcf, Qx.
  split; [exact Pt|]. split; [exact Qt|]. split.
  - intros ip Hip Hne. split; [apply Pcf | apply Qcf]; assumption.
  - intros Hcf. cbv zeta. specialize (Px Hcf). specialize (Qx Hcf).
    assert (HP : PathVariant.getRateLimitKey r =
                 (if truthy (trim match header_X_Forwarded_For r with
                                  | Some h => hd [] (split 44 h)
                                  | None => []
                                  end)
                  then trim match header_X_Forwarded_For r with
                            | Some h => hd [] (split 44 h)
                            | None => []
                            end
                  else str "unknown")).
    { rewrite Px. destruct (header_X_Forwarded_For r); reflexivity. }
    split; [rewrite Qx; destruct (header_X_Forwarded_For r); reflexivity|].
    split; [exact HP|].
    intros c Hc. rewrite HP in Hc.
    destruct (truthy (trim _)).
    + apply (trim_ends _ _ Hc).
    + vm_compute in Hc. destruct Hc as [[= <-] | [= <-]]; reflexivity.
Qed.

Lemma X7_client_key_witness :
  let r := {| method := str "GET";
              header_Origin := None;
              header_CF_Connecting_IP := Some (str "198.51.100.4");
              header_X_Forwarded_For := Some (str "203.0.113.9, 10.0.0.1");
              url_pathname := str "/api/airtable";
              url_search := [];
              url_searchParams := [];
              request_text := Normal [] |} in
  PathVariant.getRateLimitKey r = str "198.51.100.4"
  /\ QueryVariant.clientIP_of r = str "198.51.100.4".
Proof.
  cbv zeta.
  apply (X7_client_key
           {| method := str "GET";
              header_Origin := None;
              header_CF_Connecting_IP := Some (str "198.51.100.4");
              header_X_Forwarded_For := Some (str "203.0.113.9, 10.0.0.1");
              url_pathname := str "/api/airtable";
              url_search := [];
              url_searchParams := [];
              request_text := Normal [] |}).
  - reflexivity.
  - vm_compute. discriminate.
Defined.

(** ** The upstream call *)

(** The fields of the upstream call of the path-segment proxy. *)
Lemma P_onRequest_call (J : list Z -> option (list Z)) (ctx : Context)
    (pf : PathVariant.Platform) (m : gmap (list Z) PathVariant.RateRecord)
    (call : FetchCall (list Z)) :
  In call (PathVariant.fetched (PathVariant.onRequest J ctx pf m)) ->
  exists airtablePath encodedTable,
    PathVariant.pathMatch (url_pathname (request ctx)) = Some airtablePath
    /\ PathVariant.valid (PathVariant.validatePath airtablePath) = true
    /\ encodeURIComponent
         (PathVariant.from_option
            (PathVariant.tableName (PathVariant.validatePath airtablePath)))
       = Normal encodedTable
    /\ fetch_url call =
         (let validation := PathVariant.validatePath airtablePath in
          let airtableUrl :=
            str "https://api.airtable.com/v0/"
            ++ PathVariant.from_option (PathVariant.baseId validation)
            ++ str "/" ++ encodedTable in
          let airtableUrl :=
            if truthy_opt (PathVariant.recordId validation)
            then airtableUrl ++ str "/"
                 ++ PathVariant.from_option (PathVariant.recordId validation)
            else airtableUrl in
          if truthy (url_search (request ctx))
          then airtableUrl ++ url_search (request ctx)
          else airtableUrl)
    /\ fetch_method call = method (request ctx)
    /\ fetch_headers call =
         object_literal
           [ (str "Authorization",
              str "Bearer " ++ PathVariant.from_option (env_AIRTABLE_TOKEN ctx));
             (str "Content-Type", str "application/json") ]
    /\ fetch_body call =
         (if includes [str "POST"; str "PATCH"; str "PUT"] (method (request ctx))
          then match PathVariant.json J (request_text (request ctx)) with
               | Normal body => Some (JSON_stringify body)
               | Throw _ => None
               end
          else None)
    /\ (includes [str "POST"; str "PATCH"; str "PUT"] (method (request ctx)) = true ->
        exists body,
          PathVariant.json J (request_text (request ctx)) = Normal body).
Proof.
  unfold PathVariant.onRequest.
  destruct (PathVariant.checkRateLimit _ _ m) as [m' rl].
  destruct (str_eqb (method (request ctx)) (str "OPTIONS")); [intros []|].
  destruct (negb (truthy_opt (env_AIRTABLE_TOKEN ctx))); [intros []|].
  destruct (negb (PathVariant.allowed rl)); [intros []|].
  destruct (PathVariant.pathMatch (url_pathname (request ctx)))
    as [airtablePath|]; [|intros []].
  destruct (negb (PathVariant.valid (PathVariant.validatePath airtablePath)))
    eqn:Ev; [intros []|].
  apply negb_false_iff in Ev.
  destruct (encodeURIComponent _) as [encodedTable|e] eqn:Ee; [|intros []].
  destruct (includes _ (method (request ctx))) eqn:Em.
  - destruct (PathVariant.json J (request_text (request ctx))) as [body|e] eqn:Ej;
      [|intros []].
    cbn [PathVariant.fetched In]. intros [<- | []].
    exists airtablePath, encodedTable. cbn [fetch_url fetch_method fetch_headers fetch_body].
    repeat split; try assumption. intros _. exists body. reflexivity.
  - cbn [PathVariant.fetched In]. intros [<- | []].
    exists airtablePath, encodedTable. cbn [fetch_url fetch_method fetch_headers fetch_body].
    repeat split; try assumption. intros H. discriminate.
Qed.

(** The fields of the upstream call of the query-parameter proxy. *)
Lemma Q_onRequest_call (ctx : Context) (pf : QueryVariant.Platform)
    (m : gmap (list Z) QueryVariant.RateRecord) (call : FetchCall URL) :
  In call (QueryVariant.fetched (QueryVariant.onRequest ctx pf m)) ->
  fetch_method call = method (request ctx)
  /\ fetch_headers call =
       object_literal
         [ (str "Authorization",
            str "Bearer " ++ match env_AIRTABLE_TOKEN ctx with
                             | Some t => t
                             | None => str "undefined"
                             end);
           (str "Content-Type", str "application/json") ]
  /\ fetch_body call =
       (if includes [str "POST"; str "PATCH"; str "PUT"] (method (request ctx))
        then match request_text (request ctx) with
             | Normal b => if truthy b then Some (Text b) else None
             | Throw _ => None
             end
        else None).
Proof.
  unfold QueryVariant.onRequest.
  destruct (QueryVariant.checkRateLimit _ _ m) as [m' ok].
  repeat case_match; cbn [QueryVariant.fetched In]; try (intros []; fail);
    intros [<- | []]; repeat split.
Qed.

Lemma split_no_separator (sep : Z) (s : list Z) :
  forall seg, In seg (split sep s) -> Forall (fun c => c <> sep) seg.
Proof.
  induction s as [|c s IH]; cbn [split]; intros seg H.
  - destruct H as [<- | []]. constructor.
  - destruct (Z.eqb_spec c sep) as [->|Hne].
    + destruct H as [<- | H]; [constructor | apply IH; exact H].
    + destruct (split sep s) as [|h t] eqn:E.
      * destruct H as [<- | []]. repeat constructor. exact Hne.
      * destruct H as [<- | H].
        -- constructor; [exact Hne | apply IH; left; reflexivity].
        -- apply IH. right. exact H.
Qed.

Lemma P_validatePath_fields (path : list Z) :
  PathVariant.valid (PathVariant.validatePath path) = true ->
  let parts := filter_Boolean (split 47 path) in
  PathVariant.validatePath path =
    {| PathVariant.valid := true; PathVariant.error := None;
       PathVariant.baseId := Some (nth 0 parts []);
       PathVariant.tableName := Some (nth 1 parts []);
       PathVariant.recordId := nth_error parts 2 |}
  /\ In (nth 0 parts []) (PathVariant.bases PathVariant.ALLOWED_PATHS)
  /\ In (nth 1 parts []) (PathVariant.tables PathVariant.ALLOWED_PATHS).
Proof.
  intros H. pose proof (proj1 (P_validatePath_valid_iff path) H) as (_ & Hb & Ht).
  cbv zeta in *. split; [|split; assumption].
  unfold PathVariant.validatePath in *.
  repeat case_match; cbn [PathVariant.valid PathVariant.invalid] in H;
    try discriminate; reflexivity.
Qed.

Lemma P_table_encodes (T : list Z) :
  In T (PathVariant.tables PathVariant.ALLOWED_PATHS) ->
  encodeURIComponent T = Normal T.
Proof.
  intros H. cbn [In PathVariant.tables PathVariant.ALLOWED_PATHS] in H.
  repeat (destruct H as [<- | H]; [vm_compute; reflexivity|]).
  destruct H.
Qed.

(** X9.  Every upstream call of the query-parameter proxy goes to the
    origin [https://api.airtable.com], whatever the path value holds.  The
    allow-list does not bound the resource of the call: the URL parser
    resolves dot segments, so for any segments [B] and [T] of characters
    the parser keeps, neither of them a dot segment, the path made of the
    allowed base, a listed table, [../..], [B] and [T] is valid, and a
    request for it that passes the origin gate, the limiter and the
    configuration check is fetched as [/v0/B/T]. *)
Theorem X9_query_proxy_upstream_origin_and_dot_segments :
  forall (ctx : Context) (pf : QueryVariant.Platform)
         (m : gmap (list Z) QueryVariant.RateRecord),
    (forall call,
        In call (QueryVariant.fetched (QueryVariant.onRequest ctx pf m)) ->
        origin (fetch_url call) = str "https://api.airtable.com")
    /\ (forall (T0 B T : list Z),
          In T0 QueryVariant.ALLOWED_TABLES ->
          Forall (fun c => kept_in_path c = true /\ c <> 47) B ->
          Forall (fun c => kept_in_path c = true /\ c <> 47) T ->
          is_dot_segment B = false ->
          is_dot_segment T = false ->
          let path :=
            QueryVariant.ALLOWED_BASE ++ str "/" ++ T0 ++ str "/../../"
            ++ B ++ str "/" ++ T in
          QueryVariant.validatePath (Some path) =
            Normal {| QueryVariant.valid := true; QueryVariant.error := None |}
          /\ (searchParams_get (str "path") (url_searchParams (request ctx))
              = Some path ->
              method (request ctx) <> str "OPTIONS" ->
              QueryVariant.origin_passes (request ctx) ->
              snd (QueryVariant.checkRateLimit (QueryVariant.Date_now pf)
                     (QueryVariant.clientIP_of (request ctx)) m) = true ->
              truthy_opt (env_AIRTABLE_TOKEN ctx) = true ->
              exists call,
                QueryVariant.fetched (QueryVariant.onRequest ctx pf m) = [call]
                /\ pathname (fetch_url call)
                   = str "/v0/" ++ B ++ str "/" ++ T)).
Proof.
  intros ctx pf m. split.
  - intros call Hin.
    destruct (Q_onRequest_upstream ctx pf m call Hin)
      as (_ & _ & _ & _ & _ & _ & (path & Hp & Hv & Hu) & _).
    destruct (forward_params_url (url_searchParams (request ctx))
                (new_URL (str "https://api.airtable.com/v0/" ++ path)))
      as (Eo & _).
    rewrite Hu, Eo. apply new_URL_airtable_origin.
  - intros T0 B T HT HB HTs HdB HdT path.
    assert (Hv : QueryVariant.validatePath (Some path) =
                   Normal {| QueryVariant.valid := true;
                             QueryVariant.error := None |}).
    { unfold path.
      assert (E : str "/../../" ++ B ++ str "/" ++ T
                  = str "/" ++ (str "../../" ++ B ++ str "/" ++ T))
        by (code_units; reflexivity).
      rewrite E. apply Q_validatePath_extra_segments. exact HT. }
    split; [exact Hv|].
    intros Hp Hm Ho Ha Ht.
    destruct (QueryVariant.checkRateLimit (QueryVariant.Date_now pf)
                (QueryVariant.clientIP_of (request ctx)) m) as [m' a] eqn:El.
    cbn [snd] in Ha. subst a.
    destruct (Q_onRequest_forwards ctx pf m m' path Hm Ho El Ht Hp Hv)
      as (call & Hf & Hu & _).
    exists call. split; [exact Hf|].
    destruct (forward_params_url (url_searchParams (request ctx))
                (new_URL (str "https://api.airtable.com/v0/" ++ path)))
      as (_ & Ep & _).
    rewrite Hu, Ep.
    assert (HB' : Forall (fun c => 32 < c < 127) B).
    { revert HB. apply List.Forall_impl. intros c [Hc _].
      destruct (kept_in_path_inv c Hc) as (_ & _ & _ & _ & H). exact H. }
    assert (HT' : Forall (fun c => 32 < c < 127) T).
    { revert HTs. apply List.Forall_impl. intros c [Hc _].
      destruct (kept_in_path_inv c Hc) as (_ & _ & _ & _ & H). exact H. }
    pose proof (Q_tables_printable T0 HT) as HT0.
    destruct (new_URL_airtable path path) as [_ ->].
    + rewrite scalar_values_id.
      * assert (E : str "https://api.airtable.com/v0/" ++ path
                    = 104 :: (str "ttps://api.airtable.com/v0/"
                              ++ QueryVariant.ALLOWED_BASE ++ str "/" ++ T0
                              ++ str "/../../" ++ B) ++ 47 :: T).
        { unfold path. code_units.
          repeat first [rewrite <- app_assoc | progress cbn [app]].
          reflexivity. }
        rewrite E. apply url_clean_between; try lia.
        -- repeat (apply List.Forall_app; split);
             try solve [code_units; repeat constructor; lia];
             try solve [unfold QueryVariant.ALLOWED_BASE; code_units;
                        repeat constructor; lia];
             match goal with
             | |- Forall _ T0 => revert HT0
             | |- Forall _ B => revert HB'
             end; apply List.Forall_impl; intros c Hc; lia.
        -- revert HT'. apply List.Forall_impl. intros c Hc. lia.
      * unfold path.
        repeat (apply List.Forall_app; split);
          try solve [code_units; repeat constructor; lia];
          try solve [unfold QueryVariant.ALLOWED_BASE; code_units;
                     repeat constructor; lia];
          match goal with
          | |- Forall _ T0 => revert HT0
          | |- Forall _ B => revert HB'
          | |- Forall _ T => revert HT'
          end; apply List.Forall_impl; intros c Hc; lia.
    + unfold path. rewrite (path_state_escape T0 _ HT).
      assert (E : B ++ str "/" ++ T = B ++ 47 :: (T ++ []))
        by (code_units; rewrite app_nil_r; reflexivity).
      rewrite E, (path_state_kept B) by exact HB.
      rewrite path_state_slash, (path_state_kept T) by exact HTs.
      cbn [app path_state].
      rewrite !end_segment_plain by assumption.
      rewrite !serialize_path_snoc. code_units.
      unfold serialize_path. cbn [List.map List.concat].
      repeat first [rewrite <- app_assoc | progress cbn [app]].
      rewrite !app_nil_r. reflexivity.
Qed.

Lemma X9_query_proxy_upstream_origin_and_dot_segments_witness :
  QueryVariant.validatePath (Some Samples.escape_path) =
    Normal {| QueryVariant.valid := true; QueryVariant.error := None |}
  /\ exists call,
       QueryVariant.fetched
         (QueryVariant.onRequest (Samples.with_token Samples.escape_request)
            Samples.query_upstream_down ∅) = [call]
       /\ pathname (fetch_url call) = str "/v0/appOTHERBASE000000/Secrets".
Proof.
  destruct (X9_query_proxy_upstream_origin_and_dot_segments
              (Samples.with_token Samples.escape_request)
              Samples.query_upstream_down ∅) as [_ H].
  destruct (H (str "Team%20Members") (str "appOTHERBASE000000") (str "Secrets"))
    as [Hv Hc].
  - cbn. tauto.
  - vm_compute. repeat constructor; discriminate.
  - vm_compute. repeat constructor; discriminate.
  - vm_compute. reflexivity.
  - vm_compute. reflexivity.
  - split; [exact Hv|]. apply Hc.
    + reflexivity.
    + vm_compute. discriminate.
    + left. reflexivity.
    + vm_compute. reflexivity.
    + reflexivity.
Defined.

(** X10.  The path-segment proxy calls the upstream only for a resource of
    its allow-list, and passes the query string through: the URL of the
    call is [https://api.airtable.com/v0/], an allowed base, a [/], an
    allowed table, then nothing or a [/] and one record segment that is
    not empty and holds no [/], then the [search] of the inbound URL as it
    came. *)
Theorem X10_path_proxy_upstream_url :
  forall (J : list Z -> option (list Z)) (ctx : Context)
         (pf : PathVariant.Platform)
         (m : gmap (list Z) PathVariant.RateRecord)
         (call : FetchCall (list Z)),
    In call (PathVariant.fetched (PathVariant.onRequest J ctx pf m)) ->
    exists base table record_part,
      In base (PathVariant.bases PathVariant.ALLOWED_PATHS)
      /\ In table (PathVariant.tables PathVariant.ALLOWED_PATHS)
      /\ (record_part = []
          \/ exists rec, rec <> [] /\ Forall (fun c => c <> 47) rec
                         /\ record_part = str "/" ++ rec)
      /\ fetch_url call =
           str "https://api.airtable.com/v0/" ++ base ++ str "/" ++ table
           ++ record_part ++ url_search (request ctx).
Proof.
  intros J ctx pf m call Hin.
  destruct (P_onRequest_call J ctx pf m call Hin)
    as (path & enc & _ & Hv & He & Hu & _).
  destruct (P_validatePath_fields path Hv) as (Hf & Hb & Ht). cbv zeta in *.
  set (parts := filter_Boolean (split 47 path)) in *.
  rewrite Hf in He, Hu.
  cbn [PathVariant.baseId PathVariant.tableName PathVariant.recordId
       PathVariant.from_option] in He, Hu.
  rewrite (P_table_encodes _ Ht) in He. injection He as <-.
  assert (Hs : forall u : list Z,
             (if truthy (url_search (request ctx))
              then u ++ url_search (request ctx) else u)
             = u ++ url_search (request ctx)).
  { intros u. destruct (url_search (request ctx)); cbn [truthy];
      [rewrite app_nil_r|]; reflexivity. }
  rewrite Hs in Hu.
  exists (nth 0 parts []), (nth 1 parts []).
  destruct (nth_error parts 2) as [rec|] eqn:Er.
  - assert (Hrec : In rec parts) by (eapply nth_error_In; exact Er).
    unfold parts, filter_Boolean in Hrec. apply List.filter_In in Hrec.
    destruct Hrec as [Hseg Htr].
    exists (str "/" ++ rec). split; [exact Hb|]. split; [exact Ht|]. split.
    + right. exists rec. split; [intros ->; discriminate|].
      split; [apply (split_no_separator 47 path rec Hseg) | reflexivity].
    + cbn [truthy_opt PathVariant.from_option] in Hu. rewrite Htr in Hu.
      rewrite Hu. repeat rewrite <- app_assoc. reflexivity.
  - exists []. split; [exact Hb|]. split; [exact Ht|]. split; [left; reflexivity|].
    cbn [truthy_opt] in Hu. rewrite Hu. repeat rewrite <- app_assoc. reflexivity.
Qed.

Lemma X10_path_proxy_upstream_url_witness :
  exists base table record_part,
    In base (PathVariant.bases PathVariant.ALLOWED_PATHS)
    /\ In table (PathVariant.tables PathVariant.ALLOWED_PATHS)
    /\ (record_part = []
        \/ exists rec, rec <> [] /\ Forall (fun c => c <> 47) rec
                       /\ record_part = str "/" ++ rec)
    /\ fetch_url Samples.path_call =
         str "https://api.airtable.com/v0/" ++ base ++ str "/" ++ table
         ++ record_part ++ url_search Samples.get_request.
Proof.
  apply (X10_path_proxy_upstream_url Samples.only_empty_json
           (Samples.with_token Samples.get_request)
           Samples.path_upstream_down ∅ Samples.path_call).
  left. vm_compute. reflexivity.
Defined.

(** ** Request bodies *)

Lemma mutating_is_not_OPTIONS (mth : list Z) :
  includes [str "POST"; str "PATCH"; str "PUT"] mth = true ->
  str_eqb mth (str "OPTIONS") = false.
Proof.
  intros H. apply includes_In in H. cbn [In] in H.
  destruct H as [<- | [<- | [<- | []]]]; vm_compute; reflexivity.
Qed.

(** X11.  The path-segment proxy parses the body of a [POST], [PATCH] or
    [PUT] as JSON before anything is sent.  An upstream call for such a
    request carries the body re-serialized from the parsed value; a call
    for any other method carries no body.  When the body cannot be read or
    is not JSON, no upstream call is made, and a request that has passed
    the configuration check, the limiter and the path validation is
    answered 400 [Invalid JSON body], the limiter's update of the map
    standing. *)
Theorem X11_path_proxy_parses_the_body_first :
  forall (J : list Z -> option (list Z)) (ctx : Context)
         (pf : PathVariant.Platform)
         (m : gmap (list Z) PathVariant.RateRecord),
    let mutating :=
      includes [str "POST"; str "PATCH"; str "PUT"] (method (request ctx)) in
    let run := PathVariant.onRequest J ctx pf m in
    let limiter :=
      PathVariant.checkRateLimit (PathVariant.Date_now pf)
        (PathVariant.getRateLimitKey (request ctx)) m in
    (forall call,
        In call (PathVariant.fetched run) ->
        (mutating = false -> fetch_body call = None)
        /\ (mutating = true ->
            exists text,
              request_text (request ctx) = Normal text
              /\ J text = None
              /\ fetch_body call = Some (JSON_stringify (VParsed text))))
    /\ (forall e,
          mutating = true ->
          PathVariant.json J (request_text (request ctx)) = Throw e ->
          PathVariant.fetched run = []
          /\ (forall airtablePath,
                truthy_opt (env_AIRTABLE_TOKEN ctx) = true ->
                PathVariant.allowed (snd limiter) = true ->
                PathVariant.pathMatch (url_pathname (request ctx)) = Some airtablePath ->
                PathVariant.valid (PathVariant.validatePath airtablePath) = true ->
                PathVariant.store_after run = fst limiter
                /\ PathVariant.outcome run =
                     Normal {| status := 400;
                               headers :=
                                 object_literal
                                   ((str "Content-Type", str "application/json")
                                    :: PathVariant.getCorsHeaders (request ctx));
                               body :=
                                 JSON_stringify
                                   (VObject
                                      [(str "error",
                                        VString (str "Invalid JSON body"))]) |})).
Proof.
  intros J ctx pf m. cbv zeta. split.
  - intros call Hin.
    destruct (P_onRequest_call J ctx pf m call Hin)
      as (_ & _ & _ & _ & _ & _ & _ & _ & Hb & Hj).
    split.
    + intros Hm. rewrite Hm in Hb. exact Hb.
    + intros Hm. destruct (Hj Hm) as (body & Hbody).
      rewrite Hm, Hbody in Hb.
      unfold PathVariant.json, PathVariant.JSON_parse, bind in Hbody.
      destruct (request_text (request ctx)) as [text|e]; [|discriminate].
      destruct (J text) eqn:EJ; [discriminate|]. injection Hbody as <-.
      exists text. repeat split; [exact EJ | exact Hb].
  - intros e Hm Hj. split.
    + destruct (PathVariant.fetched (PathVariant.onRequest J ctx pf m))
        as [|call l] eqn:Ef; [reflexivity|].
      assert (Hin : In call (PathVariant.fetched (PathVariant.onRequest J ctx pf m)))
        by (rewrite Ef; left; reflexivity).
      destruct (P_onRequest_call J ctx pf m call Hin)
        as (_ & _ & _ & _ & _ & _ & _ & _ & _ & Hj').
      destruct (Hj' Hm) as (body & Hbody). congruence.
    + intros path Ht Ha Hp Hv.
      destruct (P_validatePath_fields path Hv) as (Hf & _ & Htab).
      assert (He : encodeURIComponent
                     (PathVariant.from_option
                        (PathVariant.tableName (PathVariant.validatePath path)))
                   = Normal (nth 1 (filter_Boolean (split 47 path)) [])).
      { rewrite Hf. cbn [PathVariant.tableName PathVariant.from_option].
        apply P_table_encodes, Htab. }
      unfold PathVariant.onRequest.
      rewrite (mutating_is_not_OPTIONS _ Hm), Ht.
      destruct (PathVariant.checkRateLimit _ _ m) as [m' rl].
      cbn [snd fst] in *. rewrite Ha, Hp, Hv. cbn [negb].
      rewrite He, Hm, Hj.
      cbn [PathVariant.store_after PathVariant.outcome]. split; reflexivity.
Qed.

Lemma X11_path_proxy_parses_the_body_first_witness :
  PathVariant.fetched
    (PathVariant.onRequest Samples.only_empty_json
       (Samples.with_token (Samples.post_request (Normal (str "{name:"))))
       (Samples.path_upstream 200 (str "{}")) ∅) = []
  /\ exists resp,
       PathVariant.outcome
         (PathVariant.onRequest Samples.only_empty_json
            (Samples.with_token (Samples.post_request (Normal (str "{name:"))))
            (Samples.path_upstream 200 (str "{}")) ∅) = Normal resp
       /\ status resp = 400.
Proof.
  destruct (X11_path_proxy_parses_the_body_first Samples.only_empty_json
              (Samples.with_token (Samples.post_request (Normal (str "{name:"))))
              (Samples.path_upstream 200 (str "{}")) ∅) as [_ H].
  destruct (H (SyntaxError (str "Unexpected token"))) as [Hf Hg].
  - vm_compute. reflexivity.
  - vm_compute. reflexivity.
  - split; [exact Hf|].
    destruct (Hg (str "appXXXXXXXXXXXXXX/Clients")) as [_ Ho];
      try (vm_compute; reflexivity).
    eexists. split; [exact Ho | reflexivity].
Defined.

(** X12.  The query-parameter proxy forwards the body of a [POST], [PATCH]
    or [PUT] as it came, without parsing it: an upstream call carries the
    text of the request body when there is one, no body when the text is
    empty or cannot be read, and never a body for another method.  The
    body has no part in the decision to call the upstream: with any other
    body the same request leads to as many upstream calls. *)
Theorem X12_query_proxy_forwards_the_body_as_it_came :
  forall (ctx : Context) (pf : QueryVariant.Platform)
         (m : gmap (list Z) QueryVariant.RateRecord),
    let mutating :=
      includes [str "POST"; str "PATCH"; str "PUT"] (method (request ctx)) in
    (forall call,
        In call (QueryVariant.fetched (QueryVariant.onRequest ctx pf m)) ->
        (mutating = false -> fetch_body call = None)
        /\ (mutating = true ->
            forall text,
              request_text (request ctx) = Normal text -> text <> [] ->
              fetch_body call = Some (Text text))
        /\ (mutating = true ->
            (request_text (request ctx) = Normal []
             \/ exists e, request_text (request ctx) = Throw e) ->
            fetch_body call = None))
    /\ (forall text',
          List.length
            (QueryVariant.fetched
               (QueryVariant.onRequest
                  {| request := Samples.with_text (request ctx) text';
                     env_AIRTABLE_TOKEN := env_AIRTABLE_TOKEN ctx |} pf m))
          = List.length (QueryVariant.fetched (QueryVariant.onRequest ctx pf m))).
Proof.
  intros ctx pf m. cbv zeta. split.
  - intros call Hin.
    destruct (Q_onRequest_call ctx pf m call Hin) as (_ & _ & Hb).
    split; [|split].
    + intros Hm. rewrite Hm in Hb. exact Hb.
    + intros Hm text Ht Hne. rewrite Hm, Ht in Hb.
      destruct text; [congruence | exact Hb].
    + intros Hm [Ht | (e & Ht)]; rewrite Hm, Ht in Hb; exact Hb.
  - intros text'. unfold QueryVariant.onRequest, QueryVariant.origin_of,
      QueryVariant.clientIP_of, Samples.with_text.
    cbn [request method header_Origin header_CF_Connecting_IP
         header_X_Forwarded_For url_searchParams env_AIRTABLE_TOKEN].
    destruct (QueryVariant.checkRateLimit _ _ m) as [m' ok].
    repeat case_match; reflexivity.
Qed.

Lemma X12_query_proxy_forwards_the_body_as_it_came_witness :
  In (Samples.query_post_call (str "{name:"))
     (QueryVariant.fetched
        (QueryVariant.onRequest
           (Samples.with_token (Samples.post_request (Normal (str "{name:"))))
           (Samples.query_upstream 200 (str "{}")) ∅))
  /\ fetch_body (Samples.query_post_call (str "{name:")) = Some (Text (str "{name:")).
Proof.
  assert (Hin : In (Samples.query_post_call (str "{name:"))
                   (QueryVariant.fetched
                      (QueryVariant.onRequest
                         (Samples.with_token
                            (Samples.post_request (Normal (str "{name:"))))
                         (Samples.query_upstream 200 (str "{}")) ∅)))
    by (left; vm_compute; reflexivity).
  split; [exact Hin|].
  destruct (X12_query_proxy_forwards_the_body_as_it_came
              (Samples.with_token (Samples.post_request (Normal (str "{name:"))))
              (Samples.query_upstream 200 (str "{}")) ∅) as [H _].
  destruct (H _ Hin) as (_ & Hb & _).
  apply (Hb ltac:(vm_compute; reflexivity) (str "{name:")).
  - reflexivity.
  - vm_compute. discriminate.
Defined.

(** X13.  Every upstream call carries the secret of the configuration and
    nothing of the client's headers: in both proxies a call is made only
    with a non-empty [AIRTABLE_TOKEN], its headers are [Authorization:
    Bearer <token>] and [Content-Type: application/json] and no other, its
    method is the method of the request, and it is the only call of the
    request. *)
Theorem X13_upstream_call_headers :
  forall (J : list Z -> option (list Z)) (ctx : Context)
         (pfp : PathVariant.Platform) (pfq : QueryVariant.Platform)
         (mp : gmap (list Z) PathVariant.RateRecord)
         (mq : gmap (list Z) QueryVariant.RateRecord),
    (forall call,
        In call (PathVariant.fetched (PathVariant.onRequest J ctx pfp mp)) ->
        PathVariant.fetched (PathVariant.onRequest J ctx pfp mp) = [call]
        /\ fetch_method call = method (request ctx)
        /\ exists token,
             env_AIRTABLE_TOKEN ctx = Some token /\ token <> []
             /\ fetch_headers call =
                  [ (str "Authorization", str "Bearer " ++ token);
                    (str "Content-Type", str "application/json") ])
    /\ (forall call,
          In call (QueryVariant.fetched (QueryVariant.onRequest ctx pfq mq)) ->
          QueryVariant.fetched (QueryVariant.onRequest ctx pfq mq) = [call]
          /\ fetch_method call = method (request ctx)
          /\ exists token,
               env_AIRTABLE_TOKEN ctx = Some token /\ token <> []
               /\ fetch_headers call =
                    [ (str "Authorization", str "Bearer " ++ token);
                      (str "Content-Type", str "application/json") ]).
Proof.
  intros J ctx pfp pfq mp mq. split; intros call Hin.
  - destruct (P_onRequest_upstream J ctx pfp mp call Hin) as (Hone & _ & Ht & _).
    destruct (P_onRequest_call J ctx pfp mp call Hin)
      as (_ & _ & _ & _ & _ & _ & Hm & Hh & _).
    split; [exact Hone|]. split; [exact Hm|].
    destruct (env_AIRTABLE_TOKEN ctx) as [[|c token]|]; try discriminate.
    exists (c :: token). split; [reflexivity|]. split; [discriminate|].
    rewrite Hh. vm_compute. reflexivity.
  - destruct (Q_onRequest_upstream ctx pfq mq call Hin) as (Hone & _ & _ & Ht & _).
    destruct (Q_onRequest_call ctx pfq mq call Hin) as (Hm & Hh & _).
    split; [exact Hone|]. split; [exact Hm|].
    destruct (env_AIRTABLE_TOKEN ctx) as [[|c token]|]; try discriminate.
    exists (c :: token). split; [reflexivity|]. split; [discriminate|].
    rewrite Hh. vm_compute. reflexivity.
Qed.

Lemma X13_upstream_call_headers_witness :
  PathVariant.fetched
    (PathVariant.onRequest Samples.only_empty_json
       (Samples.with_token Samples.get_request) Samples.path_upstream_down ∅)
  = [Samples.path_call]
  /\ QueryVariant.fetched
       (QueryVariant.onRequest (Samples.with_token Samples.get_request)
          Samples.query_upstream_down ∅)
     = [Samples.query_call].
Proof.
  destruct (X13_upstream_call_headers Samples.only_empty_json
              (Samples.with_token Samples.get_request)
              Samples.path_upstream_down Samples.query_upstream_down ∅ ∅)
    as [HP HQ].
  split.
  - apply (HP Samples.path_call). left. vm_compute. reflexivity.
  - apply (HQ Samples.query_call). left. vm_compute. reflexivity.
Defined.

(** ** The relayed response *)

Lemma new_Response_in_range (b : Body) (st : Z) (h : object) :
  200 <= st <= 599 ->
  is_null_body_status st = false ->
  new_Response b st h = Normal {| status := st; headers := h; body := b |}.
Proof.
  intros [H1 H2] Hn. unfold new_Response. rewrite Hn.
  apply Z.leb_le in H1, H2. rewrite H1, H2. reflexivity.
Qed.

(** X14.  An upstream answer is relayed with its own status.  When the
    upstream call resolves with a status between 200 and 599 that is not a
    null-body status and its body reads as [text], the query-parameter
    proxy returns that status with [text] itself as body, and the
    path-segment proxy, when [text] is JSON, returns that status with the
    re-serialized value as body and the [X-RateLimit-Limit] and
    [X-RateLimit-Remaining] headers of the limiter's result. *)
Theorem X14_upstream_answer_is_relayed :
  forall (J : list Z -> option (list Z)) (ctx : Context)
         (pfp : PathVariant.Platform) (pfq : QueryVariant.Platform)
         (mp : gmap (list Z) PathVariant.RateRecord)
         (mq : gmap (list Z) QueryVariant.RateRecord),
    (forall call r text,
        In call (PathVariant.fetched (PathVariant.onRequest J ctx pfp mp)) ->
        PathVariant.fetch pfp call = Normal r ->
        upstream_text r = Normal text ->
        J text = None ->
        200 <= upstream_status r <= 599 ->
        is_null_body_status (upstream_status r) = false ->
        PathVariant.outcome (PathVariant.onRequest J ctx pfp mp) =
          Normal
            {| status := upstream_status r;
               headers :=
                 object_literal
                   ([ (str "Content-Type", str "application/json");
                      (str "X-RateLimit-Limit", str "1000");
                      (str "X-RateLimit-Remaining",
                       Number_toString
                         (PathVariant.remaining
                            (snd (PathVariant.checkRateLimit
                                    (PathVariant.Date_now pfp)
                                    (PathVariant.getRateLimitKey (request ctx))
                                    mp)))) ]
                    ++ PathVariant.getCorsHeaders (request ctx));
               body := JSON_stringify (VParsed text) |})
    /\ (forall call r text,
          In call (QueryVariant.fetched (QueryVariant.onRequest ctx pfq mq)) ->
          QueryVariant.fetch pfq call = Normal r ->
          upstream_text r = Normal text ->
          200 <= upstream_status r <= 599 ->
          is_null_body_status (upstream_status r) = false ->
          QueryVariant.outcome (QueryVariant.onRequest ctx pfq mq) =
            Normal
              {| status := upstream_status r;
                 headers :=
                   QueryVariant.json_headers
                     (QueryVariant.getCorsHeaders
                        (QueryVariant.origin_of (request ctx)));
                 body := Text text |}).
Proof.
  intros J ctx pfp pfq mp mq. split.
  - intros call r text Hin Hf Ht HJ Hs Hn.
    destruct (P_onRequest_upstream J ctx pfp mp call Hin) as (_ & _ & _ & _ & _ & Ho).
    rewrite Ho, Hf. cbn [bind]. unfold PathVariant.json, PathVariant.JSON_parse.
    rewrite Ht. cbn [bind]. rewrite HJ. cbn [bind].
    rewrite (new_Response_in_range _ _ _ Hs Hn). reflexivity.
  - intros call r text Hin Hf Ht Hs Hn.
    destruct (Q_onRequest_upstream ctx pfq mq call Hin)
      as (_ & _ & _ & _ & _ & _ & _ & Ho).
    rewrite Ho, Hf. cbn [bind]. rewrite Ht. cbn [bind].
    rewrite (new_Response_in_range _ _ _ Hs Hn). reflexivity.
Qed.

Lemma X14_upstream_answer_is_relayed_witness :
  QueryVariant.outcome
    (QueryVariant.onRequest (Samples.with_token Samples.get_request)
       (Samples.query_upstream 404 (str "[404]")) ∅)
  = Normal
      {| status := 404;
         headers :=
           QueryVariant.json_headers
             (QueryVariant.getCorsHeaders
                (QueryVariant.origin_of Samples.get_request));
         body := Text (str "[404]") |}.
Proof.
  destruct (X14_upstream_answer_is_relayed Samples.only_empty_json
              (Samples.with_token Samples.get_request)
              Samples.path_upstream_down
              (Samples.query_upstream 404 (str "[404]")) ∅ ∅)
    as [_ HQ].
  apply (HQ Samples.query_call
            {| upstream_status := 404;
               upstream_text := Normal (str "[404]") |}).
  - left. vm_compute. reflexivity.
  - reflexivity.
  - reflexivity.
  - cbn. lia.
  - reflexivity.
Defined.

(** ** Exceptions that escape *)

(** X15.  The path-segment proxy answers every request: whatever the
    request, the configuration, the map, the clock and the upstream do, the
    handler returns a response and lets no exception escape. *)
Theorem X15_path_proxy_always_answers :
  forall (J : list Z -> option (list Z)) (ctx : Context)
         (pf : PathVariant.Platform)
         (m : gmap (list Z) PathVariant.RateRecord),
    exists resp,
      PathVariant.outcome (PathVariant.onRequest J ctx pf m) = Normal resp
      /\ (status resp = 204 \/ 400 <= status resp <= 599
          \/ exists call r,
               In call (PathVariant.fetched (PathVariant.onRequest J ctx pf m))
               /\ PathVariant.fetch pf call = Normal r
               /\ status resp = upstream_status r).
Proof.
  intros J ctx pf m. unfold PathVariant.onRequest.
  destruct (PathVariant.checkRateLimit _ _ m) as [m' rl].
  destruct (str_eqb (method (request ctx)) (str "OPTIONS"));
    [eexists; split; [reflexivity | left; reflexivity]|].
  destruct (negb (truthy_opt (env_AIRTABLE_TOKEN ctx)));
    [eexists; split; [reflexivity | right; left; cbn; lia]|].
  destruct (negb (PathVariant.allowed rl));
    [eexists; split; [reflexivity | right; left; cbn; lia]|].
  destruct (PathVariant.pathMatch (url_pathname (request ctx))) as [path|];
    [|eexists; split; [reflexivity | right; left; cbn; lia]].
  destruct (negb (PathVariant.valid (PathVariant.validatePath path))) eqn:Ev;
    [eexists; split; [reflexivity | right; left; cbn; lia]|].
  apply negb_false_iff in Ev.
  destruct (P_validatePath_fields path Ev) as (Hf & _ & Htab).
  assert (He : encodeURIComponent
                 (PathVariant.from_option
                    (PathVariant.tableName (PathVariant.validatePath path)))
               = Normal (nth 1 (filter_Boolean (split 47 path)) [])).
  { rewrite Hf. cbn [PathVariant.tableName PathVariant.from_option].
    apply P_table_encodes, Htab. }
  rewrite He.
  assert (Hrelay : forall call hdrs,
             exists resp,
               try_catch
                 (bind (PathVariant.fetch pf call) (fun airtableResponse =>
                  bind (PathVariant.json J (upstream_text airtableResponse)) (fun data =>
                  new_Response (JSON_stringify data)
                    (upstream_status airtableResponse) hdrs)))
                 (fun error =>
                    PathVariant.error_response (request ctx) 502
                      [ (str "error", VString (str "Failed to fetch from Airtable"));
                        (str "details", VMessage error) ]) = Normal resp
               /\ (status resp = 502
                   \/ exists r, PathVariant.fetch pf call = Normal r
                                /\ status resp = upstream_status r)).
  { intros call hdrs.
    destruct (PathVariant.fetch pf call) as [r|e]; cbn [bind try_catch];
      [|eexists; split; [reflexivity | left; reflexivity]].
    destruct (PathVariant.json J (upstream_text r)) as [data|e];
      cbn [bind try_catch]; [|eexists; split; [reflexivity | left; reflexivity]].
    destruct (new_Response _ _ _) as [resp|e] eqn:En; cbn [try_catch];
      [|eexists; split; [reflexivity | left; reflexivity]].
    exists resp. split; [reflexivity|]. right. exists r. split; [reflexivity|].
    apply new_Response_Normal in En. subst resp. reflexivity. }
  destruct (includes _ (method (request ctx))).
  - destruct (PathVariant.json J (request_text (request ctx))) as [body|e];
      [|eexists; split; [reflexivity | right; left; cbn; lia]].
    cbn [PathVariant.outcome PathVariant.fetched].
    match goal with
    | |- context [try_catch (bind (PathVariant.fetch pf ?c) _) _] =>
        destruct (Hrelay c
                    (object_literal
                       ([ (str "Content-Type", str "application/json");
                          (str "X-RateLimit-Limit",
                           Number_toString PathVariant.RATE_LIMIT);
                          (str "X-RateLimit-Remaining",
                           Number_toString (PathVariant.remaining rl)) ]
                        ++ PathVariant.getCorsHeaders (request ctx))))
          as (resp & Hr & Hs);
        exists resp; split; [exact Hr|];
        destruct Hs as [Hs | (r & Hfr & Hs)];
        [ right; left; rewrite Hs; lia
        | right; right; exists c, r; split; [left; reflexivity | split; assumption] ]
    end.
  - cbn [PathVariant.outcome PathVariant.fetched].
    match goal with
    | |- context [try_catch (bind (PathVariant.fetch pf ?c) _) _] =>
        destruct (Hrelay c
                    (object_literal
                       ([ (str "Content-Type", str "application/json");
                          (str "X-RateLimit-Limit",
                           Number_toString PathVariant.RATE_LIMIT);
                          (str "X-RateLimit-Remaining",
                           Number_toString (PathVariant.remaining rl)) ]
                        ++ PathVariant.getCorsHeaders (request ctx))))
          as (resp & Hr & Hs);
        exists resp; split; [exact Hr|];
        destruct Hs as [Hs | (r & Hfr & Hs)];
        [ right; left; rewrite Hs; lia
        | right; right; exists c, r; split; [left; reflexivity | split; assumption] ]
    end.
Qed.

Lemma Q_validatePath_throws_inv (p : option (list Z)) (e : exn) :
  QueryVariant.validatePath p = Throw e ->
  exists path,
    p = Some path
    /\ startsWith path QueryVariant.ALLOWED_BASE = true
    /\ decodeURIComponent
         (hd [] (split 47 (replace (QueryVariant.ALLOWED_BASE ++ str "/") [] path)))
       = Throw URIError
    /\ e = URIError.
Proof.
  intros H. pose proof (Q_validatePath_throws p e H) as ->.
  unfold QueryVariant.validatePath, bind in H.
  destruct p as [path|]; [|discriminate].
  destruct (truthy path); cbn [negb] in H; [|discriminate].
  destruct (startsWith path QueryVariant.ALLOWED_BASE) eqn:Es;
    cbn [negb] in H; [|discriminate].
  destruct (truthy (hd [] _)); cbn [negb] in H; [|discriminate].
  destruct (decodeURIComponent _) as [d|e'] eqn:Ed.
  - destruct (negb _ && negb _); discriminate.
  - exists path. repeat split; try assumption.
    unfold decodeURIComponent in Ed |- *.
    destruct (Decode _ _); [discriminate | reflexivity].
Qed.

(** X16.  The query-parameter proxy lets one exception escape, the
    [URIError] of [decodeURIComponent], and in one situation: the request
    is no preflight and has passed the origin gate (it is a [GET], or its
    origin is listed), the limiter (whose update of the map stands) and the
    configuration check, its path starts with the allowed base, and the
    table segment holds a malformed escape.  No upstream call is made.  In
    every other situation the handler returns a response. *)
Theorem X16_query_proxy_throws_only_on_a_malformed_escape :
  forall (ctx : Context) (pf : QueryVariant.Platform)
         (m : gmap (list Z) QueryVariant.RateRecord) (e : exn),
    QueryVariant.outcome (QueryVariant.onRequest ctx pf m) = Throw e ->
    e = URIError
    /\ method (request ctx) <> str "OPTIONS"
    /\ (method (request ctx) = str "GET"
        \/ In (QueryVariant.origin_of (request ctx)) QueryVariant.ALLOWED_ORIGINS)
    /\ QueryVariant.fetched (QueryVariant.onRequest ctx pf m) = []
    /\ QueryVariant.store_after (QueryVariant.onRequest ctx pf m) =
         fst (QueryVariant.checkRateLimit (QueryVariant.Date_now pf)
                (QueryVariant.clientIP_of (request ctx)) m)
    /\ snd (QueryVariant.checkRateLimit (QueryVariant.Date_now pf)
              (QueryVariant.clientIP_of (request ctx)) m) = true
    /\ truthy_opt (env_AIRTABLE_TOKEN ctx) = true
    /\ exists path,
         searchParams_get (str "path") (url_searchParams (request ctx)) = Some path
         /\ startsWith path QueryVariant.ALLOWED_BASE = true
         /\ decodeURIComponent
              (hd [] (split 47 (replace (QueryVariant.ALLOWED_BASE ++ str "/")
                                        [] path)))
            = Throw URIError.
Proof.
  intros ctx pf m e. unfold QueryVariant.onRequest.
  destruct (QueryVariant.checkRateLimit _ _ m) as [m' ok].
  destruct (str_eqb (method (request ctx)) (str "OPTIONS")) eqn:Em;
    [discriminate|].
  destruct (negb (str_eqb (method (request ctx)) (str "GET")) && _) eqn:Eg;
    [discriminate|].
  apply Q_origin_gate_passed in Eg.
  assert (Hm : method (request ctx) <> str "OPTIONS")
    by (intros H; apply str_eqb_eq in H; congruence).
  destruct ok; cbn [negb]; [|discriminate].
  destruct (truthy_opt (env_AIRTABLE_TOKEN ctx)); cbn [negb]; [|discriminate].
  destruct (QueryVariant.validatePath _) as [v|e'] eqn:Ev.
  - destruct (negb (QueryVariant.valid v)); cbn [QueryVariant.outcome];
      [discriminate|].
    intros H. exfalso.
    destruct (QueryVariant.fetch pf _) as [r|e1]; cbn [bind try_catch] in H;
      [|discriminate].
    destruct (upstream_text r) as [t|e1]; cbn [bind try_catch] in H;
      [|discriminate].
    destruct (new_Response (Text t) _ _); cbn [try_catch] in H; discriminate.
  - cbn [QueryVariant.outcome QueryVariant.fetched QueryVariant.store_after fst snd].
    intros [= <-].
    destruct (Q_validatePath_throws_inv _ _ Ev) as (path & Hp & Hs & Hd & ->).
    split; [reflexivity|]. split; [exact Hm|]. split; [exact Eg|].
    repeat split. exists path. repeat split; assumption.
Qed.

Lemma X16_query_proxy_throws_only_on_a_malformed_escape_witness :
  method Samples.malformed_request <> str "OPTIONS"
  /\ (method Samples.malformed_request = str "GET"
      \/ In (QueryVariant.origin_of Samples.malformed_request)
            QueryVariant.ALLOWED_ORIGINS)
  /\ QueryVariant.fetched
       (QueryVariant.onRequest (Samples.with_token Samples.malformed_request)
          (Samples.query_upstream 200 (str "{}")) ∅) = []
  /\ exists path,
       searchParams_get (str "path") (url_searchParams Samples.malformed_request)
       = Some path
       /\ startsWith path QueryVariant.ALLOWED_BASE = true
       /\ decodeURIComponent
            (hd [] (split 47 (replace (QueryVariant.ALLOWED_BASE ++ str "/") [] path)))
          = Throw URIError.
Proof.
  destruct (X16_query_proxy_throws_only_on_a_malformed_escape
              (Samples.with_token Samples.malformed_request)
              (Samples.query_upstream 200 (str "{}")) ∅ URIError)
    as (_ & Hm & Ho & Hf & _ & _ & _ & Hp).
  - vm_compute. reflexivity.
  - split; [exact Hm|]. split; [exact Ho|]. split; [exact Hf | exact Hp].
Defined.

(** ** Forwarded query parameters *)

Lemma searchParams_get_filter_other (k name : list Z)
    (l : list (list Z * list Z)) :
  str_eqb k name = false ->
  searchParams_get name
    (List.filter (fun p => negb (str_eqb (fst p) k)) l)
  = searchParams_get name l.
Proof.
  intros Hne. unfold searchParams_get.
  induction l as [|[k' v'] l IH]; cbn [List.filter List.find fst]; [reflexivity|].
  destruct (str_eqb k' k) eqn:Ek; cbn [negb List.find fst].
  - apply str_eqb_eq in Ek. subst k'. rewrite Hne. exact IH.
  - destruct (str_eqb k' name); [reflexivity | exact IH].
Qed.

Lemma searchParams_get_set (k v name : list Z) (l : list (list Z * list Z)) :
  searchParams_get name (searchParams_set k v l)
  = if str_eqb k name then Some v else searchParams_get name l.
Proof.
  induction l as [|[k' v'] l IH]; cbn [searchParams_set].
  - unfold searchParams_get. cbn [List.find fst].
    destruct (str_eqb k name); reflexivity.
  - destruct (str_eqb k' k) eqn:Ek.
    + apply str_eqb_eq in Ek. subst k'.
      destruct (str_eqb k name) eqn:En.
      * unfold searchParams_get. cbn [List.find fst]. rewrite En. reflexivity.
      * pose proof (searchParams_get_filter_other k name l En) as Hf.
        unfold searchParams_get in *. cbn [List.find fst]. rewrite En. exact Hf.
    + unfold searchParams_get in *. cbn [List.find fst].
      destruct (str_eqb k' name) eqn:En.
      * destruct (str_eqb k name) eqn:En'; [|reflexivity].
        apply str_eqb_eq in En, En'. subst. rewrite str_eqb_refl in Ek. discriminate.
      * exact IH.
Qed.

Lemma searchParams_get_app (name : list Z) (a b : list (list Z * list Z)) :
  searchParams_get name (a ++ b)
  = match searchParams_get name a with
    | Some v => Some v
    | None => searchParams_get name b
    end.
Proof.
  unfold searchParams_get. induction a as [|[k v] a IH]; cbn [app List.find fst];
    [reflexivity|].
  destruct (str_eqb k name); [reflexivity | exact IH].
Qed.

(** The value the loop leaves for a name that passes its test: the last
    inbound value of that name, or the value the URL had. *)
Lemma forward_params_value (inbound : list (list Z * list Z)) :
  forall (u : URL) (name : list Z),
    searchParams_get name (searchParams (QueryVariant.forward_params inbound u))
    = if QueryVariant.forwarded name
      then match searchParams_get name (rev inbound) with
           | Some v => Some v
           | None => searchParams_get name (searchParams u)
           end
      else searchParams_get name (searchParams u).
Proof.
  unfold QueryVariant.forward_params.
  induction inbound as [|[k v] l IH]; intros u name; cbn [fold_left rev].
  - destruct (QueryVariant.forwarded name); reflexivity.
  - rewrite IH, searchParams_get_app.
    assert (HU : searchParams_get name
                   (searchParams (if QueryVariant.forwarded k
                                  then URL_set k v u else u))
                 = if QueryVariant.forwarded k && str_eqb k name
                   then Some v else searchParams_get name (searchParams u)).
    { destruct (QueryVariant.forwarded k); cbn [andb]; [|reflexivity].
      cbn [URL_set searchParams]. apply searchParams_get_set. }
    rewrite HU.
    assert (H1 : searchParams_get name [(k, v)]
                 = if str_eqb k name then Some v else None).
    { unfold searchParams_get. cbn [List.find fst].
      destruct (str_eqb k name); reflexivity. }
    rewrite H1.
    destruct (str_eqb k name) eqn:Ek.
    + apply str_eqb_eq in Ek. subst k.
      destruct (QueryVariant.forwarded name);
        destruct (searchParams_get name (rev l)); reflexivity.
    + rewrite andb_false_r.
      destruct (QueryVariant.forwarded name);
        destruct (searchParams_get name (rev l)); reflexivity.
Qed.

Lemma filter_names_NoDup (k : list Z) (l : list (list Z * list Z)) :
  List.NoDup (List.map fst l) ->
  List.NoDup (List.map fst (List.filter (fun p => negb (str_eqb (fst p) k)) l)).
Proof.
  induction l as [|[k' v'] l IH]; cbn [List.filter List.map fst]; [auto|].
  intros H. apply List.NoDup_cons_iff in H. destruct H as [Hnotin Hnd].
  destruct (str_eqb k' k); cbn [negb List.map fst]; [apply IH; exact Hnd|].
  apply List.NoDup_cons_iff. split; [|apply IH; exact Hnd].
  intros Hin. apply Hnotin.
  apply in_map_iff in Hin. destruct Hin as (p & Hp1 & Hp2).
  apply List.filter_In in Hp2. apply in_map_iff. exists p. tauto.
Qed.

Lemma searchParams_set_NoDup (k v : list Z) (l : list (list Z * list Z)) :
  List.NoDup (List.map fst l) -> List.NoDup (List.map fst (searchParams_set k v l)).
Proof.
  induction l as [|[k' v'] l IH]; cbn [searchParams_set List.map fst].
  - intros _. apply List.NoDup_cons_iff. split; [intros [] | constructor].
  - intros H. apply List.NoDup_cons_iff in H. destruct H as [Hnotin Hnd].
    destruct (str_eqb k' k) eqn:Ek; cbn [List.map fst].
    + apply List.NoDup_cons_iff. split; [|apply filter_names_NoDup; exact Hnd].
      intros Hin. apply Hnotin.
      apply in_map_iff in Hin. destruct Hin as (p & Hp1 & Hp2).
      apply List.filter_In in Hp2. apply in_map_iff. exists p. tauto.
    + apply List.NoDup_cons_iff. split; [|apply IH; exact Hnd].
      intros Hin.
      apply searchParams_set_names in Hin. destruct Hin as [Hin | ->];
        [contradiction|]. rewrite str_eqb_refl in Ek. discriminate.
Qed.

Lemma forward_params_NoDup (inbound : list (list Z * list Z)) :
  forall u, List.NoDup (List.map fst (searchParams u)) ->
            List.NoDup (List.map fst
                     (searchParams (QueryVariant.forward_params inbound u))).
Proof.
  unfold QueryVariant.forward_params.
  induction inbound as [|[k v] l IH]; intros u H; cbn [fold_left]; [exact H|].
  apply IH. destruct (QueryVariant.forwarded k); [|exact H].
  cbn [URL_set searchParams]. apply searchParams_set_NoDup, H.
Qed.

(** X17.  When the [path] value holds no [?], the names in the query of
    the upstream URL are exactly the inbound parameter names that pass the
    test of the loop: a name other than [path] that is one of [pageSize],
    [offset], [sort[0][field]], [sort[0][direction]], [filterByFormula],
    [view], or starts with [sort[].  Every other inbound name is dropped,
    and no name is added. *)
Theorem X17_forwarded_names_are_the_allowed_inbound_names :
  forall (ctx : Context) (pf : QueryVariant.Platform)
         (m : gmap (list Z) QueryVariant.RateRecord) (call : FetchCall URL)
         (name : list Z),
    In call (QueryVariant.fetched (QueryVariant.onRequest ctx pf m)) ->
    (forall path,
        searchParams_get (str "path") (url_searchParams (request ctx)) = Some path ->
        Forall not_question_mark path) ->
    In name (List.map fst (searchParams (fetch_url call)))
    <-> (In name (List.map fst (url_searchParams (request ctx)))
         /\ name <> str "path"
         /\ (In name [ str "pageSize"; str "offset"; str "sort[0][field]";
                       str "sort[0][direction]"; str "filterByFormula";
                       str "view" ]
             \/ startsWith name (str "sort[") = true)).
Proof.
  intros ctx pf m call name Hin Hq.
  rewrite (Q_forwarded_names_exact ctx pf m call name Hin Hq).
  split.
  - intros [H1 H2]. split; [exact H1|]. apply forwarded_excludes. exact H2.
  - intros (H1 & H2 & H3). split; [exact H1|].
    unfold QueryVariant.forwarded. apply andb_true_iff. split.
    + apply negb_true_iff, str_eqb_neq. exact H2.
    + apply orb_true_iff. destruct H3 as [H3 | H3]; [left | right; exact H3].
      apply includes_In. exact H3.
Qed.

Lemma X17_forwarded_names_are_the_allowed_inbound_names_witness :
  In (str "pageSize") (List.map fst (searchParams (fetch_url Samples.query_call)))
  <-> (In (str "pageSize") (List.map fst (url_searchParams Samples.get_request))
       /\ str "pageSize" <> str "path"
       /\ (In (str "pageSize")
              [ str "pageSize"; str "offset"; str "sort[0][field]";
                str "sort[0][direction]"; str "filterByFormula"; str "view" ]
           \/ startsWith (str "pageSize") (str "sort[") = true)).
Proof.
  apply (X17_forwarded_names_are_the_allowed_inbound_names
           (Samples.with_token Samples.get_request)
           Samples.query_upstream_down ∅ Samples.query_call (str "pageSize")).
  - left. vm_compute. reflexivity.
  - intros path Hp. vm_compute in Hp. injection Hp as <-.
    repeat constructor; unfold not_question_mark; lia.
Defined.

(** X18.  When the [path] value holds no [?], the query of the upstream
    URL holds each name once, and for a name that passes the test of the
    loop its value is the last inbound value of that name: of a repeated
    inbound parameter only the last value is forwarded.  A name that does
    not pass the test has no value upstream. *)
Theorem X18_last_inbound_value_is_forwarded_once :
  forall (ctx : Context) (pf : QueryVariant.Platform)
         (m : gmap (list Z) QueryVariant.RateRecord) (call : FetchCall URL),
    In call (QueryVariant.fetched (QueryVariant.onRequest ctx pf m)) ->
    (forall path,
        searchParams_get (str "path") (url_searchParams (request ctx)) = Some path ->
        Forall not_question_mark path) ->
    List.NoDup (List.map fst (searchParams (fetch_url call)))
    /\ forall name,
         searchParams_get name (searchParams (fetch_url call))
         = if QueryVariant.forwarded name
           then searchParams_get name (rev (url_searchParams (request ctx)))
           else None.
Proof.
  intros ctx pf m call Hin Hq.
  destruct (Q_onRequest_upstream ctx pf m call Hin)
    as (_ & _ & _ & _ & _ & _ & (path & Hp & _ & Hu) & _).
  pose proof (new_URL_no_query path (Hq path Hp)) as He.
  rewrite Hu. split.
  - apply forward_params_NoDup. rewrite He. constructor.
  - intros name. rewrite forward_params_value, He.
    destruct (QueryVariant.forwarded name); [|reflexivity].
    destruct (searchParams_get name (rev _)); reflexivity.
Qed.

Lemma X18_last_inbound_value_is_forwarded_once_witness :
  List.NoDup (List.map fst (searchParams (fetch_url Samples.repeated_call)))
  /\ forall name,
       searchParams_get name (searchParams (fetch_url Samples.repeated_call))
       = if QueryVariant.forwarded name
         then searchParams_get name (rev (url_searchParams Samples.repeated_request))
         else None.
Proof.
  apply (X18_last_inbound_value_is_forwarded_once
           (Samples.with_token Samples.repeated_request)
           Samples.query_upstream_down ∅ Samples.repeated_call).
  - left. vm_compute. reflexivity.
  - intros path Hp. vm_compute in Hp. injection Hp as <-.
    repeat constructor; unfold not_question_mark; lia.
Defined.

(** ** Path validation, in full *)

Lemma Q_listed_table_decodes (T : list Z) :
  In T QueryVariant.ALLOWED_TABLES -> exists d, decodeURIComponent T = Normal d.
Proof.
  intros H. cbn [In QueryVariant.ALLOWED_TABLES] in H.
  repeat (destruct H as [<- | H]; [eexists; vm_compute; reflexivity|]).
  destruct H.
Qed.

(** X19.  [validatePath] of the query-parameter proxy accepts a path
    exactly when it is the allowed base, a [/] and a rest whose first
    segment decodes and is on the table list as written or as decoded; no
    other path is valid.  A path it does not accept is returned invalid
    with one of its four messages, or makes it throw [URIError]; in
    particular a missing and an empty path are invalid with
    [Missing path parameter]. *)
Theorem X19_query_validatePath_accepts_exactly_the_allow_list :
  forall (p : option (list Z)),
    (QueryVariant.validatePath p =
       Normal {| QueryVariant.valid := true; QueryVariant.error := None |}
     <-> exists rest d,
           p = Some (QueryVariant.ALLOWED_BASE ++ str "/" ++ rest)
           /\ decodeURIComponent (hd [] (split 47 rest)) = Normal d
           /\ (In (hd [] (split 47 rest)) QueryVariant.ALLOWED_TABLES
               \/ In d QueryVariant.ALLOWED_TABLES))
    /\ (forall v, QueryVariant.validatePath p = Normal v ->
                  (QueryVariant.valid v = true /\ QueryVariant.error v = None)
                  \/ (QueryVariant.valid v = false
                      /\ exists message,
                           QueryVariant.error v = Some message
                           /\ In message [ str "Missing path parameter";
                                           str "Invalid base ID";
                                           str "Missing table name";
                                           str "Table not allowed" ]))
    /\ (forall e, QueryVariant.validatePath p = Throw e -> e = URIError)
    /\ ((p = None \/ p = Some []) ->
        QueryVariant.validatePath p =
          Normal (QueryVariant.invalid (str "Missing path parameter"))).
Proof.
  intros p. split; [|split; [|split]].
  - split.
    + intros H.
      destruct (Q_validatePath_valid_inv p _ H eq_refl) as (rest & Hp & Ht).
      destruct Ht as [Ht | (d & Hd & Ht)].
      * destruct (Q_listed_table_decodes _ Ht) as (d & Hd).
        exists rest, d. tauto.
      * exists rest, d. tauto.
    + intros (rest & d & -> & Hd & Ht).
      unfold QueryVariant.validatePath.
      replace (truthy (QueryVariant.ALLOWED_BASE ++ str "/" ++ rest)) with true
        by (vm_compute; reflexivity).
      rewrite startsWith_prefix, Q_replace_with_slash. cbn [negb].
      destruct (hd [] (split 47 rest)) as [|c t] eqn:Eh.
      * exfalso. vm_compute in Hd. injection Hd as <-.
        destruct Ht as [Ht | Ht]; apply includes_In in Ht;
          vm_compute in Ht; discriminate.
      * cbn [truthy negb]. rewrite Hd. cbn [bind].
        destruct Ht as [Ht | Ht]; apply includes_In in Ht; rewrite Ht; cbn [negb andb];
          [reflexivity | rewrite andb_false_r; reflexivity].
  - intros v H. destruct (QueryVariant.valid v) eqn:Ev.
    + left. split; [reflexivity|].
      unfold QueryVariant.validatePath, bind, QueryVariant.invalid in H.
      repeat case_match; try discriminate; injection H as <-;
        cbn in Ev |- *; congruence.
    + right. split; [reflexivity|].
      apply (Q_validatePath_invalid_error p v H Ev).
  - intros e H. apply (Q_validatePath_throws p e H).
  - intros [-> | ->]; reflexivity.
Qed.

Lemma X19_query_validatePath_accepts_exactly_the_allow_list_witness :
  QueryVariant.validatePath (Some (str "applOjDjhH0RqLtBH/T%65am%20Members/rec1")) =
    Normal {| QueryVariant.valid := true; QueryVariant.error := None |}.
Proof.
  apply (X19_query_validatePath_accepts_exactly_the_allow_list
           (Some (str "applOjDjhH0RqLtBH/T%65am%20Members/rec1"))).
  exists (str "T%65am%20Members/rec1"), (str "Team Members").
  split; [reflexivity|]. split; [vm_compute; reflexivity|].
  right. cbn. tauto.
Defined.

(** X20.  [validatePath] of the path-segment proxy accepts a path exactly
    when its segments that are not empty are two or three, the first an
    allowed base and the second an allowed table; empty segments (a
    leading, trailing or doubled [/]) are ignored.  A valid result names
    that base and that table and passes the third segment, if any, on as
    the record without looking at it; an invalid one carries one of three
    messages. *)
Theorem X20_path_validatePath_accepts_exactly_the_allow_list :
  forall (path : list Z),
    let parts := filter_Boolean (split 47 path) in
    let v := PathVariant.validatePath path in
    (PathVariant.valid v = true
     <-> ((List.length parts = 2 \/ List.length parts = 3)%nat
          /\ In (nth 0 parts []) (PathVariant.bases PathVariant.ALLOWED_PATHS)
          /\ In (nth 1 parts []) (PathVariant.tables PathVariant.ALLOWED_PATHS)))
    /\ (PathVariant.valid v = true ->
        PathVariant.baseId v = Some (nth 0 parts [])
        /\ PathVariant.tableName v = Some (nth 1 parts [])
        /\ PathVariant.recordId v = nth_error parts 2
        /\ PathVariant.error v = None)
    /\ (PathVariant.valid v = false ->
        exists message,
          PathVariant.error v = Some message
          /\ In message [ str "Invalid path format"; str "Base not allowed";
                          str "Table not allowed" ])
    /\ Forall (fun seg => seg <> [] /\ Forall (fun c => c <> 47) seg) parts.
Proof.
  intros path. cbv zeta. split; [|split; [|split]].
  - apply P_validatePath_valid_iff.
  - intros H. destruct (P_validatePath_fields path H) as (Hf & _).
    cbv zeta in Hf. rewrite Hf. repeat split.
  - apply P_validatePath_invalid_error.
  - apply List.Forall_forall. intros seg Hseg.
    unfold filter_Boolean in Hseg. apply List.filter_In in Hseg.
    destruct Hseg as [Hin Ht]. split.
    + intros ->. discriminate.
    + apply (split_no_separator 47 path seg Hin).
Qed.

Lemma X20_path_validatePath_accepts_exactly_the_allow_list_witness :
  PathVariant.baseId (PathVariant.validatePath (str "/appXXXXXXXXXXXXXX//Leads/rec9/"))
  = Some (str "appXXXXXXXXXXXXXX")
  /\ PathVariant.tableName
       (PathVariant.validatePath (str "/appXXXXXXXXXXXXXX//Leads/rec9/"))
     = Some (str "Leads")
  /\ PathVariant.recordId
       (PathVariant.validatePath (str "/appXXXXXXXXXXXXXX//Leads/rec9/"))
     = Some (str "rec9")
  /\ PathVariant.error
       (PathVariant.validatePath (str "/appXXXXXXXXXXXXXX//Leads/rec9/"))
     = None.
Proof.
  destruct (X20_path_validatePath_accepts_exactly_the_allow_list
              (str "/appXXXXXXXXXXXXXX//Leads/rec9/")) as (_ & H & _).
  apply H. vm_compute. reflexivity.
Defined.

(** ** The origin gate and the refusals *)

(** X8.  The query-parameter proxy refuses a request that is neither
    [OPTIONS] nor [GET] and whose origin is not on [ALLOWED_ORIGINS] (a
    missing [Origin] header included) with 403 [Origin not allowed], before
    the limiter: the map is left as it was and no upstream call is made.  A
    request that passes the gate is counted by the limiter, and an upstream
    call is made only for a [GET] or for a listed origin. *)
Theorem X8_query_proxy_origin_gate :
  forall (ctx : Context) (pf : QueryVariant.Platform)
         (m : gmap (list Z) QueryVariant.RateRecord),
    let run := QueryVariant.onRequest ctx pf m in
    (method (request ctx) <> str "OPTIONS" ->
     method (request ctx) <> str "GET" ->
     ~ In (QueryVariant.origin_of (request ctx)) QueryVariant.ALLOWED_ORIGINS ->
     run =
       {| QueryVariant.store_after := m; QueryVariant.fetched := [];
          QueryVariant.outcome :=
            Normal {| status := 403;
                      headers :=
                        [ (str "Access-Control-Allow-Origin", str "https://prioai.ca");
                          (str "Access-Control-Allow-Methods",
                           str "GET, POST, PATCH, DELETE, OPTIONS");
                          (str "Access-Control-Allow-Headers", str "Content-Type");
                          (str "Access-Control-Max-Age", str "86400");
                          (str "Content-Type", str "application/json") ];
                      body :=
                        JSON_stringify
                          (VObject [(str "error",
                                     VString (str "Origin not allowed"))]) |} |})
    /\ (method (request ctx) <> str "OPTIONS" ->
        QueryVariant.origin_passes (request ctx) ->
        QueryVariant.store_after run =
          fst (QueryVariant.checkRateLimit (QueryVariant.Date_now pf)
                 (QueryVariant.clientIP_of (request ctx)) m))
    /\ (forall call, In call (QueryVariant.fetched run) ->
                     QueryVariant.origin_passes (request ctx)).
Proof.
  intros ctx pf m. cbv zeta. split; [|split].
  - intros Hm Hg Ho.
    rewrite (Q_onRequest_origin_refused ctx pf m Hm)
      by (intros [H | H]; [exact (Hg H) | exact (Ho H)]).
    unfold QueryVariant.getCorsHeaders.
    destruct (includes _ _) eqn:E; [apply includes_In in E; contradiction|].
    reflexivity.
  - intros Hm Ho.
    unfold QueryVariant.onRequest.
    rewrite (method_is_not _ _ Hm), (Q_origin_gate_open _ Ho).
    destruct (QueryVariant.checkRateLimit _ _ _) as [m' a].
    repeat case_match; reflexivity.
  - intros call Hc. unfold QueryVariant.onRequest in Hc.
    destruct (str_eqb (method (request ctx)) (str "OPTIONS")); [destruct Hc|].
    destruct (negb (str_eqb (method (request ctx)) (str "GET"))
              && negb (includes QueryVariant.ALLOWED_ORIGINS
                         (QueryVariant.origin_of (request ctx)))) eqn:Eg;
      [destruct Hc|].
    apply Q_origin_gate_passed. exact Eg.
Qed.

Lemma X8_query_proxy_origin_gate_witness :
  QueryVariant.onRequest
    (Samples.with_token
       (Samples.a_request (str "DELETE") (Some (str "https://evil.example"))
          (Normal [])))
    (Samples.query_upstream 200 (str "{}")) ∅
  = {| QueryVariant.store_after := ∅; QueryVariant.fetched := [];
       QueryVariant.outcome :=
         Normal {| status := 403;
                   headers :=
                     [ (str "Access-Control-Allow-Origin", str "https://prioai.ca");
                       (str "Access-Control-Allow-Methods",
                        str "GET, POST, PATCH, DELETE, OPTIONS");
                       (str "Access-Control-Allow-Headers", str "Content-Type");
                       (str "Access-Control-Max-Age", str "86400");
                       (str "Content-Type", str "application/json") ];
                   body :=
                     JSON_stringify
                       (VObject [(str "error",
                                  VString (str "Origin not allowed"))]) |} |}.
Proof.
  apply (X8_query_proxy_origin_gate
           (Samples.with_token
              (Samples.a_request (str "DELETE") (Some (str "https://evil.example"))
                 (Normal [])))
           (Samples.query_upstream 200 (str "{}")) ∅).
  - vm_compute. discriminate.
  - vm_compute. discriminate.
  - vm_compute. intros H. repeat (destruct H as [H | H]; [discriminate H|]).
    destruct H.
Defined.

(** X21.  A request for a resource off the allow-list is refused after it
    has been counted, and without an upstream call.  In the path-segment
    proxy a request that has passed the configuration check and the limiter
    is answered 400 [Invalid endpoint] when its pathname is not
    [/api/airtable/] and something more, and 403 with the message of
    [validatePath] when the path is not valid; in the query-parameter proxy
    a request that has passed the origin gate, the limiter and the
    configuration check is answered 400 with the message of
    [validatePath].  In each case the limiter's update of the map stands. *)
Theorem X21_refused_paths :
  forall (J : list Z -> option (list Z)) (ctx : Context)
         (pfp : PathVariant.Platform) (pfq : QueryVariant.Platform)
         (mp : gmap (list Z) PathVariant.RateRecord)
         (mq : gmap (list Z) QueryVariant.RateRecord),
    let plimiter :=
      PathVariant.checkRateLimit (PathVariant.Date_now pfp)
        (PathVariant.getRateLimitKey (request ctx)) mp in
    let qlimiter :=
      QueryVariant.checkRateLimit (QueryVariant.Date_now pfq)
        (QueryVariant.clientIP_of (request ctx)) mq in
    (method (request ctx) <> str "OPTIONS" ->
     truthy_opt (env_AIRTABLE_TOKEN ctx) = true ->
     PathVariant.allowed (snd plimiter) = true ->
     (PathVariant.pathMatch (url_pathname (request ctx)) = None ->
      PathVariant.onRequest J ctx pfp mp =
        {| PathVariant.store_after := fst plimiter; PathVariant.fetched := [];
           PathVariant.outcome :=
             Normal {| status := 400;
                       headers :=
                         object_literal
                           ((str "Content-Type", str "application/json")
                            :: PathVariant.getCorsHeaders (request ctx));
                       body :=
                         JSON_stringify
                           (VObject [(str "error",
                                      VString (str "Invalid endpoint"))]) |} |})
     /\ (forall airtablePath,
           PathVariant.pathMatch (url_pathname (request ctx)) = Some airtablePath ->
           PathVariant.valid (PathVariant.validatePath airtablePath) = false ->
           exists message,
             PathVariant.error (PathVariant.validatePath airtablePath)
             = Some message
             /\ In message [ str "Invalid path format"; str "Base not allowed";
                             str "Table not allowed" ]
             /\ PathVariant.onRequest J ctx pfp mp =
                  {| PathVariant.store_after := fst plimiter;
                     PathVariant.fetched := [];
                     PathVariant.outcome :=
                       Normal {| status := 403;
                                 headers :=
                                   object_literal
                                     ((str "Content-Type", str "application/json")
                                      :: PathVariant.getCorsHeaders (request ctx));
                                 body :=
                                   JSON_stringify
                                     (VObject [(str "error",
                                                VString message)]) |} |}))
    /\ (method (request ctx) <> str "OPTIONS" ->
        QueryVariant.origin_passes (request ctx) ->
        snd qlimiter = true ->
        truthy_opt (env_AIRTABLE_TOKEN ctx) = true ->
        forall v,
          QueryVariant.validatePath
            (searchParams_get (str "path") (url_searchParams (request ctx)))
          = Normal v ->
          QueryVariant.valid v = false ->
          exists message,
            QueryVariant.error v = Some message
            /\ In message [ str "Missing path parameter"; str "Invalid base ID";
                            str "Missing table name"; str "Table not allowed" ]
            /\ QueryVariant.onRequest ctx pfq mq =
                 {| QueryVariant.store_after := fst qlimiter;
                    QueryVariant.fetched := [];
                    QueryVariant.outcome :=
                      Normal {| status := 400;
                                headers :=
                                  QueryVariant.json_headers
                                    (QueryVariant.getCorsHeaders
                                       (QueryVariant.origin_of (request ctx)));
                                body :=
                                  JSON_stringify
                                    (VObject [(str "error",
                                               VString message)]) |} |}).
Proof.
  intros J ctx pfp pfq mp mq. cbv zeta. split.
  - intros Hm Ht Ha. unfold PathVariant.onRequest.
    rewrite (method_is_not _ _ Hm), Ht. cbn [negb].
    destruct (PathVariant.checkRateLimit _ _ mp) as [m' rl].
    cbn [fst snd] in *. rewrite Ha. cbn [negb]. split.
    + intros ->. reflexivity.
    + intros p -> Hv. rewrite Hv. cbn [negb].
      destruct (P_validatePath_invalid_error p Hv) as (msg & Hmsg & Hin).
      exists msg. split; [exact Hmsg|]. split; [exact Hin|].
      rewrite Hmsg. reflexivity.
  - intros Hm Ho Ha Ht v Hv Hf. unfold QueryVariant.onRequest.
    rewrite (method_is_not _ _ Hm), (Q_origin_gate_open _ Ho).
    destruct (QueryVariant.checkRateLimit _ _ mq) as [m' a].
    cbn [fst snd] in *. subst a. cbn [negb]. rewrite Ht. cbn [negb].
    rewrite Hv, Hf. cbn [negb].
    destruct (Q_validatePath_invalid_error _ v Hv Hf) as (msg & Hmsg & Hin).
    exists msg. split; [exact Hmsg|]. split; [exact Hin|].
    rewrite Hmsg. reflexivity.
Qed.

Lemma X21_refused_paths_witness :
  PathVariant.error
    (PathVariant.validatePath (str "appXXXXXXXXXXXXXX/Secrets"))
  = Some (str "Table not allowed")
  /\ PathVariant.onRequest Samples.only_empty_json
       (Samples.with_token
          (Samples.with_pathname Samples.get_request
             (str "/api/airtable/appXXXXXXXXXXXXXX/Secrets")))
       Samples.path_upstream_down ∅
     = {| PathVariant.store_after :=
            {[ Samples.ip := {| PathVariant.count := 1;
                                PathVariant.timestamp := Samples.now |} ]};
          PathVariant.fetched := [];
          PathVariant.outcome :=
            Normal {| status := 403;
                      headers :=
                        [ (str "Content-Type", str "application/json");
                          (str "Access-Control-Allow-Methods",
                           str "GET, POST, PATCH, DELETE, OPTIONS");
                          (str "Access-Control-Allow-Headers",
                           str "Content-Type, Authorization, X-Requested-With");
                          (str "Access-Control-Max-Age", str "86400") ];
                      body :=
                        JSON_stringify
                          (VObject [(str "error",
                                     VString (str "Table not allowed"))]) |} |}.
Proof.
  destruct (X21_refused_paths Samples.only_empty_json
              (Samples.with_token
                 (Samples.with_pathname Samples.get_request
                    (str "/api/airtable/appXXXXXXXXXXXXXX/Secrets")))
              Samples.path_upstream_down Samples.query_upstream_down ∅ ∅)
    as (H & _).
  destruct H as (_ & H).
  - vm_compute. discriminate.
  - vm_compute. reflexivity.
  - vm_compute. reflexivity.
  - destruct (H (str "appXXXXXXXXXXXXXX/Secrets")) as (msg & Hmsg & Hin & Hrun).
    + vm_compute. reflexivity.
    + vm_compute. reflexivity.
    + assert (E : msg = str "Table not allowed").
      { vm_compute in Hmsg. injection Hmsg as <-. vm_compute. reflexivity. }
      subst msg. split; [exact Hmsg|]. rewrite Hrun. vm_compute. reflexivity.
Defined.

(** ** The rate-limit headers, by response *)



